(** * YT Channel Downloader: the main window's control logic

    A shallow embedding of [src/classes/mainwindow.py].  The window is a
    record of the attributes the slots read and write; every slot is a
    function on that record.  Slots that can raise a Python exception run
    in a small state-and-exception monad, so that what a loop changed
    before it raised stays changed; an exception that leaves a slot
    called by Qt ends that slot and nothing else.  The table is the one
    model object of the window: a change of one of its items runs
    [update_download_button_state], the slot of its [itemChanged] signal,
    which sets the download button.  Threads are records of what they
    were made with and of the slots connected to their signals.  The
    window names one fetch thread at a time, in [get_list_thread]; the
    download threads it started it keeps in [dl_threads].

    Collaborators whose code lives in other modules are taken as
    parameters: the file probe [DownloadThread.is_download_complete], the
    sanitiser [DownloadThread.sanitize_filename], the URL predicates and
    the channel lookup of [YTChannel], and the builtin [int] on strings.
    [os.path.join] is that of [posixpath].  The body of a download thread
    is in [classes/download_thread.py]; what it does with the semaphore
    of the window it was handed is modelled from the specification, in
    [Pool].

    The window's geometry and the login menu entry touch none of those
    attributes; they are modelled on their own, in [Geometry] and
    [Login].  Left out: styling, the About and Settings dialogs and the
    inside of the login dialog. *)

From Stdlib Require Import ZArith Ascii String.
From stdpp Require Import base option list gmap strings pretty.

Open Scope string_scope.
Open Scope list_scope.
Open Scope nat_scope.

(** ** Qt values *)

Module Qt.

(** [Qt.CheckState] *)
Inductive CheckState := Unchecked | PartiallyChecked | Checked.

#[global] Instance CheckState_eq_dec : EqDecision CheckState.
Proof. solve_decision. Defined.

(** [Qt.ItemFlag], as the bit masks Qt gives them. *)
Definition ItemIsSelectable : Z := 1.
Definition ItemIsEditable : Z := 2.
Definition ItemIsDragEnabled : Z := 4.
Definition ItemIsDropEnabled : Z := 8.
Definition ItemIsUserCheckable : Z := 16.
Definition ItemIsEnabled : Z := 32.
Definition ItemIsUserTristate : Z := 256.

(** The flags of a freshly constructed [QStandardItem]. *)
Definition default_flags : Z :=
  Z.lor ItemIsSelectable
    (Z.lor ItemIsEnabled
       (Z.lor ItemIsEditable (Z.lor ItemIsDragEnabled ItemIsDropEnabled))).

Definition has_flag (flags mask : Z) : bool :=
  negb (Z.land flags mask =? 0)%Z.

(** What an item holds under [Qt.ItemDataRole.DisplayRole]. *)
Inductive QVariant :=
| VInvalid
| VStr (s : string)
| VBool (b : bool).

#[global] Instance QVariant_eq_dec : EqDecision QVariant.
Proof. solve_decision. Defined.

End Qt.

Import Qt.

(** [QStandardItem]: display data, flags, check state and the colour of
    the foreground brush when one was set. *)
Record QStandardItem := mkItem {
  it_display : QVariant;
  it_flags : Z;
  it_check : CheckState;
  it_foreground : option string
}.

#[global] Instance QStandardItem_eq_dec : EqDecision QStandardItem.
Proof. solve_decision. Defined.

(** [QtGui.QStandardItem()] *)
Definition new_item : QStandardItem :=
  mkItem VInvalid default_flags Unchecked None.

(** [QtGui.QStandardItem(text)] *)
Definition new_text_item (s : string) : QStandardItem :=
  mkItem (VStr s) default_flags Unchecked None.

(** [item.text()] *)
Definition text (it : QStandardItem) : string :=
  match it_display it with
  | VInvalid => ""
  | VStr s => s
  | VBool true => "true"
  | VBool false => "false"
  end.

Definition setText (s : string) (it : QStandardItem) : QStandardItem :=
  mkItem (VStr s) (it_flags it) (it_check it) (it_foreground it).

(** [item.setCheckable(True)] *)
Definition setCheckable (it : QStandardItem) : QStandardItem :=
  mkItem (it_display it) (Z.lor (it_flags it) ItemIsUserCheckable)
         (it_check it) (it_foreground it).

Definition setFlags (f : Z) (it : QStandardItem) : QStandardItem :=
  mkItem (it_display it) f (it_check it) (it_foreground it).

Definition setForeground (colour : string) (it : QStandardItem)
  : QStandardItem :=
  mkItem (it_display it) (it_flags it) (it_check it) (Some colour).

Definition setCheckState (c : CheckState) (it : QStandardItem)
  : QStandardItem :=
  mkItem (it_display it) (it_flags it) c (it_foreground it).

Definition setDisplay (v : QVariant) (it : QStandardItem) : QStandardItem :=
  mkItem v (it_flags it) (it_check it) (it_foreground it).

Definition isCheckable (it : QStandardItem) : bool :=
  has_flag (it_flags it) ItemIsUserCheckable.

Definition isEnabled (it : QStandardItem) : bool :=
  has_flag (it_flags it) ItemIsEnabled.

(** [classes.enums.ColumnIndexes]; the numbers are those the slots use
    next to the names: 0 for the check box, 1 title, 2 link, 3 progress. *)
Inductive ColumnIndexes := DOWNLOAD | TITLE | LINK | PROGRESS.

(** A row of the [QStandardItemModel]: four cells, each holding an item
    or nothing (a row that [setItem] made by growing the model has
    nothing in the columns it did not set). *)
Record Row := mkRow {
  c_download : option QStandardItem;
  c_title : option QStandardItem;
  c_link : option QStandardItem;
  c_progress : option QStandardItem
}.

#[global] Instance Row_eq_dec : EqDecision Row.
Proof. solve_decision. Defined.

Definition empty_row : Row := mkRow None None None None.

Definition cell (r : Row) (c : ColumnIndexes) : option QStandardItem :=
  match c with
  | DOWNLOAD => c_download r
  | TITLE => c_title r
  | LINK => c_link r
  | PROGRESS => c_progress r
  end.

Definition set_cell (c : ColumnIndexes) (it : QStandardItem) (r : Row) : Row :=
  match c with
  | DOWNLOAD => mkRow (Some it) (c_title r) (c_link r) (c_progress r)
  | TITLE => mkRow (c_download r) (Some it) (c_link r) (c_progress r)
  | LINK => mkRow (c_download r) (c_title r) (Some it) (c_progress r)
  | PROGRESS => mkRow (c_download r) (c_title r) (c_link r) (Some it)
  end.

(** [model.item(row, column)]: [None] outside the table and for an empty
    cell. *)
Definition model_item (m : list Row) (row : nat) (c : ColumnIndexes)
  : option QStandardItem :=
  r ← m !! row; cell r c.

(** [model.setItem(row, column, item)]: Qt grows the table when the row is
    past the end, the new rows being empty. *)
Definition model_setItem (row : nat) (c : ColumnIndexes) (it : QStandardItem)
    (m : list Row) : list Row :=
  if decide (row < length m) then alter (set_cell c it) row m
  else m ++ replicate (row - length m) empty_row ++ [set_cell c it empty_row].

(** ** Paths *)

Fixpoint last_char (s : string) : option ascii :=
  match s with
  | EmptyString => None
  | String a EmptyString => Some a
  | String _ rest => last_char rest
  end.

Definition endswith_sep (s : string) : bool :=
  match last_char s with
  | Some a => bool_decide (a = "/"%char)
  | None => false
  end.

(** [os.path.join(a, b)] of [posixpath]: an absolute [b] replaces [a];
    otherwise the two are concatenated, with a separator unless [a] is
    empty or ends in one. *)
Definition os_path_join (a b : string) : string :=
  if String.prefix "/" b then b
  else if bool_decide (a = "") || endswith_sep a then a +:+ b
  else a +:+ "/" +:+ b.

(** ** Python values carried by the signals *)

Inductive PyVal :=
| PyNone
| PyInt (z : Z)
| PyStr (s : string).

#[global] Instance PyVal_eq_dec : EqDecision PyVal.
Proof. solve_decision. Defined.

Inductive exn :=
| KeyError | AttributeError | TypeError | ValueError | OverflowError.

(** ** Threads and their signal connections *)

(** The slots of the window that the code connects to each signal: the
    progress signal of a download thread carries a dict, its completion
    signal a single value, the [finished] signal of a fetch thread the
    list of (title, link) pairs. *)
Inductive ProgressSlot :=
| slot_handle_download_error
| slot_update_progress.

Inductive CompleteSlot :=
| slot_show_download_complete
| slot_populate_window_list.

Inductive FinishedSlot :=
| slot_handle_video_list
| slot_handle_single_video
| slot_enable_get_vid_list_button.

#[global] Instance ProgressSlot_eq_dec : EqDecision ProgressSlot.
Proof. solve_decision. Defined.
#[global] Instance CompleteSlot_eq_dec : EqDecision CompleteSlot.
Proof. solve_decision. Defined.
#[global] Instance FinishedSlot_eq_dec : EqDecision FinishedSlot.
Proof. solve_decision. Defined.

(** A reference to the [MainWindow] object, as [self] is one inside its
    methods.  The program makes one window. *)
Inductive MainWindowRef := self.

(** [DownloadThread(link, index, title, mainWindow)]; each signal is the
    list of slots connected to it, in connection order.  Through
    [dt_mainWindow] the thread reaches the window's attributes, the
    download semaphore among them. *)
Record DownloadThread := mkDownloadThread {
  dt_link : string;
  dt_index : nat;
  dt_title : string;
  dt_mainWindow : MainWindowRef;
  downloadCompleteSignal : list CompleteSlot;
  downloadProgressSignal : list ProgressSlot;
  dt_started : bool
}.

(** [GetListThread(channel_id, yt_channel, channel_url)]: the first
    argument is a channel id, one of the words "playlist" and "short", or
    [None]; the URL is absent in the two-argument call.  [gl_running] is
    [QThread.isRunning()]: set by [start()], cleared when the thread ends
    and emits [finished]. *)
Record GetListThread := mkGetListThread {
  gl_channel_id : option string;
  gl_channel_url : option string;
  finished : list FinishedSlot;
  gl_running : bool
}.

(** The dialogs the window opens, in the order it opened them. *)
Inductive Dialog :=
| QMessageBox_critical (title message : string)
| QMessageBox_warning (title message : string)
| QMessageBox_information (title message : string)
| CustomDialog (title message : string).

(** ** The window *)

Record MainWindow := mkMainWindow {
  window_resize_needed : bool;
  download_semaphore : nat;            (* free slots of the QSemaphore *)
  model : list Row;
  yt_chan_vids_titles_links : list (string * string);
  vid_dl_indexes : list nat;
  dl_threads : list DownloadThread;
  dl_path_correspondences : gmap string string;
  user_settings : gmap string string;
  select_all_checkbox_visible : bool;
  getVidListButton_enabled : bool;
  downloadSelectedVidsButton_enabled : bool;
  chanUrlEdit : string;
  get_list_thread : option GetListThread;  (* no attribute before the
                                            first request *)
  dialogs : list Dialog
}.

Definition set_window_resize_needed (b : bool) (w : MainWindow) :=
  mkMainWindow b (download_semaphore w) (model w)
    (yt_chan_vids_titles_links w) (vid_dl_indexes w) (dl_threads w)
    (dl_path_correspondences w) (user_settings w)
    (select_all_checkbox_visible w) (getVidListButton_enabled w)
    (downloadSelectedVidsButton_enabled w) (chanUrlEdit w)
    (get_list_thread w) (dialogs w).

Definition set_download_semaphore (n : nat) (w : MainWindow) :=
  mkMainWindow (window_resize_needed w) n (model w)
    (yt_chan_vids_titles_links w) (vid_dl_indexes w) (dl_threads w)
    (dl_path_correspondences w) (user_settings w)
    (select_all_checkbox_visible w) (getVidListButton_enabled w)
    (downloadSelectedVidsButton_enabled w) (chanUrlEdit w)
    (get_list_thread w) (dialogs w).

Definition set_model (m : list Row) (w : MainWindow) :=
  mkMainWindow (window_resize_needed w) (download_semaphore w) m
    (yt_chan_vids_titles_links w) (vid_dl_indexes w) (dl_threads w)
    (dl_path_correspondences w) (user_settings w)
    (select_all_checkbox_visible w) (getVidListButton_enabled w)
    (downloadSelectedVidsButton_enabled w) (chanUrlEdit w)
    (get_list_thread w) (dialogs w).

Definition set_yt_chan_vids_titles_links (l : list (string * string))
    (w : MainWindow) :=
  mkMainWindow (window_resize_needed w) (download_semaphore w) (model w)
    l (vid_dl_indexes w) (dl_threads w)
    (dl_path_correspondences w) (user_settings w)
    (select_all_checkbox_visible w) (getVidListButton_enabled w)
    (downloadSelectedVidsButton_enabled w) (chanUrlEdit w)
    (get_list_thread w) (dialogs w).

Definition set_vid_dl_indexes (l : list nat) (w : MainWindow) :=
  mkMainWindow (window_resize_needed w) (download_semaphore w) (model w)
    (yt_chan_vids_titles_links w) l (dl_threads w)
    (dl_path_correspondences w) (user_settings w)
    (select_all_checkbox_visible w) (getVidListButton_enabled w)
    (downloadSelectedVidsButton_enabled w) (chanUrlEdit w)
    (get_list_thread w) (dialogs w).

Definition set_dl_threads (l : list DownloadThread) (w : MainWindow) :=
  mkMainWindow (window_resize_needed w) (download_semaphore w) (model w)
    (yt_chan_vids_titles_links w) (vid_dl_indexes w) l
    (dl_path_correspondences w) (user_settings w)
    (select_all_checkbox_visible w) (getVidListButton_enabled w)
    (downloadSelectedVidsButton_enabled w) (chanUrlEdit w)
    (get_list_thread w) (dialogs w).

Definition set_dl_path_correspondences (d : gmap string string)
    (w : MainWindow) :=
  mkMainWindow (window_resize_needed w) (download_semaphore w) (model w)
    (yt_chan_vids_titles_links w) (vid_dl_indexes w) (dl_threads w)
    d (user_settings w)
    (select_all_checkbox_visible w) (getVidListButton_enabled w)
    (downloadSelectedVidsButton_enabled w) (chanUrlEdit w)
    (get_list_thread w) (dialogs w).

Definition set_user_settings (d : gmap string string) (w : MainWindow) :=
  mkMainWindow (window_resize_needed w) (download_semaphore w) (model w)
    (yt_chan_vids_titles_links w) (vid_dl_indexes w) (dl_threads w)
    (dl_path_correspondences w) d
    (select_all_checkbox_visible w) (getVidListButton_enabled w)
    (downloadSelectedVidsButton_enabled w) (chanUrlEdit w)
    (get_list_thread w) (dialogs w).

Definition set_select_all_checkbox_visible (b : bool) (w : MainWindow) :=
  mkMainWindow (window_resize_needed w) (download_semaphore w) (model w)
    (yt_chan_vids_titles_links w) (vid_dl_indexes w) (dl_threads w)
    (dl_path_correspondences w) (user_settings w)
    b (getVidListButton_enabled w)
    (downloadSelectedVidsButton_enabled w) (chanUrlEdit w)
    (get_list_thread w) (dialogs w).

Definition set_getVidListButton_enabled (b : bool) (w : MainWindow) :=
  mkMainWindow (window_resize_needed w) (download_semaphore w) (model w)
    (yt_chan_vids_titles_links w) (vid_dl_indexes w) (dl_threads w)
    (dl_path_correspondences w) (user_settings w)
    (select_all_checkbox_visible w) b
    (downloadSelectedVidsButton_enabled w) (chanUrlEdit w)
    (get_list_thread w) (dialogs w).

Definition set_downloadSelectedVidsButton_enabled (b : bool) (w : MainWindow) :=
  mkMainWindow (window_resize_needed w) (download_semaphore w) (model w)
    (yt_chan_vids_titles_links w) (vid_dl_indexes w) (dl_threads w)
    (dl_path_correspondences w) (user_settings w)
    (select_all_checkbox_visible w) (getVidListButton_enabled w)
    b (chanUrlEdit w)
    (get_list_thread w) (dialogs w).

Definition set_chanUrlEdit (s : string) (w : MainWindow) :=
  mkMainWindow (window_resize_needed w) (download_semaphore w) (model w)
    (yt_chan_vids_titles_links w) (vid_dl_indexes w) (dl_threads w)
    (dl_path_correspondences w) (user_settings w)
    (select_all_checkbox_visible w) (getVidListButton_enabled w)
    (downloadSelectedVidsButton_enabled w) s
    (get_list_thread w) (dialogs w).

Definition set_get_list_thread (t : option GetListThread) (w : MainWindow) :=
  mkMainWindow (window_resize_needed w) (download_semaphore w) (model w)
    (yt_chan_vids_titles_links w) (vid_dl_indexes w) (dl_threads w)
    (dl_path_correspondences w) (user_settings w)
    (select_all_checkbox_visible w) (getVidListButton_enabled w)
    (downloadSelectedVidsButton_enabled w) (chanUrlEdit w)
    t (dialogs w).

Definition set_dialogs (l : list Dialog) (w : MainWindow) :=
  mkMainWindow (window_resize_needed w) (download_semaphore w) (model w)
    (yt_chan_vids_titles_links w) (vid_dl_indexes w) (dl_threads w)
    (dl_path_correspondences w) (user_settings w)
    (select_all_checkbox_visible w) (getVidListButton_enabled w)
    (downloadSelectedVidsButton_enabled w) (chanUrlEdit w)
    (get_list_thread w) l.

(** ** Slots that may raise *)

Inductive Result (A : Type) :=
| Ok (a : A)
| Raise (e : exn).
Arguments Ok {A} a.
Arguments Raise {A} e.

(** A slot body: it reads and writes the window and either returns or
    raises; what it wrote before raising stays written. *)
Definition M (A : Type) : Type := MainWindow → Result A * MainWindow.

Definition ret {A} (a : A) : M A := λ w, (Ok a, w).

Definition bind {A B} (m : M A) (k : A → M B) : M B :=
  λ w, match m w with
       | (Ok a, w') => k a w'
       | (Raise e, w') => (Raise e, w')
       end.

Definition raise {A} (e : exn) : M A := λ w, (Raise e, w).
Definition get {A} (f : MainWindow → A) : M A := λ w, (Ok (f w), w).
Definition modify (f : MainWindow → MainWindow) : M unit :=
  λ w, (Ok tt, f w).

(** [x] or, when there is none, the exception [e]. *)
Definition or_raise {A} (e : exn) (x : option A) : M A :=
  match x with
  | Some a => ret a
  | None => raise e
  end.

Notation "x ←ₘ m ; k" := (bind m (λ x, k))
  (at level 100, m at next level, right associativity).
Notation "m ;ₘ k" := (bind m (λ _, k))
  (at level 100, right associativity).

(** [for x in l: body(x)] *)
Fixpoint for_each {A} (l : list A) (body : A → M unit) : M unit :=
  match l with
  | [] => ret tt
  | x :: rest => body x ;ₘ for_each rest body
  end.

(** ** Collaborators *)

(** The static methods of [DownloadThread] the window calls.  [FS] is
    the state of the file system the probe reads. *)
Class DownloadThreadStatics := {
  FS : Type;
  is_download_complete : FS → string → bool;
  sanitize_filename : string → string
}.

(** What [YTChannel.get_channel_id] does on a URL. *)
Inductive ChannelIdResult :=
| ChannelId (id : string)
| RaisesValueError
| RaisesURLError.

Class YTChannel := {
  is_video_with_playlist_url : string → bool;
  is_playlist_url : string → bool;
  is_video_url : string → bool;
  is_short_video_url : string → bool;
  get_channel_id : string → ChannelIdResult
}.

(** The builtin [int] on a [str]; [None] stands for its [ValueError]. *)
Class PyBuiltins := {
  int_of_str : string → option Z
}.

(** [int(v)] *)
Definition py_int `{PyBuiltins} (v : PyVal) : M Z :=
  match v with
  | PyInt z => ret z
  | PyStr s => or_raise ValueError (int_of_str s)
  | PyNone => raise TypeError
  end.

(** [str(v)], also what an f-string prints for [{v}]. *)
Definition py_str (v : PyVal) : string :=
  match v with
  | PyNone => "None"
  | PyInt z => pretty z
  | PyStr s => s
  end.

(** An [int] handed to Qt where the C++ signature has an [int]: outside
    the range of a C int the call raises [OverflowError] before Qt sees
    it. *)
Definition c_int (z : Z) : M Z :=
  if decide (-2 ^ 31 ≤ z < 2 ^ 31)%Z then ret z else raise OverflowError.

(** ** The download button and the model's [itemChanged] signal *)

(** The loop of [update_download_button_state], carrying the enabled
    state of [downloadSelectedVidsButton]; a row without an item in its
    first cell ends it with [AttributeError]. *)
Fixpoint button_loop (m : list Row) (rows : list nat) (enabled : bool)
  : Result unit * bool :=
  match rows with
  | [] => (Ok tt, enabled)
  | row :: rest =>
      match model_item m row DOWNLOAD with
      | None => (Raise AttributeError, enabled)
      | Some item =>
          button_loop m rest
            (if decide (it_check item = Checked) then true else enabled)
      end
  end.

(** [update_download_button_state]: how the slot ends and whether the
    download button is enabled afterwards. *)
Definition update_download_button_state (w : MainWindow)
  : Result unit * bool :=
  button_loop (model w) (seq 0 (length (model w))) false.

(** [model.itemChanged.emit(item)]: the signal is connected to
    [update_download_button_state] when the window is built (line 198)
    and the model object stays the same ever after.  Qt calls the slot
    from inside the call that changed the model: the button is left as
    the slot left it, and an exception the slot raises does not reach
    that call (PyQt hands it to [sys.excepthook]). *)
Definition emit_itemChanged (w : MainWindow) : MainWindow :=
  set_downloadSelectedVidsButton_enabled (update_download_button_state w).2 w.

(** The window after a call that may have changed the table, [m] being
    the table it left: [itemChanged] is emitted when the table is another
    one than before. *)
Definition with_model (m : list Row) (w : MainWindow) : MainWindow :=
  if decide (m = model w) then w else emit_itemChanged (set_model m w).

(** [model.setItem(row, column, item)] with a new item: the table takes
    the item, growing if it must, and emits [itemChanged] for it. *)
Definition setItem (row : nat) (c : ColumnIndexes) (it : QStandardItem)
  : M unit :=
  modify (λ w, emit_itemChanged
                 (set_model (model_setItem row c it (model w)) w)).

Section Slots.
Context `{DownloadThreadStatics, YTChannel, PyBuiltins}.

(** *** Construction *)

Definition init_download_structs (w : MainWindow) : MainWindow :=
  set_dl_path_correspondences ∅
    (set_dl_threads []
       (set_vid_dl_indexes []
          (set_yt_chan_vids_titles_links [] w))).

Definition connect_progress (s : ProgressSlot) (t : DownloadThread) :=
  mkDownloadThread (dt_link t) (dt_index t) (dt_title t) (dt_mainWindow t)
    (downloadCompleteSignal t) (downloadProgressSignal t ++ [s])
    (dt_started t).

Definition connect_complete (s : CompleteSlot) (t : DownloadThread) :=
  mkDownloadThread (dt_link t) (dt_index t) (dt_title t) (dt_mainWindow t)
    (downloadCompleteSignal t ++ [s]) (downloadProgressSignal t)
    (dt_started t).

Definition start (t : DownloadThread) :=
  mkDownloadThread (dt_link t) (dt_index t) (dt_title t) (dt_mainWindow t)
    (downloadCompleteSignal t) (downloadProgressSignal t) true.

(** The loop of [connect_signals] over [self.dl_threads] (lines 201 to
    205).  What the method does before the loop is in [MainWindow_init]:
    the connection of [itemChanged], which [emit_itemChanged] carries
    out, and the call of [update_download_button_state]. *)
Definition connect_signals (w : MainWindow) : MainWindow :=
  set_dl_threads
    (map (λ download_thread,
            connect_complete slot_show_download_complete
              (connect_progress slot_handle_download_error download_thread))
         (dl_threads w))
    w.

Definition initialize_settings (settings : gmap string string)
    (w : MainWindow) : MainWindow :=
  set_user_settings settings w.

(** [setup_ui]: a new, empty [QStandardItemModel]. *)
Definition setup_ui (w : MainWindow) : MainWindow := set_model [] w.

Definition setup_select_all_checkbox (w : MainWindow) : MainWindow :=
  set_select_all_checkbox_visible false w.

(** The window before [__init__] has set anything: the buttons of the
    form are enabled and the URL field empty. *)
Definition blank : MainWindow :=
  mkMainWindow false 0 [] [] [] [] ∅ ∅ false true true "" None [].

(** [MainWindow.__init__]; [settings] is what the settings manager
    loaded. *)
Definition MainWindow_init (settings : gmap string string) : MainWindow :=
  let w := set_window_resize_needed true blank in
  (* Limit to 4 simultaneous downloads *)
  let w := set_download_semaphore 4 w in
  let w := setup_ui w in
  let w := init_download_structs w in
  (* connect_signals: the button state is computed once, on the empty
     model, before the loop over the threads *)
  let w := set_downloadSelectedVidsButton_enabled
             (update_download_button_state w).2 w in
  let w := connect_signals w in
  let w := initialize_settings settings w in
  setup_select_all_checkbox w.

(** *** Dialogs *)

Definition show (d : Dialog) : M unit :=
  modify (λ w, set_dialogs (dialogs w ++ [d]) w).

Definition show_download_error (index : Z) : M unit :=
  show (QMessageBox_critical "Download Error"
    ("An error occurred while downloading item " +:+ pretty index +:+
     ". Please check the URL and try again.")).

Definition show_network_error (index : Z) : M unit :=
  show (QMessageBox_warning "Network Error"
    ("Network issue encountered while downloading item " +:+ pretty index
     +:+ ". Check your internet connection and try again.")).

Definition show_unexpected_error (index : Z) : M unit :=
  show (QMessageBox_warning "Unexpected Error"
    ("An unexpected error occurred while downloading item " +:+
     pretty index +:+ ". Please try again later.")).

Definition show_download_complete (index : PyVal) : M unit :=
  show (QMessageBox_information "Download Complete"
    ("Download completed successfully for item " +:+ py_str index +:+ "!")).

Definition handle_download_error (data : gmap string PyVal) : M unit :=
  v ←ₘ or_raise KeyError (data !! "index");
  index ←ₘ py_int v;
  let error_type := default (PyStr "Unexpected error") (data !! "error") in
  if decide (error_type = PyStr "Download error") then
    show_download_error index
  else if decide (error_type = PyStr "Network error") then
    show_network_error index
  else
    show_unexpected_error index.

Definition display_error_dialog (message : string) (w : MainWindow)
  : MainWindow :=
  set_getVidListButton_enabled true
    (set_dialogs (dialogs w ++ [CustomDialog "URL error" message]) w).

(** *** The list *)

Definition reinit_model (w : MainWindow) : MainWindow :=
  set_select_all_checkbox_visible false (set_model [] w).

(** One turn of the loop of [populate_window_list]. *)
Definition populate_body (fs : FS) (w : MainWindow)
    (title_link : string * string) : MainWindow :=
  let item_checkbox := setCheckable new_item in
  let item_title := new_text_item title_link.1 in
  let item_link := new_text_item title_link.2 in
  let item_title_text := text item_title in
  let filename := sanitize_filename item_title_text in
  let download_directory :=
    default "./" (user_settings w !! "download_directory") in
  let full_file_path := os_path_join download_directory filename in
  let item :=
    if is_download_complete fs full_file_path then
      mkRow
        (Some (setForeground "grey"
                 (setFlags (Z.lor ItemIsSelectable ItemIsUserTristate)
                    item_checkbox)))
        (Some (setForeground "grey" item_title))
        (Some (setForeground "grey" item_link))
        (Some (setText "Complete" new_item))
    else
      mkRow (Some item_checkbox) (Some item_title) (Some item_link)
        (Some new_item) in
  set_dl_path_correspondences
    (<[item_title_text := full_file_path]> (dl_path_correspondences w))
    (set_model (model w ++ [item]) w).

Definition populate_window_list (fs : FS) (w : MainWindow) : MainWindow :=
  let w := reinit_model w in
  let w := fold_left (populate_body fs) (yt_chan_vids_titles_links w) w in
  if decide (0 < length (model w)) then
    let w := set_select_all_checkbox_visible true w in
    if window_resize_needed w then set_window_resize_needed false w
    else w
  else w.

Definition handle_video_list (fs : FS) (video_list : list (string * string))
    (w : MainWindow) : MainWindow :=
  populate_window_list fs (set_yt_chan_vids_titles_links video_list w).

Definition handle_single_video (fs : FS)
    (video_list : list (string * string)) (w : MainWindow) : MainWindow :=
  populate_window_list fs (set_yt_chan_vids_titles_links video_list w).

Definition enable_get_vid_list_button (w : MainWindow) : MainWindow :=
  set_getVidListButton_enabled true w.

(** *** Selecting and dispatching *)

(** [fn] applied to the item at [(row, column)]; as
    [QStandardItemModel.setData] does, an empty cell first gets a fresh
    item.  Nothing happens for a row outside the table. *)
Definition model_update_item (row : nat) (c : ColumnIndexes)
    (fn : QStandardItem → QStandardItem) (m : list Row) : list Row :=
  alter (λ r, set_cell c (fn (default new_item (cell r c))) r) row m.

(** [model.data(model.index(row, column))] *)
Definition model_data (m : list Row) (row : nat) (c : ColumnIndexes)
  : option QVariant :=
  it_display <$> model_item m row c.

(** [self.dl_path_correspondences[key]] for what [model.data] returned:
    only a string can be among the keys. *)
Definition correspondence (key : option QVariant) (w : MainWindow)
  : option string :=
  match key with
  | Some (VStr item_title) => dl_path_correspondences w !! item_title
  | _ => None
  end.

(** [model.setData(model.index(row, column), value, role)], [fn] being
    what the call stores in the item: [itemChanged] is emitted when that
    changes the table, not when the item already held the value.  (An
    item without check-state data reads as [Unchecked], as
    [checkState()] reads it.) *)
Definition model_setData (row : nat) (c : ColumnIndexes)
    (fn : QStandardItem → QStandardItem) : M unit :=
  modify (λ w, with_model (model_update_item row c fn (model w)) w).

(** One turn of the loop of [onSelectAllStateChanged]. *)
Definition select_all_body (fs : FS) (new_value : bool) (row : nat)
  : M unit :=
  item_title ←ₘ get (λ w, model_data (model w) row TITLE);
  found ←ₘ get (correspondence item_title);
  full_file_path ←ₘ or_raise KeyError found;
  if bool_decide (full_file_path ≠ "") &&
     is_download_complete fs full_file_path
  then ret tt
  else
    model_setData row DOWNLOAD (setDisplay (VBool new_value)) ;ₘ
    let new_check_state := if new_value then Checked else Unchecked in
    model_setData row DOWNLOAD (setCheckState new_check_state).

Definition onSelectAllStateChanged (fs : FS) (state : Z) : M unit :=
  let new_value := bool_decide (state = 2%Z) in
  rowCount ←ₘ get (λ w, length (model w));
  for_each (seq 0 rowCount) (select_all_body fs new_value).

(** [DownloadThread(link, index, title, mainWindow)], nothing connected
    yet. *)
Definition new_DownloadThread (link : string) (index : nat) (title : string)
    (mainWindow : MainWindowRef) : DownloadThread :=
  mkDownloadThread link index title mainWindow [] [] false.

(** One turn of the first loop of [dl_vids]. *)
Definition collect_body (row : nat) : M unit :=
  cellv ←ₘ get (λ w, model_item (model w) row DOWNLOAD);
  item ←ₘ or_raise AttributeError cellv;
  if decide (it_check item = Checked) then
    modify (λ w, set_vid_dl_indexes (vid_dl_indexes w ++ [row]) w)
  else ret tt.

(** One turn of the second loop of [dl_vids].  The thread that goes on
    the list is the object that is then started. *)
Definition dispatch_body (index : nat) : M unit :=
  let progress_item := new_item in
  setItem index PROGRESS progress_item ;ₘ
  link_item ←ₘ get (λ w, model_item (model w) index LINK);
  link ←ₘ or_raise AttributeError (text <$> link_item);
  title_item ←ₘ get (λ w, model_item (model w) index TITLE);
  title ←ₘ or_raise AttributeError (text <$> title_item);
  let dl_thread := new_DownloadThread link index title self in
  let dl_thread := connect_complete slot_populate_window_list dl_thread in
  let dl_thread := connect_progress slot_update_progress dl_thread in
  modify (λ w, set_dl_threads (dl_threads w ++ [start dl_thread]) w).

Definition dl_vids : M unit :=
  modify (set_vid_dl_indexes []) ;ₘ
  rowCount ←ₘ get (λ w, length (model w));
  for_each (seq 0 rowCount) collect_body ;ₘ
  indexes ←ₘ get vid_dl_indexes;
  for_each indexes dispatch_body.

Definition update_progress (progress_data : gmap string PyVal) : M unit :=
  v ←ₘ or_raise KeyError (progress_data !! "index");
  file_index ←ₘ py_int v;
  progress ←ₘ or_raise KeyError (progress_data !! "progress");
  let progress_item := new_text_item (py_str progress) in
  row ←ₘ c_int file_index;
  (* Qt ignores a negative row *)
  if decide (0 ≤ row)%Z then
    setItem (Z.to_nat row) PROGRESS progress_item
  else ret tt.

(** *** Fetching the list *)

Definition new_GetListThread (channel_id channel_url : option string)
  : GetListThread :=
  mkGetListThread channel_id channel_url [] false.

Definition connect_finished (s : FinishedSlot) (t : GetListThread) :=
  mkGetListThread (gl_channel_id t) (gl_channel_url t) (finished t ++ [s])
    (gl_running t).

Definition start_fetch (t : GetListThread) :=
  mkGetListThread (gl_channel_id t) (gl_channel_url t) (finished t) true.

(** [self.get_list_thread = t]: the attribute is rebound; the window
    keeps no reference to the thread it named before. *)
Definition assign_get_list_thread (t : GetListThread) (w : MainWindow) :=
  set_get_list_thread (Some t) w.

(** a method call on [self.get_list_thread] *)
Definition on_get_list_thread (f : GetListThread → GetListThread)
    (w : MainWindow) :=
  set_get_list_thread (f <$> get_list_thread w) w.

(** [show_vid_list].  The [YTChannel] it makes has its [showError] signal
    connected to [display_error_dialog] (line 475); what the channel
    emits is the event [EvShowError] below. *)

Definition show_vid_list (w : MainWindow) : MainWindow :=
  let w := set_window_resize_needed true w in
  let w := set_getVidListButton_enabled false w in
  let channel_url := chanUrlEdit w in
  let channel_id : option string := None in
  if is_video_with_playlist_url channel_url || is_playlist_url channel_url
  then
    let w := assign_get_list_thread
               (new_GetListThread (Some "playlist") (Some channel_url)) w in
    let w := on_get_list_thread (connect_finished slot_handle_video_list) w in
    let w := on_get_list_thread
               (connect_finished slot_enable_get_vid_list_button) w in
    on_get_list_thread start_fetch w
  else if is_video_url channel_url || is_short_video_url channel_url then
    let w :=
      if is_short_video_url channel_url then
        assign_get_list_thread
          (new_GetListThread (Some "short") (Some channel_url)) w
      else w in
    let w := assign_get_list_thread
               (new_GetListThread channel_id (Some channel_url)) w in
    let w := on_get_list_thread
               (connect_finished slot_handle_single_video) w in
    let w := on_get_list_thread
               (connect_finished slot_enable_get_vid_list_button) w in
    on_get_list_thread start_fetch w
  else
    match get_channel_id channel_url with
    | RaisesValueError => display_error_dialog "Please check your URL" w
    | RaisesURLError => display_error_dialog "Please check your URL" w
    | ChannelId channel_id =>
        let w := assign_get_list_thread
                   (new_GetListThread (Some channel_id) None) w in
        let w := on_get_list_thread
                   (connect_finished slot_handle_video_list) w in
        let w := on_get_list_thread
                   (connect_finished slot_enable_get_vid_list_button) w in
        on_get_list_thread start_fetch w
    end.

(** *** Signal delivery *)

Definition run_progress_slot (data : gmap string PyVal) (s : ProgressSlot)
  : M unit :=
  match s with
  | slot_handle_download_error => handle_download_error data
  | slot_update_progress => update_progress data
  end.

(** [populate_window_list] takes no argument and is called without the
    value the completion signal carries. *)
Definition run_complete_slot (fs : FS) (index : PyVal) (s : CompleteSlot)
  : M unit :=
  match s with
  | slot_show_download_complete => show_download_complete index
  | slot_populate_window_list => modify (populate_window_list fs)
  end.

Definition run_finished_slot (fs : FS) (video_list : list (string * string))
    (s : FinishedSlot) : M unit :=
  match s with
  | slot_handle_video_list => modify (handle_video_list fs video_list)
  | slot_handle_single_video => modify (handle_single_video fs video_list)
  | slot_enable_get_vid_list_button => modify enable_get_vid_list_button
  end.

(** [signal.emit(...)]: the connected slots run in connection order. *)
Definition emit_downloadProgressSignal (t : DownloadThread)
    (data : gmap string PyVal) : M unit :=
  for_each (downloadProgressSignal t) (run_progress_slot data).

Definition emit_downloadCompleteSignal (fs : FS) (t : DownloadThread)
    (index : PyVal) : M unit :=
  for_each (downloadCompleteSignal t) (run_complete_slot fs index).

Definition emit_finished (fs : FS) (t : GetListThread)
    (video_list : list (string * string)) : M unit :=
  for_each (finished t) (run_finished_slot fs video_list).

End Slots.

(** ** The window as a transition system *)

(** What can happen to the window between two turns of the event loop.
    Download threads are named by their position in [dl_threads]; the
    fetch thread that can be heard of is the one [self.get_list_thread]
    names.  [EvShowError] is the [showError] signal of a [YTChannel]
    made by [show_vid_list]; when a channel emits it is decided in
    [YTChannel], so the event is taken to be possible at any time. *)
Inductive Event :=
| EvEditUrl (s : string)
| EvSettingsChanged (settings : gmap string string)
| EvGetVidListClicked
| EvShowError (message : string)
| EvFetchFinished (video_list : list (string * string))
| EvRowToggled (row : nat) (c : CheckState)
| EvSelectAll (state : Z)
| EvDownloadClicked
| EvProgress (k : nat) (data : gmap string PyVal)
| EvComplete (k : nat) (index : PyVal).

Definition exec (m : M unit) (w : MainWindow) : MainWindow := (m w).2.

Definition stop_fetch (t : GetListThread) :=
  mkGetListThread (gl_channel_id t) (gl_channel_url t) (finished t) false.

Section Transitions.
Context `{DownloadThreadStatics, YTChannel, PyBuiltins}.

(** A disabled button is not clicked, and only a thread that runs
    emits. *)
Definition enabled (ev : Event) (w : MainWindow) : Prop :=
  match ev with
  | EvGetVidListClicked => getVidListButton_enabled w = true
  | EvFetchFinished _ =>
      ∃ t, get_list_thread w = Some t ∧ gl_running t = true
  | EvRowToggled row _ => is_Some (model_item (model w) row DOWNLOAD)
  | EvDownloadClicked => downloadSelectedVidsButton_enabled w = true
  | EvProgress k _ | EvComplete k _ =>
      ∃ t, dl_threads w !! k = Some t ∧ dt_started t = true
  | _ => True
  end.

(** The window after the event; when a slot raises, the window it left
    behind.  [fs] is the file system at that moment. *)
Definition step (fs : FS) (ev : Event) (w : MainWindow) : MainWindow :=
  match ev with
  | EvEditUrl s => set_chanUrlEdit s w
  | EvSettingsChanged settings => set_user_settings settings w
  | EvGetVidListClicked => show_vid_list w
  | EvShowError message => display_error_dialog message w
  | EvFetchFinished video_list =>
      match get_list_thread w with
      | Some t =>
          exec (emit_finished fs t video_list)
            (set_get_list_thread (Some (stop_fetch t)) w)
      | None => w
      end
  | EvRowToggled row c =>
      exec (model_setData row DOWNLOAD (setCheckState c)) w
  | EvSelectAll state => exec (onSelectAllStateChanged fs state) w
  | EvDownloadClicked => exec dl_vids w
  | EvProgress k data =>
      match dl_threads w !! k with
      | Some t => exec (emit_downloadProgressSignal t data) w
      | None => w
      end
  | EvComplete k index =>
      match dl_threads w !! k with
      | Some t => exec (emit_downloadCompleteSignal fs t index) w
      | None => w
      end
  end.

Inductive reachable (settings : gmap string string) : MainWindow → Prop :=
| reachable_init : reachable settings (MainWindow_init settings)
| reachable_step w fs ev :
    reachable settings w → enabled ev w →
    reachable settings (step fs ev w).

End Transitions.

(** ** The download threads and the semaphore *)

(** Modelled from the spec: [DownloadThread.run], the body of a download
    thread, which is in [classes/download_thread.py] and not among the
    sources.  The specification's download job holds one admission slot
    for its lifetime and releases it at its terminal outcome, whatever
    that is.  [dl_vids] takes no slot for the thread it starts; it hands
    it the window, and with it the semaphore.  So the job takes its own
    slot: the thread waits until the semaphore of its window has a free
    slot, takes it, transfers while it reports its progress, and gives
    the slot back when it ends: with the completion signal when the file
    is there, without it when the download failed. *)
Inductive Phase :=
| Waiting          (* started, no slot yet *)
| Transferring     (* holds a slot *)
| Over.            (* gave its slot back *)

#[global] Instance Phase_eq_dec : EqDecision Phase.
Proof. solve_decision. Defined.








Section PoolTransitions.
Context `{DownloadThreadStatics, YTChannel, PyBuiltins}.





End PoolTransitions.

(** ** Rows, as the specification speaks of them *)

(** A row is locked when its check box cannot be ticked, it is drawn in
    grey and its progress cell reads "Complete". *)
Definition not_checkable (r : Row) : Prop :=
  ∃ it, c_download r = Some it ∧ isCheckable it = false.

Definition greyed (r : Row) : Prop :=
  ∃ cb ti li, c_download r = Some cb ∧ c_title r = Some ti ∧
              c_link r = Some li ∧
              it_foreground cb = Some "grey" ∧ it_foreground ti = Some "grey" ∧
              it_foreground li = Some "grey".

Definition shows_complete (r : Row) : Prop :=
  ∃ it, c_progress r = Some it ∧ text it = "Complete".

Definition locked (r : Row) : Prop :=
  not_checkable r ∧ greyed r ∧ shows_complete r.

(** The title a row displays. *)
Definition row_title (r : Row) : option string :=
  text <$> c_title r.

(** The check state of a row, [item.checkState()] of its first cell. *)
Definition row_check (r : Row) : option CheckState :=
  it_check <$> c_download r.

(** ** Notions the statements use *)

Section Derived.
Context `{DownloadThreadStatics, YTChannel, PyBuiltins}.

(** Where the download of a title goes, under given settings. *)
Definition destination (settings : gmap string string) (title : string)
  : string :=
  os_path_join (default "./" (settings !! "download_directory"))
    (sanitize_filename title).

(** The row [populate_window_list] makes for a (title, link) pair. *)
Definition populated_row (fs : FS) (settings : gmap string string)
    (title_link : string * string) : Row :=
  if is_download_complete fs (destination settings title_link.1) then
    mkRow
      (Some (setForeground "grey"
               (setFlags (Z.lor ItemIsSelectable ItemIsUserTristate)
                  (setCheckable new_item))))
      (Some (setForeground "grey" (new_text_item title_link.1)))
      (Some (setForeground "grey" (new_text_item title_link.2)))
      (Some (setText "Complete" new_item))
  else
    mkRow (Some (setCheckable new_item)) (Some (new_text_item title_link.1))
      (Some (new_text_item title_link.2)) (Some new_item).

(** What the select-all box does to a row whose file is not finished. *)
Definition selected_as (new_value : bool) (r : Row) : Row :=
  set_cell DOWNLOAD
    (setCheckState (if new_value then Checked else Unchecked)
       (setDisplay (VBool new_value) (default new_item (c_download r)))) r.

(** The path the correspondence map holds for the title a row displays,
    if it displays one and the map has it. *)
Definition row_path (w : MainWindow) (r : Row) : option string :=
  correspondence (it_display <$> c_title r) w.

(** The test of [onSelectAllStateChanged] on a stored path. *)
Definition skipped (fs : FS) (full_file_path : string) : bool :=
  bool_decide (full_file_path ≠ "") && is_download_complete fs full_file_path.

(** A fetch thread as [show_vid_list] leaves it: connected to the handler
    and to the slot that re-enables the button, and started. *)
Definition started_fetch (channel_id channel_url : option string)
    (handler : FinishedSlot) : GetListThread :=
  mkGetListThread channel_id channel_url
    [handler; slot_enable_get_vid_list_button] true.

(** A download thread as [dl_vids] leaves it. *)
Definition dispatched (t : DownloadThread) : Prop :=
  downloadCompleteSignal t = [slot_populate_window_list] ∧
  downloadProgressSignal t = [slot_update_progress] ∧
  dt_started t = true.

(** The only dialog the window opens by itself: the URL error. *)
Definition url_error (d : Dialog) : Prop :=
  ∃ message, d = CustomDialog "URL error" message.

(** A running fetch thread delivers to one of the two list handlers and
    then re-enables the button. *)
Definition delivers (t : GetListThread) : Prop :=
  gl_running t = true →
  finished t = [slot_handle_video_list; slot_enable_get_vid_list_button] ∨
  finished t = [slot_handle_single_video; slot_enable_get_vid_list_button].

(** What holds of the window whatever happened to it. *)
Record window_invariant (w : MainWindow) : Prop := {
  inv_dispatched : Forall dispatched (dl_threads w);
  inv_dialogs : Forall url_error (dialogs w);
  inv_delivers : ∀ t, get_list_thread w = Some t → delivers t;
  inv_button : getVidListButton_enabled w = false →
               ∃ t, get_list_thread w = Some t ∧ gl_running t = true
}.

(** A row with an item in each of its first three cells, as
    [populate_window_list] makes them. *)
Definition full_row (r : Row) : Prop :=
  is_Some (c_download r) ∧ is_Some (c_title r) ∧ is_Some (c_link r).

Definition is_checked (m : list Row) (row : nat) : Prop :=
  it_check <$> model_item m row DOWNLOAD = Some Checked.

#[global] Instance is_checked_dec m row : Decision (is_checked m row).
Proof. unfold is_checked. apply _. Defined.

(** The rows whose box is checked, in ascending order. *)
Definition checked_rows (m : list Row) : list nat :=
  filter (is_checked m) (seq 0 (length m)).

(** The thread [dl_vids] makes for a row. *)
Definition thread_of (m : list Row) (index : nat) : DownloadThread :=
  start
    (connect_progress slot_update_progress
       (connect_complete slot_populate_window_list
          (new_DownloadThread
             (default "" (text <$> model_item m index LINK)) index
             (default "" (text <$> model_item m index TITLE)) self))).

(** The thread that is to be started for entry [i] of a list: none for
    an entry whose file select-all finds finished. *)
Definition download_of (fs : FS) (settings : gmap string string)
    (video_list : list (string * string)) (i : nat)
  : option DownloadThread :=
  '(title, link) ← video_list !! i;
  if skipped fs (destination settings title) then None
  else Some (mkDownloadThread link i title self
               [slot_populate_window_list] [slot_update_progress] true).

(** What [onSelectAllStateChanged] leaves of a row. *)
Definition select_all_row (fs : FS) (new_value : bool) (w : MainWindow)
    (r : Row) : Row :=
  match row_path w r with
  | Some full_file_path =>
      if skipped fs full_file_path then r else selected_as new_value r
  | None => r
  end.

End Derived.

(** ** Stand-ins for the collaborators, for running the model *)

Module Example.

(** A file system is the list of the paths that hold a finished
    download; the sanitiser turns a separator into an underscore. *)
Fixpoint replace_sep (s : string) : string :=
  match s with
  | EmptyString => EmptyString
  | String a rest =>
      String (if bool_decide (a = "/"%char) then "_"%char else a)
             (replace_sep rest)
  end.

#[export] Instance statics : DownloadThreadStatics := {|
  FS := list string;
  is_download_complete fs path := bool_decide (path ∈ fs);
  sanitize_filename := replace_sep
|}.

Definition contains (needle s : string) : bool :=
  match String.index 0 needle s with
  | Some _ => true
  | None => false
  end.

#[export] Instance channel : YTChannel := {|
  is_video_with_playlist_url u := contains "watch?v=" u && contains "list=" u;
  is_playlist_url u := contains "playlist?list=" u;
  is_video_url u := contains "watch?v=" u;
  is_short_video_url u := contains "/shorts/" u;
  get_channel_id u :=
    if contains "/@" u then ChannelId "UC0123456789" else RaisesValueError
|}.

Definition digit (a : ascii) : option Z :=
  let n := Z.of_nat (nat_of_ascii a) in
  if decide (48 ≤ n ≤ 57)%Z then Some (n - 48)%Z else None.

Fixpoint digits (acc : Z) (s : string) : option Z :=
  match s with
  | EmptyString => Some acc
  | String a rest => d ← digit a; digits (10 * acc + d)%Z rest
  end.

#[export] Instance builtins : PyBuiltins := {|
  int_of_str s := if decide (s = "") then None else digits 0 s
|}.

Definition row_of (title link : string) (c : CheckState) (progress : string)
  : Row :=
  mkRow (Some (setCheckState c (setCheckable new_item)))
        (Some (new_text_item title)) (Some (new_text_item link))
        (Some (new_text_item progress)).

(** A window that was handed three videos, two of them under one title,
    when the file of the first title was already there. *)
Definition three_videos : list (string * string) :=
  [("Intro", "https://youtu.be/a1"); ("Intro", "https://youtu.be/a2");
   ("Talk", "https://youtu.be/b1")].

Definition no_settings : gmap string string := ∅.

Definition intro_there : FS := ["./Intro"].

Definition listed : MainWindow :=
  set_yt_chan_vids_titles_links three_videos (MainWindow_init no_settings).

Definition populated : MainWindow := populate_window_list intro_there listed.

Definition talk_row : Row :=
  populated_row intro_there no_settings ("Talk", "https://youtu.be/b1").

(** A session: the user asks for a playlist, the list arrives, the user
    ticks select-all and presses download. *)
Definition asked : MainWindow :=
  step intro_there EvGetVidListClicked
    (step intro_there
       (EvEditUrl "https://www.youtube.com/playlist?list=PL1")
       (MainWindow_init no_settings)).

Definition arrived : MainWindow :=
  step intro_there (EvFetchFinished three_videos) asked.

Definition downloading : MainWindow :=
  step intro_there EvDownloadClicked
    (step intro_there (EvSelectAll 2) arrived).

(** Five videos, none on disk, all ticked. *)
Definition five_videos : list (string * string) :=
  [("v0", "https://youtu.be/0"); ("v1", "https://youtu.be/1");
   ("v2", "https://youtu.be/2"); ("v3", "https://youtu.be/3");
   ("v4", "https://youtu.be/4")].

Definition nothing_there : FS := [].

Definition five_checked : MainWindow :=
  exec (onSelectAllStateChanged nothing_there 2)
    (handle_video_list nothing_there five_videos
       (MainWindow_init no_settings)).

(** Two requests, the second made while the first is still running:
    the channel of the first request reports an error, which enables the
    button again, and the user asks for another playlist. *)
Definition two_requests : MainWindow :=
  step intro_there EvGetVidListClicked
    (step intro_there
       (EvEditUrl "https://www.youtube.com/playlist?list=PL2")
       (step intro_there (EvShowError "Could not read the playlist")
          asked)).

(** The same, but the second request is for a URL that the channel
    lookup refuses: the window shows the dialog and starts no thread. *)
Definition refused_second : MainWindow :=
  step intro_there EvGetVidListClicked
    (step intro_there (EvEditUrl "not a channel")
       (step intro_there (EvShowError "Could not read the playlist")
          asked)).




(** A download directory set to the empty string and two videos without
    a title: their destination is the empty path, which this file system
    reports as a finished download. *)
Definition empty_directory : gmap string string :=
  {[ "download_directory" := "" ]}.

Definition untitled : list (string * string) :=
  [("", "https://youtu.be/u1"); ("", "https://youtu.be/u2")].

Definition empty_path_there : FS := [""].

Definition untitled_listed : MainWindow :=
  handle_video_list empty_path_there untitled
    (MainWindow_init empty_directory).

Definition first_list : list (string * string) :=
  [("old", "https://youtu.be/old")].

Definition second_list : list (string * string) :=
  [("new", "https://youtu.be/new")].

End Example.


(** ** More of the window *)

#[global] Instance ColumnIndexes_eq_dec : EqDecision ColumnIndexes.
Proof. solve_decision. Defined.

(** *** The download button and the table *)

(** The download button is as [update_download_button_state] would leave
    it on the table as it is now. *)
Definition button_in_step (w : MainWindow) : Prop :=
  downloadSelectedVidsButton_enabled w = (update_download_button_state w).2.

(** *** The stored list and the rows *)

(** Row [i] shows entry [i] of the stored list: it has a check box, the
    title and the link of the entry, and the title has a path on record. *)
Definition shows_entry (w : MainWindow) (i : nat) (tl : string * string)
  : Prop :=
  is_Some (model_item (model w) i DOWNLOAD) ∧
  it_display <$> model_item (model w) i TITLE = Some (VStr tl.1) ∧
  it_display <$> model_item (model w) i LINK = Some (VStr tl.2) ∧
  is_Some (dl_path_correspondences w !! tl.1).

(** The model shows the stored list, entry by entry; whatever lies past
    the end of the list has neither check box nor title nor link. *)
Record shows_list (w : MainWindow) : Prop := {
  listed_rows : ∀ i tl,
    yt_chan_vids_titles_links w !! i = Some tl → shows_entry w i tl;
  grown_rows : ∀ i c,
    length (yt_chan_vids_titles_links w) ≤ i → c ≠ PROGRESS →
    model_item (model w) i c = None
}.

(** Nothing was dropped on the way from [w] to [w']: every download
    thread is still on the list, in its place, and every title that had a
    path on record still has one. *)
Definition nothing_forgotten (w w' : MainWindow) : Prop :=
  dl_threads w `prefix_of` dl_threads w' ∧
  ∀ title : string, is_Some (dl_path_correspondences w !! title) →
                    is_Some (dl_path_correspondences w' !! title).

(** *** Size and place of the window *)

Module Geometry.

Record QSize := mkQSize { width : Z; height : Z }.

(** Python's [round] of the quotient [n / d] for a positive [d]: the
    nearest integer, a tie going to the even one.  (The source computes
    the quotient in floating point; for the sizes of a screen that is the
    exact quotient rounded.) *)
Definition py_round_div (n d : Z) : Z :=
  let q := (n / d)%Z in
  let r := (n mod d)%Z in
  if (2 * r <? d)%Z then q
  else if (d <? 2 * r)%Z then (q + 1)%Z
  else if Z.even q then q else (q + 1)%Z.

(** [autoAdjustWindowSize]: the size of the window afterwards, from the
    size of the screen, the widths of the columns, the height hint of a
    row, the height of the header, the number of rows and the size of the
    window before. *)
Definition autoAdjustWindowSize (screen_size : QSize)
    (column_widths : list Z) (row_hint header_height : Z) (rowCount : nat)
    (window : QSize) : QSize :=
  let full_screen_width := width screen_size in
  let max_height := py_round_div (height screen_size * 2) 3 in
  let total_width := fold_left Z.add column_widths 0%Z in
  let total_width := Z.min total_width full_screen_width in
  let content_height := (row_hint * Z.of_nat rowCount)%Z in
  let content_height := (content_height + header_height)%Z in
  let total_height := Z.min content_height max_height in
  if (width window <=? total_width)%Z || negb (total_height =? height window)%Z
  then mkQSize total_width total_height
  else window.

(** [center_on_screen]: where the window is moved to. *)
Definition center_on_screen (screen_geometry window_geometry : QSize)
  : Z * Z :=
  let x_center := ((width screen_geometry - width window_geometry) / 2)%Z in
  let y_center := ((height screen_geometry - height window_geometry) / 2)%Z in
  (x_center, y_center).

End Geometry.

(** *** The YouTube login entry of the menu *)

Module Login.

(** [YoutubeLoginDialog], as far as the window looks at it: whether it
    reports a login, how many times [update_youtube_login_menu] was
    connected to its [logged_in_signal], and whether [show()] was
    called. *)
Record YoutubeLoginDialog := mkDialog {
  logged_in : bool;
  connections : nat;
  shown : bool
}.

(** What the slots do to things outside the window. *)
Inductive Effect :=
| Logout
| PromptShown.

Record LoginUi := mkLoginUi {
  youtube_login_dialog : option YoutubeLoginDialog;
  actionYoutube_login : string;        (* the text of the menu entry *)
  effects : list Effect
}.

(** [YoutubeLoginDialog(cookie_jar_path)]; [cookie] is whether the new
    dialog finds a login in the cookie jar. *)
Definition new_dialog (cookie : bool) : YoutubeLoginDialog :=
  mkDialog cookie 0 false.

Definition connect_menu (d : YoutubeLoginDialog) : YoutubeLoginDialog :=
  mkDialog (logged_in d) (S (connections d)) (shown d).

Definition show_dialog (d : YoutubeLoginDialog) : YoutubeLoginDialog :=
  mkDialog (logged_in d) (connections d) true.

Definition update_youtube_login_menu (u : LoginUi) : LoginUi :=
  match youtube_login_dialog u with
  | Some d =>
      if logged_in d
      then mkLoginUi (youtube_login_dialog u) "YouTube logout" (effects u)
      else mkLoginUi (youtube_login_dialog u) "YouTube login" (effects u)
  | None => mkLoginUi (youtube_login_dialog u) "YouTube login" (effects u)
  end.

(** [initialize_youtube_login] with [check_youtube_login_status]. *)
Definition initialize_youtube_login (cookie : bool) : LoginUi :=
  let u := mkLoginUi None "" [] in
  let u := mkLoginUi (Some (new_dialog cookie)) (actionYoutube_login u)
             (effects u) in
  update_youtube_login_menu u.

Definition show_youtube_login_dialog (cookie : bool) (u : LoginUi) : LoginUi :=
  match youtube_login_dialog u with
  | Some d =>
      if logged_in d then
        mkLoginUi None "YouTube login" (effects u ++ [Logout])
      else
        mkLoginUi (Some (show_dialog d)) (actionYoutube_login u) (effects u)
  | None =>
      let d := connect_menu (new_dialog cookie) in
      mkLoginUi (Some (show_dialog d)) (actionYoutube_login u) (effects u)
  end.

(** [handle_youtube_login].  [cookie] is what a dialog made now finds,
    [dont_show_login_prompt] whether the setting of that name is set, and
    [accepted] what the user answers if the prompt is put up. *)
Definition handle_youtube_login (cookie dont_show_login_prompt accepted : bool)
    (u : LoginUi) : LoginUi :=
  let d := default (new_dialog cookie) (youtube_login_dialog u) in
  let d := connect_menu d in
  let u := mkLoginUi (Some d) (actionYoutube_login u) (effects u) in
  if negb (logged_in d) then
    if negb dont_show_login_prompt then
      let u := mkLoginUi (youtube_login_dialog u) (actionYoutube_login u)
                 (effects u ++ [PromptShown]) in
      if accepted then show_youtube_login_dialog cookie u else u
    else show_youtube_login_dialog cookie u
  else
    mkLoginUi None "YouTube login" (effects u ++ [Logout]).

(** [logged_in_signal.emit()]: the menu slot runs once per connection. *)
Definition emit_logged_in_signal (u : LoginUi) : LoginUi :=
  match youtube_login_dialog u with
  | Some d => Nat.iter (connections d) update_youtube_login_menu u
  | None => u
  end.

(** The dialog changes what it reports (the user logged in through it or
    the login went away). *)
Definition dialog_reports (b : bool) (u : LoginUi) : LoginUi :=
  match youtube_login_dialog u with
  | Some d =>
      mkLoginUi (Some (mkDialog b (connections d) (shown d)))
        (actionYoutube_login u) (effects u)
  | None => u
  end.

(** The menu entry says what the dialog reports. *)
Definition menu_agrees (u : LoginUi) : Prop :=
  actionYoutube_login u =
  match youtube_login_dialog u with
  | Some d => if logged_in d then "YouTube logout" else "YouTube login"
  | None => "YouTube login"
  end.

End Login.

(** *** More windows to run the model on *)

Module MoreExamples.
Import Example.

(** A progress report for the second row. *)
Definition report : gmap string PyVal :=
  {[ "index" := PyStr "1"; "progress" := PyStr "42" ]}.

(** While the download of the third row runs, the user asks for another
    playlist; its one-entry list arrives and then a progress report for
    the third row of the old list. *)
Definition replaced : MainWindow :=
  step intro_there (EvFetchFinished second_list)
    (step intro_there EvGetVidListClicked downloading).

Definition grown : MainWindow :=
  step intro_there
    (EvProgress 0 {[ "index" := PyStr "2"; "progress" := PyStr "50" ]})
    replaced.

(** The populated window of the example when another list has been
    stored but not yet shown. *)
Definition relisted : MainWindow :=
  set_yt_chan_vids_titles_links second_list populated.

(** A login dialog that was shown once and reports no login. *)
Definition idle_login : Login.LoginUi :=
  Login.mkLoginUi (Some (Login.mkDialog false 1 true)) "YouTube login" [].

End MoreExamples.

(** * Properties *)

(** ** Paths *)

Lemma append_empty (a b : string) : a +:+ b = "" → a = "" ∧ b = "".
Proof. destruct a; simpl; [done|discriminate]. Qed.

Lemma os_path_join_empty a b : os_path_join a b = "" ↔ a = "" ∧ b = "".
Proof.
  unfold os_path_join. split; [|by intros [-> ->]].
  destruct (String.prefix "/" b) eqn:Hp.
  - intros ->. discriminate.
  - destruct (_ || _).
    + apply append_empty.
    + intros [-> Hb]%append_empty. discriminate.
Qed.

(** ** Loops *)

Lemma for_each_app {A} (l1 l2 : list A) (body : A → M unit) w :
  for_each (l1 ++ l2) body w =
  match for_each l1 body w with
  | (Ok _, w') => for_each l2 body w'
  | (Raise e, w') => (Raise e, w')
  end.
Proof.
  revert w. induction l1 as [|x l1 IH]; intros w; simpl; [done|].
  unfold bind. destruct (body x w) as [[[]|e] w']; [apply IH|done].
Qed.

(** ** The table and the download button *)

Lemma set_model_id w : set_model (model w) w = w.
Proof. by destruct w. Qed.

Lemma with_model_model m w : model (with_model m w) = m.
Proof. unfold with_model. by destruct (decide _) as [->|]. Qed.

Lemma with_model_same w : with_model (model w) w = w.
Proof. unfold with_model. by rewrite decide_True. Qed.

(** A call that changed the table leaves the rest of the window alone,
    the download button apart. *)
Lemma with_model_button m w :
  ∃ b, with_model m w =
       set_downloadSelectedVidsButton_enabled b (set_model m w).
Proof.
  unfold with_model. destruct (decide _) as [->|_].
  - exists (downloadSelectedVidsButton_enabled w). by destruct w.
  - by eexists.
Qed.

Lemma emit_itemChanged_set_model m1 m2 w :
  emit_itemChanged (set_model m2 (emit_itemChanged (set_model m1 w))) =
  emit_itemChanged (set_model m2 w).
Proof. done. Qed.

Lemma with_model_twice m1 m2 w :
  (m1 ≠ model w → m2 ≠ model w) →
  with_model m2 (with_model m1 w) = with_model m2 w.
Proof.
  intros Hne. unfold with_model at 2.
  destruct (decide (m1 = model w)) as [->|Hm1]; [done|].
  specialize (Hne Hm1). unfold with_model.
  rewrite (decide_False (P := m2 = model w)) by done. simpl.
  destruct (decide (m2 = m1)) as [->|_]; [done|].
  apply emit_itemChanged_set_model.
Qed.

Lemma button_loop_spec m rows enabled :
  Forall (λ row, is_Some (model_item m row DOWNLOAD)) rows →
  button_loop m rows enabled =
  (Ok tt, enabled || bool_decide (filter (is_checked m) rows ≠ [])).
Proof.
  revert enabled. induction rows as [|row rows IH]; intros enabled Hall.
  - simpl. by rewrite orb_false_r.
  - apply Forall_cons in Hall as [[item Hitem] Hall]. simpl.
    rewrite Hitem, IH by done. rewrite filter_cons.
    assert (is_checked m row ↔ it_check item = Checked) as Hiff.
    { unfold is_checked. rewrite Hitem. simpl.
      split; [by intros [= ?]|by intros ->]. }
    destruct (decide (it_check item = Checked));
      destruct (decide (is_checked m row)); try tauto.
    f_equal. simpl. by rewrite orb_true_r.
Qed.

Lemma button_loop_raises m rows enabled row :
  row ∈ rows → model_item m row DOWNLOAD = None →
  (button_loop m rows enabled).1 = Raise AttributeError.
Proof.
  revert enabled. induction rows as [|row' rows IH]; intros enabled Hin Hnone.
  - by apply elem_of_nil in Hin.
  - simpl. destruct (model_item m row' DOWNLOAD) as [item|] eqn:Hitem; [|done].
    apply elem_of_cons in Hin as [->|Hin]; [congruence|]. by apply IH.
Qed.

Lemma full_rows_have_boxes m :
  Forall full_row m →
  Forall (λ row, is_Some (model_item m row DOWNLOAD)) (seq 0 (length m)).
Proof.
  intros Hfull. apply Forall_forall. intros row Hrow%elem_of_seq.
  destruct (lookup_lt_is_Some_2 m row) as [r Hr]; [lia|].
  rewrite Forall_forall in Hfull.
  destruct (Hfull r) as (Hd & _); [by eapply list_elem_of_lookup_2|].
  unfold model_item. by rewrite Hr.
Qed.

(** A loop whose turns all return keeps what each turn keeps. *)
Lemma for_each_invariant {A} (P : MainWindow → Prop) (l : list A)
    (body : A → M unit) w :
  (∀ x w1, P w1 → P (body x w1).2) →
  P w → P (for_each l body w).2.
Proof.
  intros Hbody. revert w. induction l as [|x l IH]; intros w Hw; simpl; [done|].
  unfold bind. specialize (Hbody x w Hw).
  destruct (body x w) as [[[]|e] w']; simpl in *; [by apply IH|done].
Qed.

(** ** Populating the list *)

Section Populate.
Context `{DownloadThreadStatics, YTChannel, PyBuiltins}.

Lemma populate_body_row fs w tl :
  model (populate_body fs w tl) =
  model w ++ [populated_row fs (user_settings w) tl].
Proof.
  unfold populate_body, populated_row, destination. simpl.
  by destruct (is_download_complete _ _).
Qed.

Lemma populate_fold_settings fs l w :
  user_settings (fold_left (populate_body fs) l w) = user_settings w.
Proof.
  revert w. induction l as [|tl l IH]; intros w; simpl; [done|].
  by rewrite IH.
Qed.

Lemma populate_fold_model fs l w :
  model (fold_left (populate_body fs) l w) =
  model w ++ map (populated_row fs (user_settings w)) l.
Proof.
  revert w. induction l as [|tl l IH]; intros w; simpl.
  - by rewrite app_nil_r.
  - rewrite IH, populate_body_row. simpl. by rewrite <- app_assoc.
Qed.

Lemma populate_model fs w :
  model (populate_window_list fs w) =
  map (populated_row fs (user_settings w)) (yt_chan_vids_titles_links w).
Proof.
  unfold populate_window_list.
  set (w2 := fold_left _ _ _).
  assert (model w2 = map (populated_row fs (user_settings w))
                         (yt_chan_vids_titles_links w)) as Hm.
  { unfold w2. by rewrite populate_fold_model. }
  destruct (decide _); [|done].
  by destruct (window_resize_needed _).
Qed.

Lemma populated_row_title fs settings tl :
  row_title (populated_row fs settings tl) = Some tl.1.
Proof. unfold populated_row. by destruct (is_download_complete _ _). Qed.

Lemma populated_row_check fs settings tl :
  row_check (populated_row fs settings tl) = Some Unchecked.
Proof. unfold populated_row. by destruct (is_download_complete _ _). Qed.

Lemma populated_row_locked fs settings tl :
  let complete := is_download_complete fs (destination settings tl.1) in
  (not_checkable (populated_row fs settings tl) ↔ complete = true) ∧
  (greyed (populated_row fs settings tl) ↔ complete = true) ∧
  (shows_complete (populated_row fs settings tl) ↔ complete = true).
Proof.
  unfold populated_row. simpl.
  destruct (is_download_complete _ _); repeat split; try done.
  - intros _. eexists. split; [done|]. by vm_compute.
  - intros _. do 3 eexists. by repeat split.
  - intros _. eexists. by split.
  - intros (it & [= <-] & Hc). by vm_compute in Hc.
  - intros (cb & ti & li & [= <-] & _ & _ & Hg & _). done.
  - intros (it & [= <-] & Ht). done.
Qed.

Lemma populate_fold_dict fs l w (t : string) :
  dl_path_correspondences (fold_left (populate_body fs) l w) !! t =
  if decide (t ∈ l.*1) then Some (destination (user_settings w) t)
  else dl_path_correspondences w !! t.
Proof.
  revert w. induction l as [|[t1 l1] l IH]; intros w.
  - done.
  - change (fold_left (populate_body fs) ((t1, l1) :: l) w)
      with (fold_left (populate_body fs) l (populate_body fs w (t1, l1))).
    rewrite IH.
    change (user_settings (populate_body fs w (t1, l1))) with (user_settings w).
    change (dl_path_correspondences (populate_body fs w (t1, l1)))
      with (<[t1 := destination (user_settings w) t1]>
              (dl_path_correspondences w)).
    rewrite fmap_cons. cbn [fst].
    destruct (decide (t ∈ l.*1)) as [Hin|Hin].
    + rewrite decide_True; [done|]. by apply list_elem_of_further.
    + destruct (decide (t = t1)) as [->|Hne].
      * rewrite decide_True by apply list_elem_of_here.
        by rewrite lookup_insert_eq.
      * rewrite decide_False; [by rewrite lookup_insert_ne|].
        intros [?|?]%elem_of_cons; done.
Qed.

Lemma populate_dict fs w (t : string) :
  dl_path_correspondences (populate_window_list fs w) !! t =
  if decide (t ∈ (yt_chan_vids_titles_links w).*1)
  then Some (destination (user_settings w) t)
  else dl_path_correspondences w !! t.
Proof.
  unfold populate_window_list.
  set (w2 := fold_left _ _ _).
  assert (dl_path_correspondences w2 !! t =
          if decide (t ∈ (yt_chan_vids_titles_links w).*1)
          then Some (destination (user_settings w) t)
          else dl_path_correspondences w !! t) as Hd.
  { unfold w2. by rewrite populate_fold_dict. }
  destruct (decide (0 < length (model w2))); [|done].
  by destruct (window_resize_needed _).
Qed.

Lemma populate_settings fs w :
  user_settings (populate_window_list fs w) = user_settings w.
Proof.
  unfold populate_window_list.
  set (w2 := fold_left _ _ _).
  assert (user_settings w2 = user_settings w) as Hs.
  { unfold w2. by rewrite populate_fold_settings. }
  destruct (decide _); [|done].
  by destruct (window_resize_needed _).
Qed.

(** Every row of a freshly populated list finds its path. *)
Lemma populate_row_path fs w r :
  r ∈ model (populate_window_list fs w) →
  ∃ title, row_title r = Some title ∧
    row_path (populate_window_list fs w) r =
    Some (destination (user_settings w) title).
Proof.
  rewrite populate_model. intros (tl & -> & Hin)%list_elem_of_fmap.
  exists tl.1. split; [apply populated_row_title|].
  unfold row_path, populated_row.
  assert (tl.1 ∈ (yt_chan_vids_titles_links w).*1) as Ht
    by (apply list_elem_of_fmap; eauto).
  destruct (is_download_complete _ _); simpl;
    by rewrite populate_dict, decide_True.
Qed.

(** C4: after [populate_window_list] the rows are those of the stored
    list, in order, and a row is locked (check box not checkable, row
    grey, progress "Complete") exactly when the file probe, asked at that
    moment about the row's destination path, answered true; a row whose
    probe answered false carries none of the three marks. *)
Theorem populate_locks_exactly_complete fs w i r :
  model (populate_window_list fs w) !! i = Some r →
  ∃ title link,
    yt_chan_vids_titles_links w !! i = Some (title, link) ∧
    row_title r = Some title ∧
    (locked r ↔
     is_download_complete fs (destination (user_settings w) title) = true) ∧
    (not_checkable r ∨ greyed r ∨ shows_complete r →
     is_download_complete fs (destination (user_settings w) title) = true).
Proof.
  rewrite populate_model, list_lookup_fmap.
  destruct (yt_chan_vids_titles_links w !! i) as [[title link]|] eqn:Hi;
    [|done].
  intros [= <-]. exists title, link. split; [done|].
  split; [apply populated_row_title|].
  destruct (populated_row_locked fs (user_settings w) (title, link))
    as (Hc & Hg & Hs). simpl in *.
  split.
  - unfold locked. split; [intros (? & _ & _); tauto|].
    intros Hp. tauto.
  - tauto.
Qed.

End Populate.

(** ** Select all *)

Section SelectAll.
Context `{DownloadThreadStatics, YTChannel, PyBuiltins}.

Lemma alter_as_insert {A} (f : A → A) (l : list A) i x :
  l !! i = Some x → alter f i l = <[i := f x]> l.
Proof.
  intros Hi. apply list_eq. intros j.
  destruct (decide (i = j)) as [<-|Hne].
  - rewrite list_lookup_alter_eq, Hi. simpl.
    rewrite list_lookup_insert_eq; [done|]. by eapply lookup_lt_Some.
  - by rewrite list_lookup_alter_ne, list_lookup_insert_ne.
Qed.

Lemma row_path_with_model m w r : row_path (with_model m w) r = row_path w r.
Proof. destruct (with_model_button m w) as [b ->]. done. Qed.

Lemma select_all_row_with_model fs nv m w r :
  select_all_row fs nv (with_model m w) r = select_all_row fs nv w r.
Proof. unfold select_all_row. by rewrite row_path_with_model. Qed.

Lemma select_all_body_spec fs nv row w r :
  model w !! row = Some r → is_Some (row_path w r) →
  select_all_body fs nv row w =
  (Ok tt, with_model (<[row := select_all_row fs nv w r]> (model w)) w).
Proof.
  intros Hrow [p Hp]. unfold select_all_body, select_all_row, bind, get.
  simpl. unfold model_data, model_item. rewrite Hrow, Hp. simpl.
  unfold row_path in Hp. rewrite Hp. simpl. unfold skipped.
  destruct (_ && _).
  - unfold ret. by rewrite list_insert_id, with_model_same.
  - unfold model_setData, modify. simpl. f_equal.
    rewrite with_model_model. unfold model_update_item.
    rewrite (alter_as_insert _ _ _ _ Hrow).
    erewrite alter_as_insert
      by (apply list_lookup_insert_eq; by eapply lookup_lt_Some).
    rewrite list_insert_insert_eq.
    set (r1 := set_cell DOWNLOAD _ r).
    assert (set_cell DOWNLOAD
              (setCheckState (if nv then Checked else Unchecked)
                 (default new_item (cell r1 DOWNLOAD))) r1 =
            selected_as nv r) as -> by (by destruct r).
    apply with_model_twice. intros Hne Heq. apply Hne.
    assert (selected_as nv r = r) as Hsame.
    { apply (f_equal (λ m, m !! row)) in Heq.
      rewrite list_lookup_insert_eq in Heq by (by eapply lookup_lt_Some).
      rewrite Hrow in Heq. by injection Heq. }
    assert (r1 = r) as ->; [|by rewrite list_insert_id].
    unfold r1. destruct r as [[d|] t l pr];
      unfold selected_as in Hsame; simpl in *; [|discriminate].
    destruct d. injection Hsame as Hd Hc. unfold setDisplay. simpl.
    by rewrite Hd.
Qed.

Lemma select_all_body_unknown fs nv row w r :
  model w !! row = Some r → row_path w r = None →
  select_all_body fs nv row w = (Raise KeyError, w).
Proof.
  intros Hrow Hp. unfold select_all_body, bind, get. simpl.
  unfold model_data, model_item. rewrite Hrow. simpl.
  unfold row_path in Hp. by rewrite Hp.
Qed.

(** The loop over a stretch of rows that all find their path. *)
Lemma select_all_loop fs nv n : ∀ k w,
  k + n ≤ length (model w) →
  (∀ i r, k ≤ i < k + n → model w !! i = Some r → is_Some (row_path w r)) →
  ∃ m', for_each (seq k n) (select_all_body fs nv) w =
          (Ok tt, with_model m' w) ∧
        ∀ i, m' !! i =
             if decide (k ≤ i < k + n)
             then select_all_row fs nv w <$> model w !! i
             else model w !! i.
Proof.
  induction n as [|n IH]; intros k w Hlen Hpaths.
  - exists (model w). simpl. unfold ret. rewrite with_model_same.
    split; [done|]. intros i. rewrite decide_False by lia. done.
  - destruct (lookup_lt_is_Some_2 (model w) k) as [r Hr]; [lia|].
    assert (is_Some (row_path w r)) as Hp by (apply (Hpaths k); [lia|done]).
    simpl. unfold bind. rewrite (select_all_body_spec _ _ _ _ _ Hr Hp).
    set (m1 := <[k:=select_all_row fs nv w r]> (model w)).
    destruct (IH (S k) (with_model m1 w)) as (m' & Hrun & Hm').
    + rewrite with_model_model. unfold m1. rewrite length_insert. lia.
    + intros j r' Hj Hr'. rewrite with_model_model in Hr'.
      unfold m1 in Hr'. rewrite list_lookup_insert_ne in Hr' by lia.
      rewrite row_path_with_model. apply (Hpaths j); [lia|done].
    + assert (∀ i, m' !! i =
                if decide (k ≤ i < k + S n)
                then select_all_row fs nv w <$> model w !! i
                else model w !! i) as Hrows.
      { intros i. rewrite Hm', with_model_model. unfold m1.
        destruct (decide (k = i)) as [<-|Hne].
        - repeat case_decide; try lia.
          rewrite list_lookup_insert_eq by (by eapply lookup_lt_Some).
          by rewrite Hr.
        - rewrite list_lookup_insert_ne by done.
          repeat case_decide; try lia; try reflexivity.
          destruct (model w !! i); [|done]. simpl.
          by rewrite select_all_row_with_model. }
      exists m'. split; [|exact Hrows]. rewrite Hrun. f_equal.
      apply with_model_twice. intros Hne Heq. apply Hne.
      unfold m1. apply list_insert_id.
      specialize (Hrows k). rewrite decide_True in Hrows by lia.
      rewrite Heq, Hr in Hrows. simpl in Hrows. by injection Hrows as <-.
Qed.

(** With a path on record for every title shown, select-all returns and
    treats each row by itself. *)
Lemma select_all_map fs state w :
  (∀ r, r ∈ model w → is_Some (row_path w r)) →
  onSelectAllStateChanged fs state w =
  (Ok tt, with_model
            (select_all_row fs (bool_decide (state = 2%Z)) w <$> model w) w).
Proof.
  intros Hpaths. unfold onSelectAllStateChanged, bind, get. simpl.
  destruct (select_all_loop fs (bool_decide (state = 2%Z))
              (length (model w)) 0 w) as (m' & -> & Hm'); [simpl; lia| |].
  { intros i r _ Hr. apply Hpaths. by eapply list_elem_of_lookup_2. }
  do 2 f_equal. apply list_eq. intros i. rewrite Hm', list_lookup_fmap.
  destruct (decide _) as [|Hn]; [done|].
  rewrite lookup_ge_None_2 by lia. done.
Qed.

(** In any window: the rows before the first one whose title the map does
    not know are treated one by one; at that row the slot raises
    [KeyError] and the rows from there on stay as they were. *)
Lemma select_all_upto_unknown fs state w j r0 :
  model w !! j = Some r0 → row_path w r0 = None →
  (∀ i r, i < j → model w !! i = Some r → is_Some (row_path w r)) →
  ∃ m', onSelectAllStateChanged fs state w =
          (Raise KeyError, with_model m' w) ∧
        ∀ i, m' !! i =
             if decide (i < j)
             then select_all_row fs (bool_decide (state = 2%Z)) w <$>
                    model w !! i
             else model w !! i.
Proof.
  intros Hj Hnone Hbefore.
  pose proof (lookup_lt_Some _ _ _ Hj) as Hlt.
  unfold onSelectAllStateChanged, bind, get. simpl.
  replace (length (model w)) with (j + S (length (model w) - S j)) by lia.
  rewrite seq_app, for_each_app.
  destruct (select_all_loop fs (bool_decide (state = 2%Z)) j 0 w)
    as (m' & -> & Hm'); [simpl; lia| |].
  { intros i r Hi. apply Hbefore. lia. }
  exists m'. simpl. unfold bind.
  assert (m' !! j = Some r0) as Hj'.
  { rewrite Hm'. destruct (decide (0 ≤ j < 0 + j)); [lia|done]. }
  rewrite (select_all_body_unknown _ _ _ _ r0);
    [|by rewrite with_model_model|by rewrite row_path_with_model].
  split; [done|]. intros i. rewrite Hm'.
  destruct (decide (0 ≤ i < 0 + j)); destruct (decide (i < j)); try lia; done.
Qed.

Lemma same_lookups_same_length {A} (l1 l2 : list A) :
  (∀ i, is_Some (l1 !! i) ↔ is_Some (l2 !! i)) → length l1 = length l2.
Proof.
  intros Hsame.
  destruct (decide (length l1 < length l2)) as [Hlt|Hge].
  - apply lookup_lt_is_Some_2, Hsame, lookup_lt_is_Some_1 in Hlt. lia.
  - destruct (decide (length l2 < length l1)) as [Hlt|Hge']; [|lia].
    apply lookup_lt_is_Some_2, Hsame, lookup_lt_is_Some_1 in Hlt. lia.
Qed.

(** Select-all in any window. *)
Lemma select_all_rows fs state w :
  ∃ res m',
    onSelectAllStateChanged fs state w = (res, with_model m' w) ∧
    length m' = length (model w) ∧
    ((∀ r, r ∈ model w → is_Some (row_path w r)) → res = Ok tt) ∧
    ∀ i r, model w !! i = Some r →
      (∀ j rj, j ≤ i → model w !! j = Some rj → is_Some (row_path w rj)) →
      m' !! i = Some (select_all_row fs (bool_decide (state = 2%Z)) w r).
Proof.
  destruct (list_find (λ r, row_path w r = None) (model w))
    as [[j r0]|] eqn:Hfind.
  - apply list_find_Some in Hfind as (Hj & Hnone & Hfirst).
    destruct (select_all_upto_unknown fs state w j r0 Hj Hnone)
      as (m' & -> & Hm').
    { intros i r Hi Hr. specialize (Hfirst i r Hr Hi).
      by destruct (row_path w r). }
    exists (Raise KeyError), m'. split; [done|]. split; [|split].
    + apply same_lookups_same_length. intros i. rewrite Hm'.
      destruct (decide (i < j)); [|done]. by rewrite fmap_is_Some.
    + intros Hall. destruct (Hall r0) as [p Hp];
        [by eapply list_elem_of_lookup_2|congruence].
    + intros i r Hr Hknown. rewrite Hm', Hr.
      destruct (decide (i < j)) as [|Hge]; [done|].
      destruct (Hknown j r0) as [p Hp]; [lia|done|congruence].
  - apply list_find_None in Hfind. rewrite Forall_forall in Hfind.
    assert (∀ r, r ∈ model w → is_Some (row_path w r)) as Hall.
    { intros r Hr. specialize (Hfind r Hr). by destruct (row_path w r). }
    rewrite (select_all_map fs state w Hall).
    eexists _, _. split; [done|]. split; [apply length_fmap|].
    split; [done|]. intros i r Hr _. by rewrite list_lookup_fmap, Hr.
Qed.

Lemma selected_as_check nv r :
  row_check (selected_as nv r) = Some (if nv then Checked else Unchecked).
Proof. done. Qed.

(** C5, as the code has it: in any window the select-all slot changes
    nothing but the rows (and, through [itemChanged], the download
    button), and it treats every row that, like the rows above it, shows
    a title the correspondence map knows (all rows do after
    [populate_window_list]) by its stored path at that moment: a row
    whose path is not the empty string and is reported complete by the
    probe is skipped and stays as it was; every other row, so also a row
    with the empty path whatever the probe says of it, has its check box
    set to the state of the select-all box (checked for state 2,
    unchecked otherwise).  When every row's title is known the slot
    returns normally. *)
Theorem select_all_skips_complete_rows fs state w :
  ∃ res w', onSelectAllStateChanged fs state w = (res, w') ∧
    w' = with_model (model w') w ∧
    length (model w') = length (model w) ∧
    ((∀ r, r ∈ model w → is_Some (row_path w r)) → res = Ok tt) ∧
    ∀ i r p, model w !! i = Some r → row_path w r = Some p →
      (∀ j rj, j < i → model w !! j = Some rj → is_Some (row_path w rj)) →
      ∃ r', model w' !! i = Some r' ∧
        (p ≠ "" → is_download_complete fs p = true → r' = r) ∧
        (p = "" ∨ is_download_complete fs p = false →
         r' = selected_as (bool_decide (state = 2%Z)) r ∧
         row_check r' =
           Some (if bool_decide (state = 2%Z) then Checked else Unchecked)).
Proof.
  destruct (select_all_rows fs state w) as (res & m' & -> & Hlen & Hok & Hrows).
  eexists _, _. split; [done|]. rewrite with_model_model.
  split; [done|]. split; [done|].
  split; [done|]. intros i r p Hr Hp Hbefore.
  eexists. split.
  { apply (Hrows i r Hr). intros j rj Hj Hrj.
    destruct (decide (j = i)) as [->|Hne].
    - rewrite Hr in Hrj. injection Hrj as <-. by rewrite Hp.
    - apply (Hbefore j); [lia|done]. }
  unfold select_all_row, skipped. rewrite Hp. split.
  - intros Hne ->. by rewrite bool_decide_true.
  - intros [->| ->].
    + by rewrite bool_decide_false by (intros Hne; by apply Hne).
    + by rewrite andb_false_r.
Qed.

(** C9, as the code has it: the correspondence map is keyed by title.
    After [populate_window_list] every row finds an entry under the title
    it shows, whatever the map held before, and the entry is the
    destination path of that title; so two rows with one title find one
    and the same path, and select-all treats them alike: when that path
    is not the empty string and the probe reports it complete, both rows
    are left as they were; otherwise both are set to the state of the
    select-all box. *)
Theorem correspondence_keyed_by_title fs0 fs state w0 :
  let w := populate_window_list fs0 w0 in
  (∀ r, r ∈ model w →
     ∃ title, row_title r = Some title ∧
       dl_path_correspondences w !! title =
       Some (destination (user_settings w0) title) ∧
       row_path w r = dl_path_correspondences w !! title) ∧
  (∀ i j ri rj, model w !! i = Some ri → model w !! j = Some rj →
     row_title ri = row_title rj → row_path w ri = row_path w rj) ∧
  (∀ i j ri rj p, model w !! i = Some ri → model w !! j = Some rj →
     row_title ri = row_title rj → row_path w ri = Some p →
     ∃ w', onSelectAllStateChanged fs state w = (Ok tt, w') ∧
       (p ≠ "" → is_download_complete fs p = true →
        model w' !! i = Some ri ∧ model w' !! j = Some rj) ∧
       (p = "" ∨ is_download_complete fs p = false →
        model w' !! i = Some (selected_as (bool_decide (state = 2%Z)) ri) ∧
        model w' !! j = Some (selected_as (bool_decide (state = 2%Z)) rj))).
Proof.
  intros w.
  assert (∀ r, r ∈ model w →
     ∃ title, row_title r = Some title ∧
       dl_path_correspondences w !! title =
       Some (destination (user_settings w0) title) ∧
       row_path w r = dl_path_correspondences w !! title) as Hrows.
  { intros r Hr. destruct (populate_row_path _ _ _ Hr) as (title & Ht & Hp).
    exists title. split; [done|].
    assert (row_path w r = dl_path_correspondences w !! title) as Heq.
    { unfold row_path, row_title in *. destruct (c_title r) as [it|]; [|done].
      simpl in *. unfold text in Ht. fold w in Hp.
      destruct (it_display it) as [|s|[]]; simpl in *; try done.
      by injection Ht as ->. }
    split; [|done]. rewrite <- Heq. exact Hp. }
  assert (∀ i j ri rj, model w !! i = Some ri → model w !! j = Some rj →
     row_title ri = row_title rj → row_path w ri = row_path w rj) as Hsame.
  { intros i j ri rj Hi Hj Ht.
    destruct (Hrows ri) as (ti & Hti & _ & ->);
      [by eapply list_elem_of_lookup_2|].
    destruct (Hrows rj) as (tj & Htj & _ & ->);
      [by eapply list_elem_of_lookup_2|].
    rewrite Hti, Htj in Ht. by injection Ht as ->. }
  split; [done|]. split; [done|].
  intros i j ri rj p Hi Hj Ht Hp.
  rewrite select_all_map.
  2:{ intros r Hr. destruct (Hrows r Hr) as (t & _ & Hd & ->). by rewrite Hd. }
  eexists. split; [done|]. rewrite with_model_model.
  rewrite !list_lookup_fmap, Hi, Hj. simpl.
  pose proof (Hsame i j ri rj Hi Hj Ht) as Hpj. rewrite Hp in Hpj.
  unfold select_all_row, skipped. rewrite Hp, <- Hpj. split.
  - intros Hne ->. by rewrite bool_decide_true.
  - intros [->| ->].
    + by rewrite bool_decide_false by (intros Hne; by apply Hne).
    + by rewrite andb_false_r.
Qed.

End SelectAll.

Import Example.

Lemma populate_locks_exactly_complete_witness :
  model (populate_window_list intro_there listed) !! 2 = Some talk_row ∧
  ∃ title link,
    yt_chan_vids_titles_links listed !! 2 = Some (title, link) ∧
    row_title talk_row = Some title ∧
    (locked talk_row ↔
     is_download_complete intro_there
       (destination (user_settings listed) title) = true) ∧
    (not_checkable talk_row ∨ greyed talk_row ∨ shows_complete talk_row →
     is_download_complete intro_there
       (destination (user_settings listed) title) = true).
Proof.
  assert (model (populate_window_list intro_there listed) !! 2 =
          Some talk_row) as Hrow by reflexivity.
  split; [exact Hrow|].
  exact (populate_locks_exactly_complete intro_there listed 2 talk_row Hrow).
Defined.

Lemma populated_rows_have_paths :
  ∀ r, r ∈ model populated → is_Some (row_path populated r).
Proof.
  intros r Hr. vm_compute in Hr.
  repeat (apply elem_of_cons in Hr as [->|Hr]);
    [..|by apply elem_of_nil in Hr]; vm_compute; by eexists.
Defined.

Lemma select_all_skips_complete_rows_witness :
  (∀ r, r ∈ model populated → is_Some (row_path populated r)) ∧
  (∀ j rj, j < 2 → model populated !! j = Some rj →
     is_Some (row_path populated rj)) ∧
  model populated !! 2 = Some talk_row ∧
  row_path populated talk_row = Some "./Talk" ∧
  ∃ res w', onSelectAllStateChanged intro_there 2 populated = (res, w') ∧
    res = Ok tt ∧
    ∃ r', model w' !! 2 = Some r' ∧
      ("./Talk" ≠ "" → is_download_complete intro_there "./Talk" = true →
       r' = talk_row) ∧
      ("./Talk" = "" ∨ is_download_complete intro_there "./Talk" = false →
       r' = selected_as (bool_decide (2 = 2)%Z) talk_row ∧
       row_check r' =
         Some (if bool_decide (2 = 2)%Z then Checked else Unchecked)).
Proof.
  assert (∀ j rj, j < 2 → model populated !! j = Some rj →
            is_Some (row_path populated rj)) as Hbefore.
  { intros j rj _ Hj. apply populated_rows_have_paths.
    by eapply list_elem_of_lookup_2. }
  assert (model populated !! 2 = Some talk_row) as Hrow by reflexivity.
  assert (row_path populated talk_row = Some "./Talk") as Hpath
    by (by vm_compute).
  split; [exact populated_rows_have_paths|]. split; [exact Hbefore|].
  split; [exact Hrow|]. split; [exact Hpath|].
  destruct (select_all_skips_complete_rows intro_there 2 populated)
    as (res & w' & Hrun & _ & _ & Hok & Hrows).
  exists res, w'. split; [exact Hrun|].
  split; [exact (Hok populated_rows_have_paths)|].
  exact (Hrows 2 talk_row "./Talk" Hrow Hpath Hbefore).
Defined.

(** The window of the example after select-all: the two "Intro" rows,
    whose file is there, stay unchecked; the "Talk" row is checked. *)
Example select_all_on_populated :
  row_check <$> model (exec (onSelectAllStateChanged intro_there 2) populated)
  = [Some Unchecked; Some Unchecked; Some Checked].
Proof. by vm_compute. Qed.

Lemma correspondence_keyed_by_title_witness :
  let w := populate_window_list intro_there listed in
  ∃ ri rj p,
    model w !! 0 = Some ri ∧ model w !! 1 = Some rj ∧
    row_title ri = row_title rj ∧ row_path w ri = Some p ∧
    p ≠ "" ∧ is_download_complete intro_there p = true ∧
    ∃ w', onSelectAllStateChanged intro_there 2 w = (Ok tt, w') ∧
          model w' !! 0 = Some ri ∧ model w' !! 1 = Some rj.
Proof.
  intros w.
  destruct (correspondence_keyed_by_title intro_there intro_there 2 listed)
    as (_ & _ & Hskip).
  eexists _, _, "./Intro".
  assert (model w !! 0 =
          Some (populated_row intro_there no_settings
                  ("Intro", "https://youtu.be/a1"))) as H0 by reflexivity.
  assert (model w !! 1 =
          Some (populated_row intro_there no_settings
                  ("Intro", "https://youtu.be/a2"))) as H1 by reflexivity.
  split; [exact H0|]. split; [exact H1|].
  split; [reflexivity|]. split; [by vm_compute|].
  split; [discriminate|]. split; [by vm_compute|].
  destruct (Hskip 0 1 _ _ "./Intro" H0 H1) as (w' & Hrun & Hleft & _);
    [reflexivity|by vm_compute|].
  exists w'. split; [exact Hrun|].
  apply Hleft; [discriminate|by vm_compute].
Defined.

(** C5 fails as stated: with the download directory set to the empty
    string, an untitled video has the empty path for its destination.
    The probe reports that path complete, and the row is drawn locked and
    unticked when the list is shown; yet select-all does not skip the
    row: it ticks it. *)
Lemma select_all_ticks_a_complete_row :
  let r := populated_row empty_path_there empty_directory
             ("", "https://youtu.be/u1") in
  model untitled_listed !! 0 = Some r ∧
  row_path untitled_listed r = Some "" ∧
  is_download_complete empty_path_there "" = true ∧
  locked r ∧ row_check r = Some Unchecked ∧
  (onSelectAllStateChanged empty_path_there 2 untitled_listed).1 = Ok tt ∧
  row_check <$>
    model (exec (onSelectAllStateChanged empty_path_there 2)
             untitled_listed) !! 0 = Some (Some Checked).
Proof.
  intros r. split; [by vm_compute|]. split; [by vm_compute|].
  split; [by vm_compute|]. split.
  { unfold r. vm_compute. repeat split; repeat eexists. }
  by vm_compute.
Qed.

(** C9 fails as stated: the two untitled rows of that window have equal
    titles and find the same path, the empty one, whose file the probe
    reports complete; select-all skips neither: it ticks both. *)
Lemma select_all_ticks_both_complete_rows :
  let ri := populated_row empty_path_there empty_directory
              ("", "https://youtu.be/u1") in
  let rj := populated_row empty_path_there empty_directory
              ("", "https://youtu.be/u2") in
  model untitled_listed !! 0 = Some ri ∧
  model untitled_listed !! 1 = Some rj ∧
  row_title ri = row_title rj ∧
  row_path untitled_listed ri = Some "" ∧
  row_path untitled_listed rj = Some "" ∧
  is_download_complete empty_path_there "" = true ∧
  row_check <$> model untitled_listed = [Some Unchecked; Some Unchecked] ∧
  (onSelectAllStateChanged empty_path_there 2 untitled_listed).1 = Ok tt ∧
  row_check <$>
    model (exec (onSelectAllStateChanged empty_path_there 2)
             untitled_listed) = [Some Checked; Some Checked].
Proof. by vm_compute. Qed.

(** ** Error notifications *)

Section Errors.
Context `{DownloadThreadStatics, YTChannel, PyBuiltins}.

(** C7: a notification whose "index" field converts to the integer
    [index] gets exactly one report, for that index, chosen by its "error"
    field: the download-error box for "Download error", the network-error
    box for "Network error", the unexpected-error box for every other
    value and for a notification without the field. *)
Theorem handle_download_error_classifies data v index w :
  data !! "index" = Some v → py_int v w = (Ok index, w) →
  ∃ report,
    handle_download_error data w =
      (Ok tt, set_dialogs (dialogs w ++ [report]) w) ∧
    (data !! "error" = Some (PyStr "Download error") →
     report = QMessageBox_critical "Download Error"
       ("An error occurred while downloading item " +:+ pretty index +:+
        ". Please check the URL and try again.")) ∧
    (data !! "error" = Some (PyStr "Network error") →
     report = QMessageBox_warning "Network Error"
       ("Network issue encountered while downloading item " +:+ pretty index
        +:+ ". Check your internet connection and try again.")) ∧
    (data !! "error" ≠ Some (PyStr "Download error") →
     data !! "error" ≠ Some (PyStr "Network error") →
     report = QMessageBox_warning "Unexpected Error"
       ("An unexpected error occurred while downloading item " +:+
        pretty index +:+ ". Please try again later.")).
Proof.
  intros Hv Hint. unfold handle_download_error, bind. rewrite Hv. simpl.
  rewrite Hint.
  destruct (data !! "error") as [e|] eqn:He; simpl.
  - destruct (decide (e = PyStr "Download error")) as [->|Hd].
    { eexists. split; [reflexivity|]. repeat split; try done. }
    destruct (decide (e = PyStr "Network error")) as [->|Hn].
    { eexists. split; [reflexivity|]. repeat split; try done. }
    eexists. split; [reflexivity|]. repeat split; congruence.
  - eexists. split; [reflexivity|]. repeat split; done.
Qed.

End Errors.

Lemma handle_download_error_classifies_witness :
  let data : gmap string PyVal :=
    {[ "index" := PyInt 3; "error" := PyStr "Network error" ]} in
  data !! "index" = Some (PyInt 3) ∧
  py_int (PyInt 3) populated = (Ok 3%Z, populated) ∧
  ∃ report,
    handle_download_error data populated =
      (Ok tt, set_dialogs (dialogs populated ++ [report]) populated) ∧
    (data !! "error" = Some (PyStr "Download error") →
     report = QMessageBox_critical "Download Error"
       ("An error occurred while downloading item " +:+ pretty 3%Z +:+
        ". Please check the URL and try again.")) ∧
    (data !! "error" = Some (PyStr "Network error") →
     report = QMessageBox_warning "Network Error"
       ("Network issue encountered while downloading item " +:+ pretty 3%Z
        +:+ ". Check your internet connection and try again.")) ∧
    (data !! "error" ≠ Some (PyStr "Download error") →
     data !! "error" ≠ Some (PyStr "Network error") →
     report = QMessageBox_warning "Unexpected Error"
       ("An unexpected error occurred while downloading item " +:+
        pretty 3%Z +:+ ". Please try again later.")).
Proof.
  intros data.
  assert (data !! "index" = Some (PyInt 3)) as Hv by (by vm_compute).
  assert (py_int (PyInt 3) populated = (Ok 3%Z, populated)) as Hint
    by reflexivity.
  split; [exact Hv|]. split; [exact Hint|].
  exact (handle_download_error_classifies data (PyInt 3) 3%Z populated
           Hv Hint).
Defined.

(** The three reports on one notification each. *)
Example network_error_report :
  dialogs (exec (handle_download_error
                   {[ "index" := PyStr "12"; "error" := PyStr "Network error" ]})
             (MainWindow_init no_settings)) =
  [QMessageBox_warning "Network Error"
     "Network issue encountered while downloading item 12. Check your internet connection and try again."].
Proof. by vm_compute. Qed.

Example missing_error_field_report :
  dialogs (exec (handle_download_error {[ "index" := PyInt 0 ]})
             (MainWindow_init no_settings)) =
  [QMessageBox_warning "Unexpected Error"
     "An unexpected error occurred while downloading item 0. Please try again later."].
Proof. by vm_compute. Qed.

(** ** Fetching the list *)

Section Fetch.
Context `{DownloadThreadStatics, YTChannel, PyBuiltins}.

Lemma assign_connect_start channel_id channel_url handler w :
  on_get_list_thread start_fetch
    (on_get_list_thread (connect_finished slot_enable_get_vid_list_button)
       (on_get_list_thread (connect_finished handler)
          (assign_get_list_thread
             (new_GetListThread channel_id channel_url) w))) =
  set_get_list_thread
    (Some (started_fetch channel_id channel_url handler)) w.
Proof. done. Qed.

(** What [show_vid_list] does, branch by branch. *)
Lemma show_vid_list_cases w :
  let url := chanUrlEdit w in
  let w1 := set_getVidListButton_enabled false
              (set_window_resize_needed true w) in
  show_vid_list w =
  if is_video_with_playlist_url url || is_playlist_url url then
    set_get_list_thread
      (Some (started_fetch (Some "playlist") (Some url)
               slot_handle_video_list)) w1
  else if is_video_url url || is_short_video_url url then
    set_get_list_thread
      (Some (started_fetch None (Some url) slot_handle_single_video)) w1
  else
    match get_channel_id url with
    | ChannelId channel_id =>
        set_get_list_thread
          (Some (started_fetch (Some channel_id) None
                   slot_handle_video_list)) w1
    | _ => display_error_dialog "Please check your URL" w1
    end.
Proof.
  intros url w1. unfold show_vid_list. fold url. fold w1.
  change (chanUrlEdit w1) with url.
  destruct (_ || _); [done|].
  destruct (_ || _).
  - by destruct (is_short_video_url url).
  - by destruct (get_channel_id url).
Qed.

Lemma show_vid_list_frame w :
  ∃ t d b, show_vid_list w =
    set_dialogs d
      (set_get_list_thread t
         (set_getVidListButton_enabled b (set_window_resize_needed true w))).
Proof.
  rewrite show_vid_list_cases. simpl.
  assert (∀ t, ∃ t' d b,
    set_get_list_thread t
      (set_getVidListButton_enabled false (set_window_resize_needed true w)) =
    set_dialogs d
      (set_get_list_thread t'
         (set_getVidListButton_enabled b (set_window_resize_needed true w))))
    as Hstart.
  { intros t. exists t, (dialogs w), false. by destruct w. }
  assert (∀ message, ∃ t' d b,
    display_error_dialog message
      (set_getVidListButton_enabled false (set_window_resize_needed true w)) =
    set_dialogs d
      (set_get_list_thread t'
         (set_getVidListButton_enabled b (set_window_resize_needed true w))))
    as Herr.
  { intros message. eexists (get_list_thread w), _, true. by destruct w. }
  destruct (_ || _); [apply Hstart|].
  destruct (_ || _); [apply Hstart|].
  destruct (get_channel_id _); [apply Hstart|apply Herr..].
Qed.

(** A request made right after another leaves no trace of the first
    (but its dialog, if it was refused). *)
Lemma show_vid_list_twice w :
  show_vid_list (show_vid_list w) =
  set_dialogs (dialogs (show_vid_list (show_vid_list w))) (show_vid_list w).
Proof.
  assert (chanUrlEdit (show_vid_list w) = chanUrlEdit w) as Hurl.
  { destruct (show_vid_list_frame w) as (t & d & b & ->). done. }
  rewrite (show_vid_list_cases (show_vid_list w)). cbv zeta. rewrite Hurl.
  rewrite (show_vid_list_cases w). cbv zeta.
  destruct (_ || _); [done|]. destruct (_ || _); [done|].
  by destruct (get_channel_id _).
Qed.

(** C3, what the code does with a short-form URL: the thread made with
    the strategy word "short" is replaced, before it is connected or
    started, by a thread made with no strategy at all ([None]), and that
    one is what runs; nothing of the first thread is left in the window,
    which is the window a plain video URL gives. *)
Theorem short_url_fetched_without_short_strategy w :
  is_video_with_playlist_url (chanUrlEdit w) = false →
  is_playlist_url (chanUrlEdit w) = false →
  is_short_video_url (chanUrlEdit w) = true →
  let url := chanUrlEdit w in
  let w1 := set_getVidListButton_enabled false
              (set_window_resize_needed true w) in
  let finish w2 :=
    on_get_list_thread start_fetch
      (on_get_list_thread
         (connect_finished slot_enable_get_vid_list_button)
         (on_get_list_thread (connect_finished slot_handle_single_video)
            w2)) in
  show_vid_list w =
    finish
      (assign_get_list_thread (new_GetListThread None (Some url))
         (assign_get_list_thread
            (new_GetListThread (Some "short") (Some url)) w1)) ∧
  show_vid_list w =
    set_get_list_thread
      (Some (started_fetch None (Some url) slot_handle_single_video)) w1 ∧
  get_list_thread (show_vid_list w) =
    Some (started_fetch None (Some url) slot_handle_single_video).
Proof.
  intros Hvp Hp Hs url w1 finish.
  assert (show_vid_list w =
    set_get_list_thread
      (Some (started_fetch None (Some url) slot_handle_single_video)) w1)
    as Hrun.
  { subst url w1. rewrite show_vid_list_cases. simpl.
    rewrite Hvp, Hp, Hs. simpl. by rewrite orb_true_r. }
  rewrite Hrun. done.
Qed.

End Fetch.

(** ** What each slot leaves alone *)

Ltac run_monad :=
  unfold or_raise, bind, get, modify, ret, raise; simpl.

Ltac run_cases :=
  repeat (case_match; simplify_eq; simpl in *).

Section Frames.
Context `{DownloadThreadStatics, YTChannel, PyBuiltins}.

Lemma populate_fold_frame fs l w :
  ∃ m d, fold_left (populate_body fs) l w =
         set_dl_path_correspondences d (set_model m w).
Proof.
  revert w. induction l as [|tl l IH]; intros w; simpl.
  - exists (model w), (dl_path_correspondences w). by destruct w.
  - destruct (IH (populate_body fs w tl)) as (m & d & ->). by exists m, d.
Qed.

(** [populate_window_list] writes the model, the correspondence map and
    two flags of the view, nothing else. *)
Lemma populate_frame fs w :
  ∃ m d v r, populate_window_list fs w =
    set_window_resize_needed r
      (set_select_all_checkbox_visible v
         (set_dl_path_correspondences d (set_model m w))).
Proof.
  unfold populate_window_list.
  destruct (populate_fold_frame fs (yt_chan_vids_titles_links (reinit_model w))
              (reinit_model w)) as (m & d & ->).
  destruct (decide _).
  - destruct (window_resize_needed _) eqn:Hr.
    + by exists m, d, true, false.
    + exists m, d, true, false. destruct w; simpl in *. by subst.
  - exists m, d, false, (window_resize_needed w). by destruct w.
Qed.

Lemma select_all_frame fs state w :
  ∃ m b, exec (onSelectAllStateChanged fs state) w =
         set_downloadSelectedVidsButton_enabled b (set_model m w).
Proof.
  destruct (select_all_rows fs state w) as (res & m' & Hrun & _).
  unfold exec. rewrite Hrun. simpl.
  destruct (with_model_button m' w) as [b ->]. by exists m', b.
Qed.

Lemma same_table w :
  w = set_downloadSelectedVidsButton_enabled
        (downloadSelectedVidsButton_enabled w) (set_model (model w) w).
Proof. by destruct w. Qed.

Lemma update_progress_frame data w :
  ∃ m b, exec (update_progress data) w =
         set_downloadSelectedVidsButton_enabled b (set_model m w).
Proof.
  unfold exec, update_progress, py_int, c_int, setItem. run_monad.
  run_cases; try (eexists _, _; apply same_table); by eexists _, _.
Qed.

Lemma handle_download_error_frame data w :
  ∃ ds, exec (handle_download_error data) w = set_dialogs ds w.
Proof.
  unfold exec, handle_download_error, py_int. run_monad.
  run_cases; eauto;
    match goal with |- ∃ ds, ?w1 = set_dialogs ds ?w1 =>
      exists (dialogs w1); by destruct w1 end.
Qed.

(** [dl_vids] writes the model and the list of indexes and adds threads
    to [dl_threads] (and [itemChanged] sets the download button); every
    thread it adds is connected to the two slots and started. *)
Lemma dl_vids_frame w :
  ∃ m idx ts b, exec dl_vids w =
    set_downloadSelectedVidsButton_enabled b
      (set_dl_threads (dl_threads w ++ ts)
         (set_vid_dl_indexes idx (set_model m w))) ∧
    Forall dispatched ts.
Proof.
  unfold exec, dl_vids. run_monad.
  set (P := λ w1, ∃ m idx ts b, w1 =
    set_downloadSelectedVidsButton_enabled b
      (set_dl_threads (dl_threads w ++ ts)
         (set_vid_dl_indexes idx (set_model m w))) ∧ Forall dispatched ts).
  assert (P (for_each (seq 0 (length (model w))) collect_body
               (set_vid_dl_indexes [] w)).2) as Hfirst.
  { apply for_each_invariant.
    - intros row w1 (m & idx & ts & b & -> & Hts). unfold collect_body.
      run_monad. run_cases; by eexists _, _, _, _.
    - exists (model w), [], [], (downloadSelectedVidsButton_enabled w).
      rewrite app_nil_r. split; [by destruct w|done]. }
  destruct (for_each _ collect_body _) as [[[]|e] w1]; simpl in *; [|done].
  apply for_each_invariant; [|done].
  intros index w2 (m & idx & ts & b & -> & Hts).
  unfold dispatch_body, setItem. run_monad.
  run_cases; try by eexists _, _, _, _.
  eexists _, _, (ts ++ [_]), _. rewrite app_assoc. split; [done|].
  apply Forall_app. split; [done|]. by apply Forall_singleton.
Qed.

End Frames.

(** ** The window, whatever happened to it *)

Section Invariant.
Context `{DownloadThreadStatics, YTChannel, PyBuiltins}.

Lemma delivers_started channel_id channel_url handler :
  handler = slot_handle_video_list ∨ handler = slot_handle_single_video →
  delivers (started_fetch channel_id channel_url handler).
Proof. intros [-> | ->] _; [by left|by right]. Qed.

Lemma invariant_init settings : window_invariant (MainWindow_init settings).
Proof. split; simpl; try done; by constructor. Qed.

Lemma invariant_show_vid_list w :
  window_invariant w → window_invariant (show_vid_list w).
Proof.
  intros [Hd Hg Hf Hb].
  rewrite show_vid_list_cases. simpl.
  assert (∀ t, delivers t → gl_running t = true →
    window_invariant
      (set_get_list_thread (Some t)
         (set_getVidListButton_enabled false
            (set_window_resize_needed true w)))) as Hstart.
  { intros t Hdel Hrun. split; simpl; try done.
    - by intros ? [= <-].
    - intros _. by exists t. }
  assert (∀ message, window_invariant
            (display_error_dialog message
               (set_getVidListButton_enabled false
                  (set_window_resize_needed true w)))) as Herr.
  { intros message. split; simpl; try done.
    apply Forall_app. split; [done|]. apply Forall_singleton. by eexists. }
  destruct (_ || _).
  { apply Hstart; [|done]. apply delivers_started. by left. }
  destruct (_ || _).
  { apply Hstart; [|done]. apply delivers_started. by right. }
  destruct (get_channel_id _); [|apply Herr..].
  apply Hstart; [|done]. apply delivers_started. by left.
Qed.

(** What the [finished] signal of a running fetch thread does: the
    thread's list becomes the stored list, the model is rebuilt from it
    and the button is enabled again. *)
Lemma emit_finished_delivers fs t video_list w :
  gl_running t = true → delivers t →
  emit_finished fs t video_list w =
  (Ok tt,
   enable_get_vid_list_button
     (populate_window_list fs
        (set_yt_chan_vids_titles_links video_list w))).
Proof.
  intros Hr Hd. unfold emit_finished. by destruct (Hd Hr) as [-> | ->].
Qed.

Lemma invariant_step w fs ev :
  window_invariant w → enabled ev w → window_invariant (step fs ev w).
Proof.
  intros Hinv Hen.
  destruct ev as [s|st| |message|l|row c|state| |k data|k index];
    simpl in *.
  - by destruct Hinv.
  - by destruct Hinv.
  - by apply invariant_show_vid_list.
  - destruct Hinv as [Hd Hg Hf Hb]. split; simpl; try done.
    apply Forall_app. split; [done|]. apply Forall_singleton. by eexists.
  - destruct Hen as (t & Ht & Hr). rewrite Ht.
    destruct Hinv as [Hd Hg Hf Hb].
    unfold exec. rewrite emit_finished_delivers; [|done|by apply Hf].
    simpl.
    destruct (populate_frame fs (set_yt_chan_vids_titles_links l
      (set_get_list_thread (Some (stop_fetch t)) w)))
      as (m & d & v & r & ->).
    split; simpl; try done. by intros ? [= <-].
  - unfold exec, model_setData, modify. simpl.
    destruct (with_model_button
                (model_update_item row DOWNLOAD (setCheckState c) (model w))
                w) as [b ->].
    by destruct Hinv.
  - destruct (select_all_frame fs state w) as (m & b & ->). by destruct Hinv.
  - destruct (dl_vids_frame w) as (m & idx & ts & b & -> & Hts).
    destruct Hinv. split; simpl; try done. apply Forall_app. by split.
  - destruct Hen as (t & Ht & _). rewrite Ht.
    destruct Hinv as [Hd Hg Hf Hb].
    assert (dispatched t) as (_ & Hp & _).
    { rewrite Forall_forall in Hd. apply Hd. by eapply list_elem_of_lookup_2. }
    unfold exec, emit_downloadProgressSignal. rewrite Hp. simpl.
    unfold bind.
    destruct (update_progress_frame data w) as (m & b & Hm).
    unfold exec in Hm.
    destruct (update_progress data w) as [[[]|e] w1]; simpl in *; subst;
      by split.
  - destruct Hen as (t & Ht & _). rewrite Ht.
    destruct Hinv as [Hd Hg Hf Hb].
    assert (dispatched t) as (Hc & _ & _).
    { rewrite Forall_forall in Hd. apply Hd. by eapply list_elem_of_lookup_2. }
    unfold exec, emit_downloadCompleteSignal. rewrite Hc. simpl.
    destruct (populate_frame fs w) as (m & d & v & r & ->). by split.
Qed.

Lemma reachable_invariant settings w :
  reachable settings w → window_invariant w.
Proof.
  induction 1 as [|w fs ev _ IH Hen]; [apply invariant_init|].
  by eapply invariant_step.
Qed.

(** No slot of the window, whatever it is connected to, changes the free
    count of the semaphore. *)
Lemma step_semaphore fs ev w :
  download_semaphore (step fs ev w) = download_semaphore w.
Proof.
  set (P := λ w1 : MainWindow, download_semaphore w1 = download_semaphore w).
  destruct ev as [s|st| |message|l|row c|state| |k data|k index]; cbn [step].
  - done.
  - done.
  - by destruct (show_vid_list_frame w) as (t & d & b & ->).
  - done.
  - destruct (get_list_thread w) as [t|]; [|done].
    unfold exec, emit_finished. apply (for_each_invariant P); [|done].
    intros s w1 Hw1. unfold P in *.
    destruct s; cbn [run_finished_slot]; unfold modify; cbn [snd].
    + unfold handle_video_list.
      by destruct (populate_frame fs
                     (set_yt_chan_vids_titles_links l w1))
        as (m & d & v & r & ->).
    + unfold handle_single_video.
      by destruct (populate_frame fs
                     (set_yt_chan_vids_titles_links l w1))
        as (m & d & v & r & ->).
    + done.
  - unfold exec, model_setData, modify. simpl.
    by destruct (with_model_button
                   (model_update_item row DOWNLOAD (setCheckState c)
                      (model w)) w) as [b ->].
  - by destruct (select_all_frame fs state w) as (m & b & ->).
  - by destruct (dl_vids_frame w) as (m & idx & ts & b & -> & _).
  - destruct (dl_threads w !! k) as [t|]; [|done].
    unfold exec, emit_downloadProgressSignal.
    apply (for_each_invariant P); [|done].
    intros s w1 Hw1. unfold P in *. destruct s; cbn [run_progress_slot].
    + destruct (handle_download_error_frame data w1) as [ds Hds].
      unfold exec in Hds. by rewrite Hds.
    + destruct (update_progress_frame data w1) as (m & b & Hm).
      unfold exec in Hm. by rewrite Hm.
  - destruct (dl_threads w !! k) as [t|]; [|done].
    unfold exec, emit_downloadCompleteSignal.
    apply (for_each_invariant P); [|done].
    intros s w1 Hw1. unfold P in *.
    destruct s; cbn [run_complete_slot]; [done|].
    unfold modify; cbn [snd].
    by destruct (populate_frame fs w1) as (m & d & v & r & ->).
Qed.

Lemma reachable_semaphore settings w :
  reachable settings w → download_semaphore w = 4.
Proof.
  induction 1 as [|w fs ev _ IH Hen]; [done|]. by rewrite step_semaphore.
Qed.

End Invariant.

(** ** Dispatching the downloads *)

Section Dispatch.
Context `{DownloadThreadStatics, YTChannel, PyBuiltins}.

Lemma set_vid_dl_indexes_id w : set_vid_dl_indexes (vid_dl_indexes w) w = w.
Proof. by destruct w. Qed.

Lemma collect_loop n : ∀ k w,
  k + n ≤ length (model w) →
  Forall full_row (model w) →
  for_each (seq k n) collect_body w =
  (Ok tt, set_vid_dl_indexes
            (vid_dl_indexes w ++ filter (is_checked (model w)) (seq k n)) w).
Proof.
  induction n as [|n IH]; intros k w Hlen Hfull.
  - simpl. unfold ret. by rewrite app_nil_r, set_vid_dl_indexes_id.
  - destruct (lookup_lt_is_Some_2 (model w) k) as [r Hr]; [lia|].
    assert (full_row r) as ([it Hit] & _).
    { rewrite Forall_forall in Hfull. apply Hfull.
      by eapply list_elem_of_lookup_2. }
    simpl. unfold bind at 1. unfold collect_body at 1. run_monad.
    unfold model_item at 1. rewrite Hr. simpl. rewrite Hit. simpl.
    rewrite filter_cons.
    assert (is_checked (model w) k ↔ it_check it = Checked) as Hiff.
    { unfold is_checked, model_item. rewrite Hr. simpl. rewrite Hit. simpl.
      split; [by intros [= ?]|by intros ->]. }
    destruct (decide (it_check it = Checked)) as [Hc|Hc];
      destruct (decide (is_checked (model w) k)) as [Hc'|Hc']; try tauto.
    + rewrite IH by (simpl; first [lia|done]). simpl.
      by rewrite <- app_assoc.
    + by rewrite IH by (simpl; first [lia|done]).
Qed.

(** Resetting a progress cell in range touches no other cell. *)
Lemma setItem_progress_item m index it row c :
  index < length m → c ≠ PROGRESS →
  model_item (model_setItem index PROGRESS it m) row c = model_item m row c.
Proof.
  intros Hlt Hc. unfold model_setItem, model_item.
  rewrite decide_True by done.
  destruct (decide (index = row)) as [<-|Hne].
  - rewrite list_lookup_alter_eq. destruct (m !! index); [|done].
    simpl. by destruct c.
  - by rewrite list_lookup_alter_ne.
Qed.

Lemma setItem_progress_length m index it :
  index < length m → length (model_setItem index PROGRESS it m) = length m.
Proof.
  intros Hlt. unfold model_setItem. rewrite decide_True by done.
  apply length_alter.
Qed.

Lemma dispatch_loop idxs : ∀ w,
  Forall (λ i, i < length (model w)) idxs →
  Forall full_row (model w) →
  ∃ m' b, for_each idxs dispatch_body w =
        (Ok tt, set_downloadSelectedVidsButton_enabled b
                  (set_dl_threads
                     (dl_threads w ++ (thread_of (model w) <$> idxs))
                     (set_model m' w))) ∧
        length m' = length (model w) ∧
        ∀ row c, c ≠ PROGRESS → model_item m' row c = model_item (model w) row c.
Proof.
  induction idxs as [|index idxs IH]; intros w Hin Hfull.
  - exists (model w), (downloadSelectedVidsButton_enabled w).
    simpl. unfold ret. rewrite app_nil_r.
    split; [by destruct w|done].
  - apply Forall_cons in Hin as [Hlt Hin].
    destruct (lookup_lt_is_Some_2 (model w) index) as [r Hr]; [lia|].
    assert (full_row r) as (_ & [ti Hti] & [li Hli]).
    { rewrite Forall_forall in Hfull. apply Hfull.
      by eapply list_elem_of_lookup_2. }
    assert (model_item (model w) index LINK = Some li) as Hlink
      by (unfold model_item; by rewrite Hr).
    assert (model_item (model w) index TITLE = Some ti) as Htitle
      by (unfold model_item; by rewrite Hr).
    simpl. unfold bind at 1. unfold dispatch_body at 1.
    unfold setItem. run_monad.
    rewrite setItem_progress_item by done. rewrite Hlink. simpl.
    rewrite setItem_progress_item by done. rewrite Htitle. simpl.
    set (w1 := set_dl_threads _ _).
    destruct (IH w1) as (m' & b & Hrun & Hlen' & Hcells).
    + simpl. rewrite setItem_progress_length by done. done.
    + simpl. apply Forall_forall. intros r' [j Hj]%list_elem_of_lookup.
      pose proof (setItem_progress_item (model w) index new_item j) as Hsame.
      unfold model_item in Hsame. rewrite Hj in Hsame. simpl in Hsame.
      assert (j < length (model w)) as Hjlt.
      { apply lookup_lt_Some in Hj.
        by rewrite setItem_progress_length in Hj. }
      destruct (lookup_lt_is_Some_2 (model w) j Hjlt) as [r0 Hr0].
      rewrite Hr0 in Hsame. simpl in Hsame.
      assert (full_row r0) as (Hd0 & Ht0 & Hl0).
      { rewrite Forall_forall in Hfull. apply Hfull.
        by eapply list_elem_of_lookup_2. }
      unfold full_row.
      assert (c_download r' = c_download r0) as -> by by apply (Hsame DOWNLOAD).
      assert (c_title r' = c_title r0) as -> by by apply (Hsame TITLE).
      assert (c_link r' = c_link r0) as -> by by apply (Hsame LINK).
      done.
    + exists m', b. rewrite Hrun. split; [|split].
      * assert (dl_threads w1 ++ (thread_of (model w1) <$> idxs) =
                dl_threads w ++ (thread_of (model w) <$> index :: idxs))
          as ->; [|done].
        unfold w1. simpl. rewrite <- app_assoc. simpl. f_equal. f_equal.
        -- unfold thread_of. by rewrite Hlink, Htitle.
        -- apply list_fmap_ext. intros _ i _. unfold thread_of.
           by rewrite !setItem_progress_item by done.
      * rewrite Hlen'. simpl. by apply setItem_progress_length.
      * intros row c Hc. rewrite Hcells by done. simpl.
        by apply setItem_progress_item.
Qed.

Lemma checked_rows_in_range m : Forall (λ i, i < length m) (checked_rows m).
Proof.
  apply Forall_forall. intros i [_ Hi]%list_elem_of_filter.
  apply elem_of_seq in Hi. lia.
Qed.

(** With full rows, [dl_vids] returns, having started one connected
    thread per checked row, in row order. *)
Lemma dl_vids_spec w :
  Forall full_row (model w) →
  ∃ m' b, dl_vids w =
        (Ok tt, set_downloadSelectedVidsButton_enabled b
                  (set_dl_threads
                     (dl_threads w ++
                      (thread_of (model w) <$> checked_rows (model w)))
                     (set_model m'
                        (set_vid_dl_indexes (checked_rows (model w)) w)))) ∧
        length m' = length (model w) ∧
        ∀ row c, c ≠ PROGRESS → model_item m' row c = model_item (model w) row c.
Proof.
  intros Hfull. unfold dl_vids. run_monad.
  rewrite (collect_loop _ 0 (set_vid_dl_indexes [] w)) by (simpl; first [lia|done]).
  simpl.
  destruct (dispatch_loop (checked_rows (model w))
              (set_vid_dl_indexes (checked_rows (model w)) w))
    as (m' & b & Hrun & Hlen & Hcells);
    [apply checked_rows_in_range|done|].
  exists m', b. split; [|done]. exact Hrun.
Qed.

End Dispatch.

(** ** The download semaphore *)

Section Semaphore.
Context `{DownloadThreadStatics, YTChannel, PyBuiltins}.

(** C6, as the code has it: the download semaphore is made with four
    slots whatever the settings say, and no slot of the window changes its
    free count. *)
Theorem semaphore_capacity_is_four :
  (∀ settings, download_semaphore (MainWindow_init settings) = 4) ∧
  (∀ settings w, reachable settings w → download_semaphore w = 4).
Proof.
  split; [done|]. intros settings w Hr.
  by apply (reachable_semaphore settings).
Qed.

End Semaphore.

(** ** What the signals of a thread reach *)

Section Signals.
Context `{DownloadThreadStatics, YTChannel, PyBuiltins}.

Lemma populated_row_progress fs settings tl :
  ∃ it, c_progress (populated_row fs settings tl) = Some it ∧
        (text it = "" ∨ text it = "Complete").
Proof.
  unfold populated_row. destruct (is_download_complete _ _); eexists; split;
    try done; [by right|by left].
Qed.

Lemma connect_signals_nothing w : dl_threads w = [] → connect_signals w = w.
Proof.
  intros Hd. unfold connect_signals. rewrite Hd. simpl.
  destruct w; simpl in *; by subst.
Qed.

(** C10: when the window is built [dl_threads] is empty, so the loop of
    [connect_signals] connects nothing; every download thread the window
    ever holds was made by [dl_vids] and has its progress signal connected
    to [update_progress] only and its completion signal to
    [populate_window_list] only; so neither signal ever runs the error
    handler or the completion dialog, and the window never shows one of
    their message boxes. *)
Theorem error_handler_never_connected settings :
  (∀ w0, dl_threads (init_download_structs w0) = [] ∧
         connect_signals (init_download_structs w0) =
         init_download_structs w0)
  ∧ ∀ w, reachable settings w →
      (∀ t, t ∈ dl_threads w →
         downloadProgressSignal t = [slot_update_progress] ∧
         downloadCompleteSignal t = [slot_populate_window_list] ∧
         (∀ data w1, emit_downloadProgressSignal t data w1 =
                     (update_progress data ;ₘ ret tt) w1) ∧
         (∀ fs index w1, emit_downloadCompleteSignal fs t index w1 =
                         (Ok tt, populate_window_list fs w1))) ∧
      (∀ d, d ∈ dialogs w → url_error d).
Proof.
  split; [intros w0; split; [done|by apply connect_signals_nothing]|].
  intros w Hr. destruct (reachable_invariant settings w Hr) as [Hd Hg _ _].
  rewrite Forall_forall in Hd. rewrite Forall_forall in Hg.
  split; [|done]. intros t Ht. destruct (Hd t Ht) as (Hc & Hp & _).
  split; [done|]. split; [done|]. split.
  - intros data w1. unfold emit_downloadProgressSignal. by rewrite Hp.
  - intros fs index w1. unfold emit_downloadCompleteSignal. by rewrite Hc.
Qed.

(** C8: the completion signal of any download thread the window holds
    runs [populate_window_list], which clears the model and makes every
    row anew from the stored (title, link) list: afterwards every row is
    unchecked and shows an empty progress or "Complete", whatever it
    showed before. *)
Theorem completion_rebuilds_every_row settings w fs k t index :
  reachable settings w → dl_threads w !! k = Some t →
  let w' := step fs (EvComplete k index) w in
  downloadCompleteSignal t = [slot_populate_window_list] ∧
  w' = populate_window_list fs w ∧
  model w' =
    populated_row fs (user_settings w) <$> yt_chan_vids_titles_links w ∧
  ∀ r, r ∈ model w' →
    row_check r = Some Unchecked ∧
    ∃ it, c_progress r = Some it ∧ (text it = "" ∨ text it = "Complete").
Proof.
  intros Hr Ht w'.
  destruct (reachable_invariant settings w Hr) as [Hd _ _ _].
  rewrite Forall_forall in Hd.
  destruct (Hd t) as (Hc & _ & _); [by eapply list_elem_of_lookup_2|].
  assert (w' = populate_window_list fs w) as ->.
  { unfold w'. simpl. rewrite Ht.
    unfold exec, emit_downloadCompleteSignal. by rewrite Hc. }
  split; [done|]. split; [done|]. split; [apply populate_model|].
  intros r. rewrite populate_model.
  intros (tl & -> & _)%list_elem_of_fmap.
  split; [apply populated_row_check|apply populated_row_progress].
Qed.

(** C2, as the code has it: there is no generation counter, and the
    list handlers check nothing.  When the [finished] signal of a fetch
    thread made by [show_vid_list] is emitted, in whatever window and
    whatever has been requested since, its list becomes the stored list,
    the model is rebuilt from it and the fetch button is enabled.
    [show_vid_list] itself counts nothing: it writes the resize flag, the
    button, [self.get_list_thread] and, when it refuses the URL, a
    dialog, so that a request made right after another leaves the window
    the second alone would have left (the dialogs apart).  In a window
    driven through its events the thread that [self.get_list_thread]
    names delivers in that way, and a further request is kept back only
    while the button is disabled, which it is only while that thread
    runs. *)
Theorem fetch_result_always_delivered :
  (∀ fs t video_list w, gl_running t = true → delivers t →
     let w' := exec (emit_finished fs t video_list) w in
     yt_chan_vids_titles_links w' = video_list ∧
     model w' = populated_row fs (user_settings w) <$> video_list ∧
     getVidListButton_enabled w' = true) ∧
  (∀ w,
     (∃ t d b, show_vid_list w =
        set_dialogs d
          (set_get_list_thread t
             (set_getVidListButton_enabled b
                (set_window_resize_needed true w)))) ∧
     show_vid_list (show_vid_list w) =
       set_dialogs (dialogs (show_vid_list (show_vid_list w)))
         (show_vid_list w)) ∧
  (∀ settings w, reachable settings w →
     (∀ t, get_list_thread w = Some t → delivers t) ∧
     (getVidListButton_enabled w = false →
      ∃ t, get_list_thread w = Some t ∧ gl_running t = true)).
Proof.
  split; [|split].
  - intros fs t video_list w Hr Hd w'. unfold w', exec.
    rewrite emit_finished_delivers by done. simpl.
    set (w0 := set_yt_chan_vids_titles_links video_list w).
    pose proof (populate_model fs w0) as Hm.
    destruct (populate_frame fs w0) as (m & d & v & r & Hf).
    rewrite Hf in Hm |- *. simpl in *. done.
  - intros w. split; [apply show_vid_list_frame|apply show_vid_list_twice].
  - intros settings w Hr.
    by destruct (reachable_invariant settings w Hr).
Qed.

End Signals.

(** ** The session of the example *)

Lemma asked_reachable : reachable no_settings asked.
Proof.
  unfold asked. apply reachable_step; [|reflexivity].
  apply reachable_step; [apply reachable_init|exact I].
Defined.

Lemma arrived_reachable : reachable no_settings arrived.
Proof.
  unfold arrived. apply reachable_step; [apply asked_reachable|].
  eexists. split; reflexivity.
Defined.

Lemma downloading_reachable : reachable no_settings downloading.
Proof.
  unfold downloading. apply reachable_step; [|reflexivity].
  apply reachable_step; [apply arrived_reachable|exact I].
Defined.

Lemma two_requests_reachable : reachable no_settings two_requests.
Proof.
  unfold two_requests. apply reachable_step; [|reflexivity].
  apply reachable_step; [|exact I].
  apply reachable_step; [apply asked_reachable|exact I].
Defined.

Lemma refused_second_reachable : reachable no_settings refused_second.
Proof.
  unfold refused_second. apply reachable_step; [|reflexivity].
  apply reachable_step; [|exact I].
  apply reachable_step; [apply asked_reachable|exact I].
Defined.

Lemma five_checked_full : Forall full_row (model five_checked).
Proof.
  vm_compute.
  repeat (apply Forall_cons; split; [repeat split; eexists; reflexivity|]).
  constructor.
Defined.

(** ** The properties at the example *)

(** C2 fails as stated: the user asks for a playlist, the channel
    reports an error, which enables the button while the fetch thread
    runs, and the user makes a second request.  When that request is for
    a URL the channel lookup refuses, the window still names the first
    thread, and when it finishes, the first request's list is delivered:
    it is stored and shown.  When the second request is for another
    playlist, the window names a second running thread; nothing was
    counted and nothing was disconnected, so the first request's list is
    delivered when the [finished] signal of the first thread is emitted,
    and it is what the window shows also when the second request's list
    had arrived before. *)
Lemma superseded_fetch_is_delivered :
  reachable no_settings refused_second ∧
  reachable no_settings two_requests ∧
  ∃ t1 t2,
    get_list_thread asked = Some t1 ∧ gl_running t1 = true ∧
    get_list_thread refused_second = Some t1 ∧
    dialogs refused_second =
      [CustomDialog "URL error" "Could not read the playlist";
       CustomDialog "URL error" "Please check your URL"] ∧
    enabled (EvFetchFinished first_list) refused_second ∧
    (let w' := step nothing_there (EvFetchFinished first_list)
                 refused_second in
     yt_chan_vids_titles_links w' = first_list ∧
     row_title <$> model w' = [Some "old"]) ∧
    get_list_thread two_requests = Some t2 ∧ gl_running t2 = true ∧
    t1 ≠ t2 ∧
    yt_chan_vids_titles_links
      (exec (emit_finished nothing_there t1 first_list) two_requests)
    = first_list ∧
    row_title <$>
      model (exec (emit_finished nothing_there t1 first_list)
               (step nothing_there (EvFetchFinished second_list)
                  two_requests))
    = [Some "old"].
Proof.
  split; [exact refused_second_reachable|].
  split; [exact two_requests_reachable|].
  eexists _, _. split; [reflexivity|]. split; [reflexivity|].
  split; [reflexivity|]. split; [by vm_compute|].
  split; [eexists; split; reflexivity|].
  split; [by vm_compute|].
  split; [reflexivity|]. split; [reflexivity|].
  split; [discriminate|]. by vm_compute.
Qed.

Lemma fetch_result_always_delivered_witness :
  let t := started_fetch (Some "playlist")
             (Some "https://www.youtube.com/playlist?list=PL1")
             slot_handle_video_list in
  gl_running t = true ∧ delivers t ∧ reachable no_settings asked ∧
  (let w' := exec (emit_finished intro_there t three_videos) two_requests in
   yt_chan_vids_titles_links w' = three_videos ∧
   model w' =
     populated_row intro_there (user_settings two_requests) <$>
       three_videos ∧
   getVidListButton_enabled w' = true) ∧
  (∀ t, get_list_thread asked = Some t → delivers t) ∧
  (getVidListButton_enabled asked = false →
   ∃ t, get_list_thread asked = Some t ∧ gl_running t = true).
Proof.
  intros t.
  assert (gl_running t = true) as Hr by reflexivity.
  assert (delivers t) as Hd by (intros _; by left).
  split; [exact Hr|]. split; [exact Hd|]. split; [exact asked_reachable|].
  destruct fetch_result_always_delivered as (Hdeliver & _ & Hreach).
  split; [exact (Hdeliver intro_there t three_videos two_requests Hr Hd)|].
  exact (Hreach no_settings asked asked_reachable).
Defined.

Lemma short_url_fetched_without_short_strategy_witness :
  let w := set_chanUrlEdit "https://www.youtube.com/shorts/abc"
             (MainWindow_init no_settings) in
  is_video_with_playlist_url (chanUrlEdit w) = false ∧
  is_playlist_url (chanUrlEdit w) = false ∧
  is_short_video_url (chanUrlEdit w) = true ∧
  let url := chanUrlEdit w in
  let w1 := set_getVidListButton_enabled false
              (set_window_resize_needed true w) in
  let finish w2 :=
    on_get_list_thread start_fetch
      (on_get_list_thread
         (connect_finished slot_enable_get_vid_list_button)
         (on_get_list_thread (connect_finished slot_handle_single_video)
            w2)) in
  show_vid_list w =
    finish
      (assign_get_list_thread (new_GetListThread None (Some url))
         (assign_get_list_thread
            (new_GetListThread (Some "short") (Some url)) w1)) ∧
  show_vid_list w =
    set_get_list_thread
      (Some (started_fetch None (Some url) slot_handle_single_video)) w1 ∧
  get_list_thread (show_vid_list w) =
    Some (started_fetch None (Some url) slot_handle_single_video).
Proof.
  intros w.
  assert (is_video_with_playlist_url (chanUrlEdit w) = false) as H1
    by reflexivity.
  assert (is_playlist_url (chanUrlEdit w) = false) as H2 by reflexivity.
  assert (is_short_video_url (chanUrlEdit w) = true) as H3 by reflexivity.
  split; [exact H1|]. split; [exact H2|]. split; [exact H3|].
  exact (short_url_fetched_without_short_strategy w H1 H2 H3).
Defined.

(** The thread that fetches a short-form URL carries no strategy word. *)
Example short_url_strategy :
  gl_channel_id <$>
    get_list_thread
      (show_vid_list
         (set_chanUrlEdit "https://www.youtube.com/shorts/abc"
            (MainWindow_init no_settings)))
  = Some None.
Proof. by vm_compute. Qed.

(** C6 fails as stated: no setting changes the capacity. *)
Lemma semaphore_capacity_ignores_settings :
  download_semaphore
    (MainWindow_init {[ "max_simultaneous_downloads" := "8" ]}) = 4 ∧
  ¬ ∃ settings, download_semaphore (MainWindow_init settings) ≠ 4.
Proof. split; [done|]. by intros [settings Hs]. Qed.

Lemma semaphore_capacity_is_four_witness :
  reachable no_settings downloading ∧
  download_semaphore (MainWindow_init no_settings) = 4 ∧
  download_semaphore downloading = 4.
Proof.
  split; [exact downloading_reachable|].
  destruct semaphore_capacity_is_four as [Hinit Hreach].
  split; [exact (Hinit no_settings)|].
  exact (Hreach no_settings downloading downloading_reachable).
Defined.

Lemma completion_rebuilds_every_row_witness :
  let t := mkDownloadThread "https://youtu.be/b1" 2 "Talk" self
             [slot_populate_window_list] [slot_update_progress] true in
  reachable no_settings downloading ∧
  dl_threads downloading !! 0 = Some t ∧
  let w' := step intro_there (EvComplete 0 (PyInt 2)) downloading in
  downloadCompleteSignal t = [slot_populate_window_list] ∧
  w' = populate_window_list intro_there downloading ∧
  model w' =
    populated_row intro_there (user_settings downloading) <$>
      yt_chan_vids_titles_links downloading ∧
  ∀ r, r ∈ model w' →
    row_check r = Some Unchecked ∧
    ∃ it, c_progress r = Some it ∧ (text it = "" ∨ text it = "Complete").
Proof.
  intros t.
  assert (dl_threads downloading !! 0 = Some t) as Ht by (by vm_compute).
  split; [exact downloading_reachable|]. split; [exact Ht|].
  exact (completion_rebuilds_every_row no_settings downloading intro_there
           0 t (PyInt 2) downloading_reachable Ht).
Defined.

(** The "Talk" row is ticked and at 50 percent when some thread reports
    completion; afterwards it is unticked and its progress is blank. *)
Example completion_resets_a_row_in_flight :
  let before :=
    step intro_there
      (EvProgress 0 {[ "index" := PyStr "2"; "progress" := PyStr "50" ]})
      downloading in
  (λ r, (row_check r, text <$> c_progress r)) <$> model before !! 2 =
    Some (Some Checked, Some "50") ∧
  (λ r, (row_check r, text <$> c_progress r)) <$>
    model (step intro_there (EvComplete 0 (PyInt 2)) before) !! 2 =
    Some (Some Unchecked, Some "").
Proof. by vm_compute. Qed.

Lemma error_handler_never_connected_witness :
  reachable no_settings downloading ∧
  dl_threads (MainWindow_init no_settings) = []
  ∧ (∀ t, t ∈ dl_threads downloading →
       downloadProgressSignal t = [slot_update_progress] ∧
       downloadCompleteSignal t = [slot_populate_window_list] ∧
       (∀ data w1, emit_downloadProgressSignal t data w1 =
                   (update_progress data ;ₘ ret tt) w1) ∧
       (∀ fs index w1, emit_downloadCompleteSignal fs t index w1 =
                       (Ok tt, populate_window_list fs w1)))
  ∧ (∀ d, d ∈ dialogs downloading → url_error d).
Proof.
  split; [exact downloading_reachable|].
  destruct (error_handler_never_connected no_settings) as (_ & Hreach).
  split; [reflexivity|].
  exact (Hreach downloading downloading_reachable).
Defined.

(** A notification of failure from a running download reaches the
    progress updater alone: no dialog opens. *)
Example error_notification_opens_no_dialog :
  dialogs
    (step intro_there
       (EvProgress 0 {[ "index" := PyStr "2"; "error" := PyStr "Network error" ]})
       downloading) = [].
Proof. by vm_compute. Qed.

(** A progress report for a row past the end of a list that was replaced
    by a shorter one grows the model by rows without a title; select-all
    then raises at the first of them, having treated the rows above. *)
Example select_all_raises_on_a_grown_row :
  let w :=
    step intro_there
      (EvProgress 0 {[ "index" := PyStr "2"; "progress" := PyStr "50" ]})
      (step intro_there (EvFetchFinished second_list)
         (step intro_there EvGetVidListClicked downloading)) in
  row_title <$> model w = [Some "new"; None; None] ∧
  (onSelectAllStateChanged intro_there 2 w).1 = Raise KeyError ∧
  row_check <$> model (exec (onSelectAllStateChanged intro_there 2) w) =
    [Some Checked; None; None].
Proof. by vm_compute. Qed.

(** * Further properties *)

(** ** Progress reports *)

Section Progress.
Context `{DownloadThreadStatics, YTChannel, PyBuiltins}.

(** Writing a progress cell, wherever, touches no cell of another
    column: past the end the new rows have nothing there, as before. *)
Lemma setItem_progress_other_columns m index it row c :
  c ≠ PROGRESS →
  model_item (model_setItem index PROGRESS it m) row c = model_item m row c.
Proof.
  intros Hc. destruct (decide (index < length m)) as [Hlt|Hge].
  { by apply setItem_progress_item. }
  unfold model_setItem, model_item. rewrite decide_False by done.
  destruct (decide (row < length m)) as [Hrow|Hrow].
  - by rewrite lookup_app_l.
  - rewrite (lookup_ge_None_2 m row) by lia. simpl.
    rewrite lookup_app_r by lia.
    destruct (decide (row - length m < index - length m)) as [Hin|Hout].
    + rewrite lookup_app_l by (by rewrite length_replicate).
      rewrite lookup_replicate_2 by done. by destruct c.
    + rewrite lookup_app_r by (rewrite length_replicate; lia).
      rewrite length_replicate.
      destruct (row - length m - (index - length m)) as [|n]; simpl;
        [by destruct c|done].
Qed.

Lemma setItem_progress_cell m index it :
  model_item (model_setItem index PROGRESS it m) index PROGRESS = Some it.
Proof.
  unfold model_setItem, model_item.
  destruct (decide (index < length m)) as [Hlt|Hge].
  - rewrite list_lookup_alter_eq.
    destruct (lookup_lt_is_Some_2 m index Hlt) as [r ->]. done.
  - rewrite lookup_app_r by lia.
    rewrite lookup_app_r by (rewrite length_replicate; lia).
    rewrite length_replicate, Nat.sub_diag. done.
Qed.

Lemma setItem_progress_other_rows m index it row c :
  row ≠ index → row < length m →
  model_item (model_setItem index PROGRESS it m) row c = model_item m row c.
Proof.
  intros Hne Hrow. unfold model_setItem, model_item.
  destruct (decide (index < length m)).
  - by rewrite list_lookup_alter_ne.
  - by rewrite lookup_app_l.
Qed.

Lemma setItem_length m index c it :
  length (model_setItem index c it m) = Nat.max (length m) (S index).
Proof.
  unfold model_setItem. destruct (decide (index < length m)).
  - rewrite length_alter. lia.
  - rewrite !length_app, length_replicate. simpl. lia.
Qed.

(** A progress report whose index converts to a row number that fits a
    C int and that has a progress value is written into the progress
    cell of that row and nowhere else in the table.  The table has as
    many rows as before, or just enough to hold the row when that lies
    past its end; the rows put in between are blank.  The table emits
    [itemChanged], so the download button is left as
    [update_download_button_state] leaves it on the new table; nothing
    else in the window changes.  When the row is in the table and every
    row has its check box, that slot returns and the button is enabled
    exactly when a row is checked, the same rows as before.  When the
    row lies past the end, the new rows have no check box and that slot
    ends in [AttributeError], raised inside the call Qt makes. *)
Theorem update_progress_writes_one_cell data v file_index progress w :
  data !! "index" = Some v →
  py_int v w = (Ok file_index, w) →
  data !! "progress" = Some progress →
  (0 ≤ file_index < 2 ^ 31)%Z →
  ∃ w', update_progress data w = (Ok tt, w') ∧
    w' = set_downloadSelectedVidsButton_enabled
           (update_download_button_state w').2 (set_model (model w') w) ∧
    length (model w') = Nat.max (length (model w)) (S (Z.to_nat file_index)) ∧
    model_item (model w') (Z.to_nat file_index) PROGRESS =
      Some (new_text_item (py_str progress)) ∧
    (∀ row c, c ≠ PROGRESS →
       model_item (model w') row c = model_item (model w) row c) ∧
    (∀ row, row ≠ Z.to_nat file_index → row < length (model w) →
       model w' !! row = model w !! row) ∧
    (∀ row, length (model w) ≤ row < Z.to_nat file_index →
       model w' !! row = Some empty_row) ∧
    (Z.to_nat file_index < length (model w) →
     Forall (λ r, is_Some (c_download r)) (model w) →
     checked_rows (model w') = checked_rows (model w) ∧
     update_download_button_state w' =
       (Ok tt, bool_decide (checked_rows (model w) ≠ []))) ∧
    (length (model w) ≤ Z.to_nat file_index →
     (update_download_button_state w').1 = Raise AttributeError).
Proof.
  intros Hv Hint Hp Hnn. unfold update_progress, c_int, setItem. run_monad.
  rewrite Hv. simpl. rewrite Hint, Hp. simpl.
  rewrite decide_True by lia. simpl. rewrite decide_True by lia.
  eexists. split; [done|]. simpl. split; [done|].
  split; [apply setItem_length|]. split; [apply setItem_progress_cell|].
  split; [intros row c Hc; by apply setItem_progress_other_columns|].
  split; [|split; [|split]].
  - intros row Hne Hrow. unfold model_setItem.
    destruct (decide _); [by rewrite list_lookup_alter_ne|].
    by rewrite lookup_app_l.
  - intros row [Hlo Hhi]. unfold model_setItem.
    rewrite decide_False by lia. rewrite lookup_app_r by lia.
    rewrite lookup_app_l by (rewrite length_replicate; lia).
    apply lookup_replicate_2. lia.
  - intros Hin Hboxes.
    set (m' := model_setItem _ _ _ _).
    assert (length m' = length (model w)) as Hlen
      by (unfold m'; rewrite setItem_length; lia).
    assert (checked_rows m' = checked_rows (model w)) as Hchecked.
    { unfold checked_rows. rewrite Hlen. apply list_filter_iff.
      intros row. unfold is_checked, m'.
      by rewrite setItem_progress_other_columns. }
    split; [done|]. unfold update_download_button_state. simpl. fold m'.
    rewrite button_loop_spec.
    + fold (checked_rows m'). by rewrite Hchecked.
    + apply Forall_forall. intros row Hrow%elem_of_seq. unfold m'.
      rewrite setItem_progress_other_columns by done.
      destruct (lookup_lt_is_Some_2 (model w) row) as [r Hr]; [lia|].
      unfold model_item. rewrite Hr. simpl.
      rewrite Forall_forall in Hboxes. apply Hboxes.
      by eapply list_elem_of_lookup_2.
  - intros Hpast. unfold update_download_button_state. simpl.
    apply (button_loop_raises _ _ _ (Z.to_nat file_index)).
    + apply elem_of_seq. rewrite setItem_length. lia.
    + rewrite setItem_progress_other_columns by done.
      unfold model_item. by rewrite lookup_ge_None_2.
Qed.

(** A progress report that cannot be used changes nothing.  One that
    lacks the index or the progress value, or whose index does not
    convert to an integer, raises; so does one whose index does not fit
    a C int, with [OverflowError]; a negative index that fits is
    silently ignored. *)
Theorem update_progress_rejects data w :
  (data !! "index" = None → update_progress data w = (Raise KeyError, w)) ∧
  (∀ v e, data !! "index" = Some v → py_int v w = (Raise e, w) →
     update_progress data w = (Raise e, w)) ∧
  (∀ v z, data !! "index" = Some v → py_int v w = (Ok z, w) →
     data !! "progress" = None →
     update_progress data w = (Raise KeyError, w)) ∧
  (∀ v z progress, data !! "index" = Some v → py_int v w = (Ok z, w) →
     data !! "progress" = Some progress →
     (z < - 2 ^ 31 ∨ 2 ^ 31 ≤ z)%Z →
     update_progress data w = (Raise OverflowError, w)) ∧
  (∀ v z progress, data !! "index" = Some v → py_int v w = (Ok z, w) →
     data !! "progress" = Some progress → (- 2 ^ 31 ≤ z < 0)%Z →
     update_progress data w = (Ok tt, w)).
Proof.
  unfold update_progress, c_int. run_monad. repeat split.
  - by intros ->.
  - intros v e -> Hint. simpl. by rewrite Hint.
  - intros v z -> Hint Hp. simpl. by rewrite Hint, Hp.
  - intros v z progress -> Hint Hp Hout. simpl. rewrite Hint, Hp. simpl.
    rewrite decide_False by lia. done.
  - intros v z progress -> Hint Hp Hneg. simpl. rewrite Hint, Hp. simpl.
    rewrite decide_True by lia. simpl. rewrite decide_False by lia. done.
Qed.

(** An error notification without an index, or with one that does not
    convert, opens no dialog and changes nothing. *)
Theorem handle_download_error_needs_index data w :
  (data !! "index" = None →
     handle_download_error data w = (Raise KeyError, w)) ∧
  (∀ v e, data !! "index" = Some v → py_int v w = (Raise e, w) →
     handle_download_error data w = (Raise e, w)) ∧
  (data !! "index" = Some PyNone →
     handle_download_error data w = (Raise TypeError, w)).
Proof.
  unfold handle_download_error. run_monad. repeat split.
  - by intros ->.
  - intros v e -> Hint. simpl. by rewrite Hint.
  - by intros ->.
Qed.

End Progress.

(** ** The download button and the dispatch *)

Section Button.
Context `{DownloadThreadStatics, YTChannel, PyBuiltins}.

(** On a table of full rows [update_download_button_state] returns with
    the download button enabled exactly when some row is checked, which
    is exactly when [dl_vids] would start a thread; on an empty table the
    button is disabled. *)
Theorem download_button_enabled_iff_dispatch w :
  Forall full_row (model w) →
  update_download_button_state w =
    (Ok tt, bool_decide (checked_rows (model w) ≠ [])) ∧
  ∃ w', dl_vids w = (Ok tt, w') ∧
    ((update_download_button_state w).2 = true ↔
     dl_threads w' ≠ dl_threads w).
Proof.
  intros Hfull.
  assert (update_download_button_state w =
          (Ok tt, bool_decide (checked_rows (model w) ≠ []))) as Hb.
  { unfold update_download_button_state.
    by rewrite button_loop_spec by by apply full_rows_have_boxes. }
  split; [done|]. rewrite Hb.
  destruct (dl_vids_spec w Hfull) as (m' & b & -> & _ & _).
  eexists. split; [done|]. simpl. rewrite bool_decide_eq_true.
  destruct (checked_rows (model w)) as [|i l]; simpl.
  - rewrite app_nil_r. split; intros Hne; by destruct Hne.
  - split; [|done]. intros _ Heq.
    apply (f_equal length) in Heq. rewrite length_app in Heq. simpl in Heq. lia.
Qed.

Lemma collect_loop_raises n : ∀ k w j,
  k ≤ j < k + n → j < length (model w) →
  model_item (model w) j DOWNLOAD = None →
  ∃ idx, for_each (seq k n) collect_body w =
         (Raise AttributeError, set_vid_dl_indexes idx w).
Proof.
  induction n as [|n IH]; intros k w j Hj Hlt Hnone; [lia|].
  simpl. unfold bind at 1. unfold collect_body at 1. run_monad.
  destruct (model_item (model w) k DOWNLOAD) as [item|] eqn:Hitem; simpl.
  - assert (k ≠ j) by congruence.
    destruct (decide (it_check item = Checked)).
    + destruct (IH (S k) (set_vid_dl_indexes (vid_dl_indexes w ++ [k]) w) j)
        as [idx ->]; [lia|done|done|]. by exists idx.
    + apply (IH (S k) w j); [lia|done|done].
  - exists (vid_dl_indexes w). by rewrite set_vid_dl_indexes_id.
Qed.

(** A row without a check box (one grown by a late progress report)
    stops both slots with [AttributeError]; [dl_vids] then has started no
    thread and written no cell: it looks at every row before it
    dispatches any. *)
Theorem row_without_check_box_stops_dispatch w i r :
  model w !! i = Some r → c_download r = None →
  (update_download_button_state w).1 = Raise AttributeError ∧
  ∃ idx, dl_vids w = (Raise AttributeError, set_vid_dl_indexes idx w).
Proof.
  intros Hr Hnone.
  pose proof (lookup_lt_Some _ _ _ Hr) as Hlt.
  assert (model_item (model w) i DOWNLOAD = None) as Hitem
    by (unfold model_item; by rewrite Hr).
  split.
  - apply (button_loop_raises _ _ _ i); [|done]. apply elem_of_seq. lia.
  - unfold dl_vids. run_monad.
    destruct (collect_loop_raises (length (model w)) 0
                (set_vid_dl_indexes [] w) i) as [idx ->];
      [simpl; lia|done|done|].
    by exists idx.
Qed.

(** [dl_vids] does not uncheck what it dispatches: pressing download
    again starts every checked row a second time. *)
Theorem dl_vids_twice_starts_twice w :
  Forall full_row (model w) →
  ∃ w1 w2, dl_vids w = (Ok tt, w1) ∧ dl_vids w1 = (Ok tt, w2) ∧
    checked_rows (model w1) = checked_rows (model w) ∧
    dl_threads w2 =
      dl_threads w ++ (thread_of (model w) <$> checked_rows (model w))
                   ++ (thread_of (model w) <$> checked_rows (model w)).
Proof.
  intros Hfull.
  destruct (dl_vids_spec w Hfull) as (m1 & b1 & Hrun1 & Hlen1 & Hcells1).
  set (w1 := set_downloadSelectedVidsButton_enabled _ _) in Hrun1.
  assert (∀ i r1, m1 !! i = Some r1 →
            ∃ r, model w !! i = Some r ∧ c_download r1 = c_download r ∧
                 c_title r1 = c_title r ∧ c_link r1 = c_link r) as Hrows.
  { intros i r1 Hr1.
    destruct (lookup_lt_is_Some_2 (model w) i) as [r Hr].
    { rewrite <- Hlen1. by eapply lookup_lt_Some. }
    exists r. split; [done|].
    pose proof (Hcells1 i) as Hc. unfold model_item in Hc.
    rewrite Hr1, Hr in Hc. simpl in Hc.
    split; [exact (Hc DOWNLOAD ltac:(done))|].
    split; [exact (Hc TITLE ltac:(done))|exact (Hc LINK ltac:(done))]. }
  assert (Forall full_row (model w1)) as Hfull1.
  { simpl. apply Forall_forall. intros r1 [i Hr1]%list_elem_of_lookup.
    destruct (Hrows i r1 Hr1) as (r & Hr & Hd & Ht & Hl).
    rewrite Forall_forall in Hfull.
    destruct (Hfull r) as (? & ? & ?); [by eapply list_elem_of_lookup_2|].
    unfold full_row. by rewrite Hd, Ht, Hl. }
  assert (checked_rows (model w1) = checked_rows (model w)) as Hchecked.
  { unfold checked_rows. simpl. rewrite Hlen1.
    apply list_filter_iff. intros i. unfold is_checked.
    by rewrite Hcells1. }
  assert (∀ i, thread_of (model w1) i = thread_of (model w) i) as Hthread.
  { intros i. unfold thread_of. simpl. by rewrite !Hcells1. }
  destruct (dl_vids_spec w1 Hfull1) as (m2 & b2 & Hrun2 & _ & _).
  eexists _, _. split; [exact Hrun1|]. split; [exact Hrun2|].
  split; [done|].
  change (dl_threads w1 ++
          (thread_of (model w1) <$> checked_rows (model w1)) =
          dl_threads w ++ (thread_of (model w) <$> checked_rows (model w))
                       ++ (thread_of (model w) <$> checked_rows (model w))).
  rewrite Hchecked. unfold w1 at 1. simpl. rewrite <- app_assoc.
  f_equal. f_equal. apply list_fmap_ext. intros _ i _. apply Hthread.
Qed.

End Button.

(** ** Populating, again *)

Section PopulateMore.
Context `{DownloadThreadStatics, YTChannel, PyBuiltins}.

Lemma populate_fold_explicit fs l w :
  fold_left (populate_body fs) l w =
  set_dl_path_correspondences
    (fold_left (λ d tl, <[tl.1 := destination (user_settings w) tl.1]> d) l
       (dl_path_correspondences w))
    (set_model (model w ++ (populated_row fs (user_settings w) <$> l)) w).
Proof.
  revert w. induction l as [|tl l IH]; intros w.
  - simpl. rewrite app_nil_r. by destruct w.
  - change (fold_left (populate_body fs) (tl :: l) w)
      with (fold_left (populate_body fs) l (populate_body fs w tl)).
    rewrite IH. rewrite populate_body_row.
    change (user_settings (populate_body fs w tl)) with (user_settings w).
    change (dl_path_correspondences (populate_body fs w tl))
      with (<[tl.1 := destination (user_settings w) tl.1]>
              (dl_path_correspondences w)).
    rewrite fmap_cons, <- app_assoc. simpl.
    unfold populate_body. by destruct w.
Qed.

(** [populate_window_list], written out: the model, the map and the two
    flags it leaves. *)
Lemma populate_explicit fs w :
  populate_window_list fs w =
  set_window_resize_needed
    (window_resize_needed w &&
     bool_decide (yt_chan_vids_titles_links w = []))
    (set_select_all_checkbox_visible
       (bool_decide (yt_chan_vids_titles_links w ≠ []))
       (set_dl_path_correspondences
          (fold_left
             (λ d tl, <[tl.1 := destination (user_settings w) tl.1]> d)
             (yt_chan_vids_titles_links w) (dl_path_correspondences w))
          (set_model
             (populated_row fs (user_settings w) <$>
                yt_chan_vids_titles_links w) w))).
Proof.
  unfold populate_window_list. rewrite populate_fold_explicit. simpl.
  destruct (yt_chan_vids_titles_links w) as [|tl l] eqn:Hl; simpl.
  - rewrite andb_true_r. destruct w; simpl in *. by subst.
  - rewrite andb_false_r. destruct (window_resize_needed w) eqn:Hr.
    + by destruct w.
    + destruct w; simpl in *. by subst.
Qed.

Lemma fold_insert_lookup (f : string → string) (l : list (string * string))
    (d : gmap string string) (t : string) :
  fold_left (λ d tl, <[tl.1 := f tl.1]> d) l d !! t =
  if decide (t ∈ l.*1) then Some (f t) else d !! t.
Proof.
  revert d. induction l as [|[t1 l1] l IH]; intros d; [done|].
  cbn [fold_left]. rewrite IH. rewrite fmap_cons. cbn [fst].
  destruct (decide (t ∈ l.*1)) as [Hin|Hin].
  - rewrite decide_True; [done|]. by apply list_elem_of_further.
  - destruct (decide (t = t1)) as [->|Hne].
    + rewrite decide_True by apply list_elem_of_here.
      by rewrite lookup_insert_eq.
    + rewrite decide_False; [by rewrite lookup_insert_ne|].
      intros [?|?]%elem_of_cons; done.
Qed.

(** The flags [populate_window_list] leaves: the select-all box is
    visible exactly when the stored list is not empty, the model has one
    row per entry, and a pending resize of the window stays pending only
    when there was nothing to show.  With an empty stored list the model
    is empty and the correspondence map is as it was. *)
Theorem populate_shows_select_all_iff_rows fs w :
  let w' := populate_window_list fs w in
  length (model w') = length (yt_chan_vids_titles_links w) ∧
  (select_all_checkbox_visible w' = true ↔ yt_chan_vids_titles_links w ≠ []) ∧
  (window_resize_needed w' = true ↔
   window_resize_needed w = true ∧ yt_chan_vids_titles_links w = []) ∧
  (yt_chan_vids_titles_links w = [] →
   model w' = [] ∧ dl_path_correspondences w' = dl_path_correspondences w).
Proof.
  intros w'. unfold w'. rewrite populate_explicit. simpl.
  split; [by rewrite length_fmap|]. split; [apply bool_decide_eq_true|].
  split.
  - rewrite andb_true_iff, bool_decide_eq_true. done.
  - by intros ->.
Qed.

Lemma window_ext w1 w2 :
  window_resize_needed w1 = window_resize_needed w2 →
  download_semaphore w1 = download_semaphore w2 →
  model w1 = model w2 →
  yt_chan_vids_titles_links w1 = yt_chan_vids_titles_links w2 →
  vid_dl_indexes w1 = vid_dl_indexes w2 →
  dl_threads w1 = dl_threads w2 →
  dl_path_correspondences w1 = dl_path_correspondences w2 →
  user_settings w1 = user_settings w2 →
  select_all_checkbox_visible w1 = select_all_checkbox_visible w2 →
  getVidListButton_enabled w1 = getVidListButton_enabled w2 →
  downloadSelectedVidsButton_enabled w1 =
    downloadSelectedVidsButton_enabled w2 →
  chanUrlEdit w1 = chanUrlEdit w2 →
  get_list_thread w1 = get_list_thread w2 →
  dialogs w1 = dialogs w2 →
  w1 = w2.
Proof.
  destruct w1, w2. simpl.
  by intros -> -> -> -> -> -> -> -> -> -> -> -> -> ->.
Qed.

(** What [populate_window_list] leaves as it found it. *)
Lemma populate_untouched fs w :
  let w' := populate_window_list fs w in
  download_semaphore w' = download_semaphore w ∧
  yt_chan_vids_titles_links w' = yt_chan_vids_titles_links w ∧
  vid_dl_indexes w' = vid_dl_indexes w ∧
  dl_threads w' = dl_threads w ∧
  user_settings w' = user_settings w ∧
  getVidListButton_enabled w' = getVidListButton_enabled w ∧
  downloadSelectedVidsButton_enabled w' =
    downloadSelectedVidsButton_enabled w ∧
  chanUrlEdit w' = chanUrlEdit w ∧
  get_list_thread w' = get_list_thread w ∧
  dialogs w' = dialogs w.
Proof. intros w'. unfold w'. rewrite populate_explicit. by repeat split. Qed.

Lemma populate_flags fs w :
  window_resize_needed (populate_window_list fs w) =
    window_resize_needed w && bool_decide (yt_chan_vids_titles_links w = []) ∧
  select_all_checkbox_visible (populate_window_list fs w) =
    bool_decide (yt_chan_vids_titles_links w ≠ []).
Proof. rewrite populate_explicit. by split. Qed.

(** Populating a second time from the same file system changes nothing:
    the slot is idempotent. *)
Theorem populate_idempotent fs w :
  populate_window_list fs (populate_window_list fs w) =
  populate_window_list fs w.
Proof.
  set (w1 := populate_window_list fs w).
  destruct (populate_untouched fs w)
    as (Hs & Hl & Hi & Ht & Hu & Hb & Hdb & Hc & Hg & Hd).
  destruct (populate_untouched fs w1)
    as (Hs1 & Hl1 & Hi1 & Ht1 & Hu1 & Hb1 & Hdb1 & Hc1 & Hg1 & Hd1).
  destruct (populate_flags fs w) as [Hr Hv].
  destruct (populate_flags fs w1) as [Hr1 Hv1].
  fold w1 in Hs, Hl, Hi, Ht, Hu, Hb, Hdb, Hc, Hg, Hd, Hr, Hv.
  apply window_ext; try done.
  - rewrite Hr1, Hl, Hr. by destruct (window_resize_needed w), (bool_decide _).
  - rewrite populate_model. unfold w1. rewrite populate_model.
    fold w1. by rewrite Hu, Hl.
  - apply map_eq. intros t. rewrite populate_dict. fold w1.
    rewrite Hl, Hu. unfold w1. rewrite populate_dict.
    by destruct (decide _).
  - rewrite Hv1, Hv. by rewrite Hl.
Qed.

(** [populate_window_list] never drops an entry of the correspondence
    map: the path of a title that is no longer listed stays on record,
    unchanged. *)
Theorem populate_keeps_old_entries fs w (title path : string) :
  dl_path_correspondences w !! title = Some path →
  ∃ path', dl_path_correspondences (populate_window_list fs w) !! title =
           Some path' ∧
    (title ∉ (yt_chan_vids_titles_links w).*1 → path' = path) ∧
    (title ∈ (yt_chan_vids_titles_links w).*1 →
     path' = destination (user_settings w) title).
Proof.
  intros Hold. rewrite populate_dict.
  destruct (decide _) as [Hin|Hout].
  - eexists. split; [done|]. by split.
  - exists path. split; [done|]. by split.
Qed.

(** No change of an item is signalled while [populate_window_list]
    rebuilds the rows, so the download button keeps the state it had
    although every row comes back unchecked; pressed then, [dl_vids]
    starts nothing. *)
Theorem populate_leaves_the_download_button fs w :
  let w' := populate_window_list fs w in
  downloadSelectedVidsButton_enabled w' =
    downloadSelectedVidsButton_enabled w ∧
  checked_rows (model w') = [] ∧
  update_download_button_state w' = (Ok tt, false) ∧
  dl_vids w' = (Ok tt, set_vid_dl_indexes [] w').
Proof.
  intros w'.
  assert (Forall full_row (model w')) as Hfull.
  { unfold w'. rewrite populate_model. apply Forall_fmap, Forall_true.
    intros tl. unfold full_row, populated_row. simpl.
    by destruct (is_download_complete _ _). }
  assert (checked_rows (model w') = []) as Hnone.
  { unfold checked_rows.
    destruct (filter _ _) as [|i l] eqn:Hf; [done|]. exfalso.
    assert (i ∈ filter (is_checked (model w')) (seq 0 (length (model w'))))
      as [Hi _]%list_elem_of_filter by (rewrite Hf; left).
    unfold is_checked, model_item in Hi.
    unfold w' in Hi. rewrite populate_model in Hi.
    rewrite list_lookup_fmap in Hi.
    destruct (yt_chan_vids_titles_links w !! i) as [tl|]; [|done].
    simpl in Hi. pose proof (populated_row_check fs (user_settings w) tl) as Hc.
    unfold row_check in Hc. destruct (c_download _); [|done].
    simpl in Hi, Hc. congruence. }
  split; [apply (populate_untouched fs w)|]. split; [done|]. split.
  - unfold update_download_button_state.
    rewrite button_loop_spec by by apply full_rows_have_boxes.
    fold (checked_rows (model w')). by rewrite Hnone.
  - unfold dl_vids. run_monad.
    rewrite collect_loop by (simpl; first [lia|done]). simpl.
    fold (checked_rows (model w')). by rewrite Hnone.
Qed.

End PopulateMore.

(** ** Select all, again *)

Section SelectAllMore.
Context `{DownloadThreadStatics, YTChannel, PyBuiltins}.

Lemma select_all_row_twice fs nv1 nv2 w m r :
  select_all_row fs nv2 (with_model m w) (select_all_row fs nv1 w r) =
  select_all_row fs nv2 w r.
Proof.
  rewrite select_all_row_with_model. unfold select_all_row.
  destruct (row_path w r) as [p|] eqn:Hp; [|by rewrite Hp].
  destruct (skipped fs p) eqn:Hs; [by rewrite Hp, Hs|].
  assert (row_path w (selected_as nv1 r) = Some p) as ->
    by (by destruct r).
  rewrite Hs. destruct r as [[cb|] ti li pr]; reflexivity.
Qed.

Lemma with_model_in_step m w :
  button_in_step w → with_model m w = emit_itemChanged (set_model m w).
Proof.
  intros Hstep. unfold with_model. destruct (decide _) as [->|]; [|done].
  unfold button_in_step in Hstep. unfold emit_itemChanged.
  change (update_download_button_state (set_model (model w) w))
    with (update_download_button_state w).
  rewrite <- Hstep. by destruct w.
Qed.

Lemma emit_itemChanged_in_step w : button_in_step (emit_itemChanged w).
Proof. done. Qed.

(** With the file system unchanged, of two uses of the select-all box
    the second decides: doing one after the other leaves the table that
    the second alone leaves, and the same window but for the download
    button; the same window outright when the button agreed with the
    table to begin with.  (After the first use it agrees if a row
    changed; after the second alone it may still be what it was.)  In
    particular the slot is idempotent on the table. *)
Theorem select_all_last_wins fs state1 state2 w :
  (∀ r, r ∈ model w → is_Some (row_path w r)) →
  ∃ w1 w2 w2',
    onSelectAllStateChanged fs state1 w = (Ok tt, w1) ∧
    onSelectAllStateChanged fs state2 w1 = (Ok tt, w2) ∧
    onSelectAllStateChanged fs state2 w = (Ok tt, w2') ∧
    model w2 = model w2' ∧
    w2 = set_downloadSelectedVidsButton_enabled
           (downloadSelectedVidsButton_enabled w2) w2' ∧
    (button_in_step w → w2 = w2').
Proof.
  intros Hpaths. rewrite (select_all_map fs state1 w Hpaths).
  set (m1 := select_all_row fs (bool_decide (state1 = 2%Z)) w <$> model w).
  set (m2 := select_all_row fs (bool_decide (state2 = 2%Z)) w <$> model w).
  assert (onSelectAllStateChanged fs state2 (with_model m1 w) =
          (Ok tt, with_model m2 (with_model m1 w))) as Hsecond.
  { rewrite select_all_map.
    - do 2 f_equal. rewrite with_model_model. unfold m1, m2.
      rewrite <- list_fmap_compose.
      apply list_fmap_ext. intros _ r _. simpl.
      apply select_all_row_twice.
    - rewrite with_model_model.
      intros r' (r & -> & Hr)%list_elem_of_fmap.
      rewrite row_path_with_model.
      unfold select_all_row. destruct (Hpaths r Hr) as [p Hp]. rewrite Hp.
      destruct (skipped fs p); [by rewrite Hp|]. exists p. by destruct r. }
  eexists _, _, _. split; [done|]. split; [exact Hsecond|].
  split; [exact (select_all_map fs state2 w Hpaths)|]. fold m2.
  split; [by rewrite !with_model_model|]. split.
  - destruct (with_model_button m1 w) as [b1 ->].
    destruct (with_model_button m2
                (set_downloadSelectedVidsButton_enabled b1 (set_model m1 w)))
      as [b2 ->].
    destruct (with_model_button m2 w) as [b2' ->]. done.
  - intros Hstep. rewrite (with_model_in_step m1 w Hstep).
    rewrite (with_model_in_step m2 w Hstep).
    rewrite with_model_in_step by apply emit_itemChanged_in_step.
    apply emit_itemChanged_set_model.
Qed.

End SelectAllMore.

(** ** Asking for a list, again *)

Section FetchMore.
Context `{DownloadThreadStatics, YTChannel, PyBuiltins}.

(** Which thread [show_vid_list] starts.  The playlist test comes first:
    a URL that passes it is fetched as a playlist whatever the other
    tests say; a video URL is fetched with its URL and no strategy word
    and handed to [handle_single_video]; any other URL is looked up as a
    channel and, when that gives an id, fetched by the id alone, without
    the URL. *)
Theorem fetch_routing w :
  let url := chanUrlEdit w in
  let w' := show_vid_list w in
  (is_video_with_playlist_url url || is_playlist_url url = true →
   get_list_thread w' =
     Some (started_fetch (Some "playlist") (Some url) slot_handle_video_list)) ∧
  (is_video_with_playlist_url url || is_playlist_url url = false →
   is_video_url url || is_short_video_url url = true →
   get_list_thread w' =
     Some (started_fetch None (Some url) slot_handle_single_video)) ∧
  (∀ channel_id,
     is_video_with_playlist_url url || is_playlist_url url = false →
     is_video_url url || is_short_video_url url = false →
     get_channel_id url = ChannelId channel_id →
     get_list_thread w' =
       Some (started_fetch (Some channel_id) None slot_handle_video_list)).
Proof.
  intros url w'. unfold w'. rewrite show_vid_list_cases.
  fold url. repeat split.
  - by intros ->.
  - by intros -> ->.
  - by intros channel_id -> -> ->.
Qed.

(** The outcomes of [show_vid_list]. *)
Lemma show_vid_list_outcome w :
  let url := chanUrlEdit w in
  let w' := show_vid_list w in
  model w' = model w ∧
  yt_chan_vids_titles_links w' = yt_chan_vids_titles_links w ∧
  dl_threads w' = dl_threads w ∧
  dl_path_correspondences w' = dl_path_correspondences w ∧
  window_resize_needed w' = true ∧
  ((getVidListButton_enabled w' = false ∧ dialogs w' = dialogs w ∧
    ∃ t, get_list_thread w' = Some t ∧ gl_running t = true ∧ delivers t) ∨
   (getVidListButton_enabled w' = true ∧
    get_list_thread w' = get_list_thread w ∧
    dialogs w' =
      dialogs w ++ [CustomDialog "URL error" "Please check your URL"])) ∧
  (getVidListButton_enabled w' = true ↔
   is_video_with_playlist_url url || is_playlist_url url = false ∧
   is_video_url url || is_short_video_url url = false ∧
   ∀ channel_id, get_channel_id url ≠ ChannelId channel_id).
Proof.
  intros url w'. unfold w'. rewrite show_vid_list_cases. fold url.
  assert (∀ handler cid curl,
    (handler = slot_handle_video_list ∨ handler = slot_handle_single_video) →
    let w1 := set_get_list_thread (Some (started_fetch cid curl handler))
                (set_getVidListButton_enabled false
                   (set_window_resize_needed true w)) in
    getVidListButton_enabled w1 = false ∧ dialogs w1 = dialogs w ∧
    ∃ t, get_list_thread w1 = Some t ∧ gl_running t = true ∧ delivers t)
    as Hstart.
  { intros handler cid curl Hh w1.
    split; [done|]. split; [done|]. eexists. split; [done|].
    split; [done|]. by apply delivers_started. }
  destruct (is_video_with_playlist_url url || is_playlist_url url).
  { repeat (split; [done|]). split.
    - left. apply Hstart; auto.
    - split; [done|]. by intros (? & _). }
  destruct (is_video_url url || is_short_video_url url).
  { repeat (split; [done|]). split.
    - left. apply Hstart; auto.
    - split; [done|]. by intros (_ & ? & _). }
  destruct (get_channel_id url) as [channel_id| |] eqn:Hid.
  - repeat (split; [done|]). split.
    + left. apply Hstart; auto.
    + split; [done|]. intros (_ & _ & Hno). by destruct (Hno channel_id).
  - repeat (split; [done|]). split; [by right|]. done.
  - repeat (split; [done|]). split; [by right|]. done.
Qed.

(** [show_vid_list] either rebinds [self.get_list_thread] to a new thread
    that runs and delivers, leaving the button disabled, or shows the URL
    error and enables the button again, leaving the thread attribute as
    it was; the second happens exactly when the URL passes none of the
    four tests and the channel lookup raises.  Either way the table, the
    stored list, the download threads and the correspondence map are as
    they were, and a resize of the window is pending. *)
Theorem show_vid_list_starts_or_reports w :
  let url := chanUrlEdit w in
  let w' := show_vid_list w in
  model w' = model w ∧
  yt_chan_vids_titles_links w' = yt_chan_vids_titles_links w ∧
  dl_threads w' = dl_threads w ∧
  dl_path_correspondences w' = dl_path_correspondences w ∧
  window_resize_needed w' = true ∧
  ((getVidListButton_enabled w' = false ∧ dialogs w' = dialogs w ∧
    ∃ t, get_list_thread w' = Some t ∧ gl_running t = true ∧ delivers t) ∨
   (getVidListButton_enabled w' = true ∧
    get_list_thread w' = get_list_thread w ∧
    dialogs w' =
      dialogs w ++ [CustomDialog "URL error" "Please check your URL"])) ∧
  (getVidListButton_enabled w' = true ↔
   is_video_with_playlist_url url || is_playlist_url url = false ∧
   is_video_url url || is_short_video_url url = false ∧
   ∀ channel_id, get_channel_id url ≠ ChannelId channel_id).
Proof. exact (show_vid_list_outcome w). Qed.

End FetchMore.

(** ** What no event undoes *)

Section Monotone.
Context `{DownloadThreadStatics, YTChannel, PyBuiltins}.

Lemma nothing_forgotten_refl w : nothing_forgotten w w.
Proof. by split. Qed.

Lemma nothing_forgotten_same w w' :
  dl_threads w' = dl_threads w →
  dl_path_correspondences w' = dl_path_correspondences w →
  nothing_forgotten w w'.
Proof. intros Ht Hd. split; [by rewrite Ht|]. intros t. by rewrite Hd. Qed.

Lemma nothing_forgotten_trans w1 w2 w3 :
  nothing_forgotten w1 w2 → nothing_forgotten w2 w3 → nothing_forgotten w1 w3.
Proof.
  intros [Hp1 Hk1] [Hp2 Hk2]. split; [by etrans|]. intros t Ht. auto.
Qed.

Lemma populate_forgets_nothing fs w :
  nothing_forgotten w (populate_window_list fs w).
Proof.
  split.
  - destruct (populate_frame fs w) as (m & d & v & r & ->). done.
  - intros t [p Hp]. rewrite populate_dict.
    destruct (decide _); [done|by rewrite Hp].
Qed.

Lemma for_each_forgets_nothing {A} (l : list A) (body : A → M unit) w :
  (∀ x w1, nothing_forgotten w1 (body x w1).2) →
  nothing_forgotten w (for_each l body w).2.
Proof.
  intros Hbody.
  apply (for_each_invariant (nothing_forgotten w));
    [|apply nothing_forgotten_refl].
  intros x w1 Hw1. by eapply nothing_forgotten_trans.
Qed.

Lemma step_forgets_nothing fs ev w : nothing_forgotten w (step fs ev w).
Proof.
  destruct ev as [s|st| |message|l|row c|state| |k data|k index]; cbn [step].
  - by apply nothing_forgotten_same.
  - by apply nothing_forgotten_same.
  - destruct (show_vid_list_frame w) as (t & d & b & ->).
    by apply nothing_forgotten_same.
  - by apply nothing_forgotten_same.
  - destruct (get_list_thread w) as [t|];
      [|apply nothing_forgotten_refl].
    unfold exec, emit_finished.
    eapply nothing_forgotten_trans; [|apply for_each_forgets_nothing].
    + by apply nothing_forgotten_same.
    + intros s w1. destruct s; simpl.
      * eapply nothing_forgotten_trans; [|apply populate_forgets_nothing].
        by apply nothing_forgotten_same.
      * eapply nothing_forgotten_trans; [|apply populate_forgets_nothing].
        by apply nothing_forgotten_same.
      * by apply nothing_forgotten_same.
  - unfold exec, model_setData, modify. simpl.
    destruct (with_model_button
                (model_update_item row DOWNLOAD (setCheckState c) (model w))
                w) as [b ->].
    by apply nothing_forgotten_same.
  - destruct (select_all_frame fs state w) as (m & b & ->).
    by apply nothing_forgotten_same.
  - destruct (dl_vids_frame w) as (m & idx & ts & b & -> & _).
    split; [by apply prefix_app_r|done].
  - destruct (dl_threads w !! k) as [t|]; [|apply nothing_forgotten_refl].
    unfold exec, emit_downloadProgressSignal.
    apply for_each_forgets_nothing. intros s w1. destruct s; simpl.
    + destruct (handle_download_error_frame data w1) as [ds Hds].
      unfold exec in Hds. rewrite Hds. by apply nothing_forgotten_same.
    + destruct (update_progress_frame data w1) as (m & b & Hm).
      unfold exec in Hm. rewrite Hm. by apply nothing_forgotten_same.
  - destruct (dl_threads w !! k) as [t|]; [|apply nothing_forgotten_refl].
    unfold exec, emit_downloadCompleteSignal.
    apply for_each_forgets_nothing. intros s w1. destruct s; simpl.
    + by apply nothing_forgotten_same.
    + apply populate_forgets_nothing.
Qed.

(** No event of the window takes a thread off [dl_threads] or a title out
    of the correspondence map: both only ever grow, whatever the window
    and whatever the slots connected to the thread that emits. *)
Theorem no_event_forgets fs ev w : nothing_forgotten w (step fs ev w).
Proof. exact (step_forgets_nothing fs ev w). Qed.

Lemma fetch_finished_enables fs t video_list w :
  get_list_thread w = Some t → gl_running t = true → delivers t →
  getVidListButton_enabled (step fs (EvFetchFinished video_list) w) = true.
Proof.
  intros Ht Hr Hd. cbn [step]. rewrite Ht. unfold exec.
  by rewrite emit_finished_delivers.
Qed.

(** In a window driven through its events the fetch button is never
    stuck: whenever it is disabled, the fetch thread that
    [self.get_list_thread] names is running, and the end of that thread
    enables the button again. *)
Theorem disabled_button_has_a_fetch_running settings w :
  reachable settings w → getVidListButton_enabled w = false →
  ∃ t, get_list_thread w = Some t ∧ gl_running t = true ∧ delivers t ∧
       ∀ fs video_list,
         enabled (EvFetchFinished video_list) w ∧
         getVidListButton_enabled
           (step fs (EvFetchFinished video_list) w) = true.
Proof.
  intros Hreach Hoff.
  destruct (reachable_invariant _ _ Hreach) as [_ _ Hf Hb].
  destruct (Hb Hoff) as (t & Ht & Hr).
  exists t. split; [done|]. split; [done|]. split; [by apply Hf|].
  intros fs video_list. split; [by exists t|].
  apply (fetch_finished_enables fs t); [done..|]. by apply Hf.
Qed.

End Monotone.

(** ** The table shows the stored list *)

Section ShowsList.
Context `{DownloadThreadStatics, YTChannel, PyBuiltins}.

Lemma model_update_item_cells row f m i c :
  model_item (model_update_item row DOWNLOAD f m) i c =
  if decide (i = row ∧ c = DOWNLOAD)
  then (λ r, f (default new_item (c_download r))) <$> m !! row
  else model_item m i c.
Proof.
  unfold model_update_item, model_item.
  destruct (decide (i = row)) as [->|Hne].
  - rewrite list_lookup_alter_eq. destruct (m !! row) as [r|]; simpl.
    + destruct c; simpl; case_decide as Hc; try done;
        first [by destruct Hc as [_ ?]|by exfalso; apply Hc].
    + by case_decide.
  - rewrite list_lookup_alter_ne by done.
    case_decide as Hc; [by destruct Hc|done].
Qed.

(** An operation that keeps the stored list and the map, every title and
    link cell, and the presence of every check box keeps [shows_list]. *)
Lemma shows_list_update w w' :
  shows_list w →
  yt_chan_vids_titles_links w' = yt_chan_vids_titles_links w →
  dl_path_correspondences w' = dl_path_correspondences w →
  (∀ i c, c ≠ PROGRESS → c ≠ DOWNLOAD →
     model_item (model w') i c = model_item (model w) i c) →
  (∀ i, is_Some (model_item (model w') i DOWNLOAD) ↔
        is_Some (model_item (model w) i DOWNLOAD)) →
  shows_list w'.
Proof.
  intros [Hlisted Hgrown] Hl Hd Hcells Hbox. split.
  - intros i tl Hi. rewrite Hl in Hi.
    destruct (Hlisted i tl Hi) as (Hb & Ht & Hk & Hp).
    unfold shows_entry. rewrite Hd.
    rewrite (Hcells i TITLE), (Hcells i LINK) by done.
    split; [by apply Hbox|done].
  - intros i c Hi Hc. rewrite Hl in Hi.
    destruct (decide (c = DOWNLOAD)) as [->|Hnd].
    + apply eq_None_not_Some. rewrite Hbox.
      rewrite (Hgrown i DOWNLOAD) by done. by intros [? ?].
    + rewrite Hcells by done. by apply Hgrown.
Qed.

Lemma shows_list_same_cells w w' :
  shows_list w →
  yt_chan_vids_titles_links w' = yt_chan_vids_titles_links w →
  dl_path_correspondences w' = dl_path_correspondences w →
  (∀ i c, c ≠ PROGRESS →
     model_item (model w') i c = model_item (model w) i c) →
  shows_list w'.
Proof.
  intros Hs Hl Hd Hcells. apply (shows_list_update w); try done.
  - intros i c Hc _. by apply Hcells.
  - intros i. by rewrite Hcells.
Qed.

(** A row with a title is a row of the stored list, so has a check box. *)
Lemma titled_row_has_box w row :
  shows_list w → is_Some (model_item (model w) row TITLE) →
  is_Some (model_item (model w) row DOWNLOAD).
Proof.
  intros [Hlisted Hgrown] Ht.
  destruct (decide (row < length (yt_chan_vids_titles_links w))) as [Hlt|Hge].
  - destruct (lookup_lt_is_Some_2 _ _ Hlt) as [tl Htl].
    by destruct (Hlisted row tl Htl).
  - rewrite (Hgrown row TITLE) in Ht by (done || lia). by destruct Ht.
Qed.

Lemma update_box_shows_list w row f :
  shows_list w → is_Some (model_item (model w) row DOWNLOAD) →
  shows_list (with_model (model_update_item row DOWNLOAD f (model w)) w).
Proof.
  intros Hs Hbox.
  destruct (with_model_button (model_update_item row DOWNLOAD f (model w)) w)
    as [b ->].
  apply (shows_list_update w); try done.
  - intros i c Hp Hd. simpl. rewrite model_update_item_cells.
    case_decide; [tauto|done].
  - intros i. simpl. rewrite model_update_item_cells.
    case_decide as Hi; [|done]. destruct Hi as [-> _].
    unfold model_item in *.
    destruct (model w !! row) as [r|]; simpl in *; [|by destruct Hbox].
    split; [done|by eexists].
Qed.

Lemma select_all_body_shows_list fs nv row w :
  shows_list w → shows_list (select_all_body fs nv row w).2.
Proof.
  intros Hs. unfold select_all_body, model_setData. run_monad.
  destruct (model_data (model w) row TITLE) as [[|title|b]|] eqn:Ht;
    simpl; try done.
  destruct (dl_path_correspondences w !! title) as [p|]; simpl; [|done].
  destruct (_ && _); simpl; [done|].
  assert (is_Some (model_item (model w) row DOWNLOAD)) as Hbox.
  { apply titled_row_has_box; [done|]. unfold model_data in Ht.
    destruct (model_item (model w) row TITLE); [by eexists|done]. }
  apply (update_box_shows_list
           (with_model (model_update_item row DOWNLOAD _ (model w)) w)).
  - by apply update_box_shows_list.
  - rewrite with_model_model, model_update_item_cells.
    rewrite decide_True by done.
    unfold model_item in Hbox.
    destruct (model w !! row) as [r|]; simpl in *; [by eexists|by destruct Hbox].
Qed.

Lemma dl_vids_cells w i c :
  c ≠ PROGRESS →
  model_item (model (exec dl_vids w)) i c = model_item (model w) i c.
Proof.
  intros Hc. revert i. unfold exec, dl_vids. run_monad.
  set (P := λ w1 : MainWindow,
              ∀ i, model_item (model w1) i c = model_item (model w) i c).
  assert (P (for_each (seq 0 (length (model w))) collect_body
               (set_vid_dl_indexes [] w)).2) as Hfirst.
  { apply for_each_invariant; [|done].
    intros row w1 Hw1. unfold collect_body. run_monad. run_cases; done. }
  destruct (for_each _ collect_body _) as [[[]|e] w1]; simpl in *; [|done].
  apply (for_each_invariant P); [|done].
  intros index w2 Hw2 i. unfold dispatch_body, setItem. run_monad.
  run_cases; rewrite setItem_progress_other_columns by done; apply Hw2.
Qed.

Lemma update_progress_cells data w i c :
  c ≠ PROGRESS →
  model_item (model (update_progress data w).2) i c = model_item (model w) i c.
Proof.
  intros Hc. unfold update_progress, py_int, c_int, setItem. run_monad.
  run_cases; try done; by apply setItem_progress_other_columns.
Qed.

Lemma populate_shows_list fs w : shows_list (populate_window_list fs w).
Proof.
  split.
  - intros i tl Hi. rewrite populate_explicit in Hi. simpl in Hi.
    unfold shows_entry. rewrite populate_dict, populate_model.
    unfold model_item. rewrite list_lookup_fmap, Hi. simpl.
    rewrite decide_True by (apply list_elem_of_fmap; exists tl; split;
                            [done|by eapply list_elem_of_lookup_2]).
    unfold populated_row. by destruct (is_download_complete _ _).
  - intros i c Hi _. rewrite populate_explicit in Hi. simpl in Hi.
    rewrite populate_model. unfold model_item.
    rewrite lookup_ge_None_2; [done|]. by rewrite length_fmap.
Qed.

Lemma reachable_shows_list settings w :
  reachable settings w →
  shows_list w ∧ length (yt_chan_vids_titles_links w) ≤ length (model w).
Proof.
  intros Hreach.
  assert (shows_list w) as Hs.
  { induction Hreach as [|w fs ev Hreach IH Hen].
    { split; [by intros i tl Hi|done]. }
    pose proof (reachable_invariant _ _ Hreach) as [Hd _ Hf _].
    rewrite Forall_forall in Hd.
    destruct ev as [s|st| |message|l|row c|state| |k data|k index];
      cbn [step enabled] in *.
    - by apply (shows_list_same_cells w).
    - by apply (shows_list_same_cells w).
    - pose proof (show_vid_list_outcome w) as Hsv. cbv zeta in Hsv.
      destruct Hsv as (Hm & Hl & _ & Hdict & _).
      apply (shows_list_same_cells w); try done. intros i c _. by rewrite Hm.
    - by apply (shows_list_same_cells w).
    - destruct Hen as (t & Ht & Hr). rewrite Ht.
      unfold exec. rewrite emit_finished_delivers; [|done|by apply Hf].
      cbn [snd]. unfold enable_get_vid_list_button.
      match goal with
      | |- shows_list (set_getVidListButton_enabled true ?p) =>
          apply (shows_list_same_cells p); [apply populate_shows_list|done..]
      end.
    - unfold exec, model_setData, modify. cbn [snd].
      by apply update_box_shows_list.
    - unfold exec, onSelectAllStateChanged. run_monad.
      apply (for_each_invariant shows_list); [|done].
      intros r w1. apply select_all_body_shows_list.
    - destruct (dl_vids_frame w) as (m & idx & ts & b & Hrun & _).
      apply (shows_list_same_cells w); [done|by rewrite Hrun..|].
      intros i c Hc. by apply dl_vids_cells.
    - destruct Hen as (t & Ht & _). rewrite Ht.
      destruct (Hd t) as (_ & Hp & _); [by eapply list_elem_of_lookup_2|].
      unfold exec, emit_downloadProgressSignal. rewrite Hp.
      cbn [for_each run_progress_slot]. unfold bind, ret.
      assert (shows_list (update_progress data w).2) as Hup.
      { destruct (update_progress_frame data w) as (m & b & Hm).
        unfold exec in Hm.
        apply (shows_list_same_cells w); [done|by rewrite Hm..|].
        intros i c Hc. by apply update_progress_cells. }
      by destruct (update_progress data w) as [[[]|e] w1].
    - destruct Hen as (t & Ht & _). rewrite Ht.
      destruct (Hd t) as (Hc & _ & _); [by eapply list_elem_of_lookup_2|].
      unfold exec, emit_downloadCompleteSignal. rewrite Hc.
      cbn [for_each run_complete_slot]. unfold bind, modify, ret. cbn [snd].
      apply populate_shows_list. }
  split; [done|].
  destruct (decide (length (yt_chan_vids_titles_links w) ≤ length (model w)))
    as [|Hlt]; [done|].
  destruct (lookup_lt_is_Some_2 (yt_chan_vids_titles_links w)
              (length (model w))) as [tl Htl]; [lia|].
  destruct (listed_rows w Hs _ _ Htl) as ([it Hit] & _).
  unfold model_item in Hit. rewrite lookup_ge_None_2 in Hit by done. done.
Qed.

(** In a window driven through its events the table always shows the
    stored list: row [i] has a check box and the title and link of entry
    [i], and the title has a path on record; rows past the end of the
    list (grown by late progress reports) have no check box, title or
    link.  So the table is never shorter than the list. *)
Theorem table_shows_stored_list settings w :
  reachable settings w →
  shows_list w ∧ length (yt_chan_vids_titles_links w) ≤ length (model w).
Proof. exact (reachable_shows_list settings w). Qed.

End ShowsList.

(** ** Select all and download in a window driven through its events *)

Section Driven.
Context `{DownloadThreadStatics, YTChannel, PyBuiltins}.

Lemma listed_row_known settings w i tl :
  reachable settings w → yt_chan_vids_titles_links w !! i = Some tl →
  ∃ r p, model w !! i = Some r ∧ full_row r ∧
         dl_path_correspondences w !! tl.1 = Some p ∧
         row_path w r = Some p.
Proof.
  intros Hreach Hi.
  destruct (reachable_shows_list settings w Hreach) as [[Hlisted _] _].
  destruct (Hlisted i tl Hi) as (Hb & Ht & Hl & [p Hp]).
  unfold model_item in *.
  destruct (model w !! i) as [r|]; simpl in *; [|by destruct Hb].
  exists r, p. split; [done|]. split; [|split; [done|]].
  - split; [done|]. split.
    + by destruct (c_title r).
    + by destruct (c_link r).
  - unfold row_path. by rewrite Ht.
Qed.

Lemma grown_row_unknown settings w i r :
  reachable settings w → model w !! i = Some r →
  length (yt_chan_vids_titles_links w) ≤ i →
  c_download r = None ∧ row_path w r = None.
Proof.
  intros Hreach Hr Hi.
  destruct (reachable_shows_list settings w Hreach) as [[_ Hgrown] _].
  pose proof (Hgrown i DOWNLOAD Hi ltac:(done)) as Hd.
  pose proof (Hgrown i TITLE Hi ltac:(done)) as Ht.
  unfold model_item in *. rewrite Hr in Hd, Ht. simpl in *.
  split; [done|]. unfold row_path. by rewrite Ht.
Qed.

(** In a window driven through its events the select-all slot treats
    every row of the stored list by the probe of its path: it leaves the
    row alone when the probe reports the (non-empty) path complete and
    otherwise sets its box to the state of the select-all box.  It
    returns normally exactly when the table has no rows past the end of
    the list; otherwise it raises [KeyError], after the listed rows. *)
Theorem select_all_treats_every_listed_row settings fs state w :
  reachable settings w →
  ∃ res w', onSelectAllStateChanged fs state w = (res, w') ∧
    (res = Ok tt ↔
     length (model w) = length (yt_chan_vids_titles_links w)) ∧
    (res = Ok tt ∨ res = Raise KeyError) ∧
    ∀ i title link,
      yt_chan_vids_titles_links w !! i = Some (title, link) →
      ∃ r p, model w !! i = Some r ∧
             dl_path_correspondences w !! title = Some p ∧
             model w' !! i =
               Some (if skipped fs p then r
                     else selected_as (bool_decide (state = 2%Z)) r).
Proof.
  intros Hreach.
  destruct (reachable_shows_list settings w Hreach) as [_ Hle].
  assert (∀ i r, i < length (yt_chan_vids_titles_links w) →
            model w !! i = Some r → is_Some (row_path w r)) as Hknown.
  { intros i r Hi Hr.
    destruct (lookup_lt_is_Some_2 _ _ Hi) as [tl Htl].
    destruct (listed_row_known settings w i tl Hreach Htl)
      as (r' & p & Hr' & _ & _ & Hp).
    rewrite Hr in Hr'. injection Hr' as <-. by rewrite Hp. }
  assert (∀ m' : list Row,
    (∀ i, i < length (yt_chan_vids_titles_links w) →
       m' !! i = select_all_row fs (bool_decide (state = 2%Z)) w <$>
                   model w !! i) →
    ∀ i title link,
      yt_chan_vids_titles_links w !! i = Some (title, link) →
      ∃ r p, model w !! i = Some r ∧
             dl_path_correspondences w !! title = Some p ∧
             m' !! i =
               Some (if skipped fs p then r
                     else selected_as (bool_decide (state = 2%Z)) r))
    as Hrows.
  { intros m' Hm' i title link Hi.
    destruct (listed_row_known settings w i _ Hreach Hi)
      as (r & p & Hr & _ & Hp & Hpath).
    exists r, p. split; [done|]. split; [done|].
    rewrite Hm' by (by eapply lookup_lt_Some). rewrite Hr. simpl.
    unfold select_all_row. by rewrite Hpath. }
  destruct (decide (length (model w) =
                    length (yt_chan_vids_titles_links w))) as [Heq|Hne].
  - rewrite select_all_map.
    2:{ intros r [i Hr]%list_elem_of_lookup. apply (Hknown i); [|done].
        rewrite <- Heq. by eapply lookup_lt_Some. }
    eexists _, _. split; [done|]. split; [done|]. split; [by left|].
    rewrite with_model_model.
    apply Hrows. intros i _. by rewrite list_lookup_fmap.
  - destruct (lookup_lt_is_Some_2 (model w)
                (length (yt_chan_vids_titles_links w))) as [r0 Hr0]; [lia|].
    destruct (grown_row_unknown settings w _ r0 Hreach Hr0) as [_ Hnone];
      [done|].
    destruct (select_all_upto_unknown fs state w _ r0 Hr0 Hnone)
      as (m' & -> & Hm'); [done|].
    eexists _, _. split; [done|]. split; [done|]. split; [by right|].
    rewrite with_model_model.
    apply Hrows. intros i Hi. rewrite Hm'.
    by rewrite decide_True.
Qed.

(** In a window driven through its events [dl_vids] starts one thread per
    checked row when the table has no rows past the end of the stored
    list, and otherwise raises [AttributeError] without having started a
    thread or written a cell. *)
Theorem dl_vids_in_a_driven_window settings w :
  reachable settings w →
  (length (model w) = length (yt_chan_vids_titles_links w) →
   ∃ w', dl_vids w = (Ok tt, w') ∧
     dl_threads w' =
       dl_threads w ++ (thread_of (model w) <$> checked_rows (model w))) ∧
  (length (model w) ≠ length (yt_chan_vids_titles_links w) →
   ∃ idx, dl_vids w = (Raise AttributeError, set_vid_dl_indexes idx w)).
Proof.
  intros Hreach. split.
  - intros Heq.
    assert (Forall full_row (model w)) as Hfull.
    { apply Forall_forall. intros r [i Hr]%list_elem_of_lookup.
      assert (i < length (yt_chan_vids_titles_links w)) as Hi
        by (rewrite <- Heq; by eapply lookup_lt_Some).
      destruct (lookup_lt_is_Some_2 _ _ Hi) as [tl Htl].
      destruct (listed_row_known settings w i tl Hreach Htl)
        as (r' & p & Hr' & Hf & _).
      rewrite Hr in Hr'. by injection Hr' as <-. }
    destruct (dl_vids_spec w Hfull) as (m' & b & -> & _ & _). by eexists.
  - intros Hne.
    destruct (reachable_shows_list settings w Hreach) as [_ Hle].
    destruct (lookup_lt_is_Some_2 (model w)
                (length (yt_chan_vids_titles_links w))) as [r0 Hr0]; [lia|].
    destruct (grown_row_unknown settings w _ r0 Hreach Hr0) as [Hnone _];
      [done|].
    assert (model_item (model w) (length (yt_chan_vids_titles_links w))
              DOWNLOAD = None) as Hitem
      by (unfold model_item; by rewrite Hr0).
    unfold dl_vids. run_monad.
    destruct (collect_loop_raises (length (model w)) 0
                (set_vid_dl_indexes [] w)
                (length (yt_chan_vids_titles_links w))) as [idx ->];
      [simpl; lia|simpl; lia|done|].
    by exists idx.
Qed.

Lemma populated_row_selected fs1 fs2 settings nv w (title link p : string) :
  row_path w (populated_row fs1 settings (title, link)) = Some p →
  let r := select_all_row fs2 nv w (populated_row fs1 settings (title, link)) in
  full_row r ∧
  text <$> c_title r = Some title ∧ text <$> c_link r = Some link ∧
  it_check <$> c_download r =
    Some (if skipped fs2 p then Unchecked
          else if nv then Checked else Unchecked).
Proof.
  intros Hp r. unfold r, select_all_row. rewrite Hp.
  unfold populated_row. simpl.
  destruct (skipped fs2 p), (is_download_complete fs1 _), nv;
    repeat split; by eexists.
Qed.

Lemma fmap_filter_omap {A B} (P : A → Prop) `{∀ x, Decision (P x)}
    (g : A → B) (f : A → option B) (l : list A) :
  (∀ x, x ∈ l → (P x → f x = Some (g x)) ∧ (¬ P x → f x = None)) →
  g <$> filter P l = omap f l.
Proof.
  induction l as [|x l IH]; intros Hf; [done|].
  destruct (Hf x) as [Hyes Hno]; [apply list_elem_of_here|].
  rewrite filter_cons. simpl.
  destruct (decide (P x)) as [Hp|Hp].
  - rewrite (Hyes Hp). simpl. f_equal. apply IH.
    intros y Hy. apply Hf. by apply list_elem_of_further.
  - rewrite (Hno Hp). apply IH.
    intros y Hy. apply Hf. by apply list_elem_of_further.
Qed.

(** A list arrives, the user ticks select-all and presses download: both
    slots return, and the threads started are, in the order of the list,
    one for every entry whose file the probe does not report complete
    when the box is ticked, carrying the entry's link, row number and
    title, and none for any other entry; they come after the threads
    that were there.  What the probe said when the list arrived, and so
    which rows were drawn locked, does not matter. *)
Theorem select_all_then_download fs1 fs2 video_list w :
  let w1 := handle_video_list fs1 video_list w in
  ∃ w2 w3,
    onSelectAllStateChanged fs2 2 w1 = (Ok tt, w2) ∧
    dl_vids w2 = (Ok tt, w3) ∧
    dl_threads w3 =
      dl_threads w ++
      omap (download_of fs2 (user_settings w) video_list)
        (seq 0 (length video_list)).
Proof.
  intros w1.
  set (w0 := set_yt_chan_vids_titles_links video_list w).
  assert (w1 = populate_window_list fs1 w0) as Hw1 by done.
  assert (model w1 =
          populated_row fs1 (user_settings w) <$> video_list) as Hm1
    by (rewrite Hw1; exact (populate_model fs1 w0)).
  assert (∀ tl, tl ∈ video_list →
            row_path w1 (populated_row fs1 (user_settings w) tl) =
            Some (destination (user_settings w) tl.1)) as Hpath.
  { intros tl Htl. rewrite Hw1. unfold row_path, populated_row.
    assert (tl.1 ∈ (yt_chan_vids_titles_links w0).*1) as Ht
      by (apply list_elem_of_fmap; eauto).
    destruct (is_download_complete _ _); simpl;
      by rewrite populate_dict, decide_True. }
  assert (∀ r, r ∈ model w1 → is_Some (row_path w1 r)) as Hknown.
  { intros r. rewrite Hm1. intros (tl & -> & Htl)%list_elem_of_fmap.
    by rewrite Hpath. }
  rewrite (select_all_map fs2 2 w1 Hknown).
  set (m2 := select_all_row fs2 (bool_decide (2 = 2)%Z) w1 <$> model w1).
  assert (∀ i title link, video_list !! i = Some (title, link) →
    ∃ r, m2 !! i = Some r ∧ full_row r ∧
         text <$> c_title r = Some title ∧ text <$> c_link r = Some link ∧
         it_check <$> c_download r =
           Some (if skipped fs2 (destination (user_settings w) title)
                 then Unchecked else Checked)) as Hrow.
  { intros i title link Hi. eexists. split.
    - unfold m2. rewrite Hm1, !list_lookup_fmap, Hi. done.
    - apply (populated_row_selected fs1 fs2 (user_settings w) true w1
               title link (destination (user_settings w) title)).
      apply (Hpath (title, link)). by eapply list_elem_of_lookup_2. }
  assert (length m2 = length video_list) as Hlen
    by (unfold m2; by rewrite Hm1, !length_fmap).
  assert (Forall full_row (model (with_model m2 w1))) as Hfull.
  { rewrite with_model_model.
    apply Forall_forall. intros r [i Hr]%list_elem_of_lookup.
    assert (i < length video_list) as Hi
      by (rewrite <- Hlen; by eapply lookup_lt_Some).
    destruct (lookup_lt_is_Some_2 _ _ Hi) as [[title link] Htl].
    destruct (Hrow i title link Htl) as (r' & Hr' & Hf & _).
    rewrite Hr in Hr'. by injection Hr' as <-. }
  destruct (dl_vids_spec (with_model m2 w1) Hfull)
    as (m3 & b & Hrun & _ & _).
  eexists _, _. split; [done|]. split; [exact Hrun|].
  cbn [dl_threads set_downloadSelectedVidsButton_enabled set_dl_threads].
  rewrite with_model_model.
  assert (dl_threads (with_model m2 w1) = dl_threads w) as ->.
  { destruct (with_model_button m2 w1) as [b' ->].
    change (dl_threads w1 = dl_threads w). rewrite Hw1.
    by destruct (populate_untouched fs1 w0) as (_ & _ & _ & -> & _). }
  f_equal. unfold checked_rows. rewrite Hlen.
  apply fmap_filter_omap. intros i Hi%elem_of_seq.
  destruct (lookup_lt_is_Some_2 video_list i) as [[title link] Htl]; [lia|].
  destruct (Hrow i title link Htl) as (r & Hr & _ & Ht & Hl & Hck).
  assert (thread_of m2 i =
          mkDownloadThread link i title self [slot_populate_window_list]
            [slot_update_progress] true) as Hthread.
  { unfold thread_of, model_item. rewrite Hr. simpl. by rewrite Ht, Hl. }
  unfold download_of, is_checked, model_item. rewrite Htl, Hr. simpl.
  rewrite Hck, Hthread.
  destruct (skipped fs2 _); split; try done; by intros [].
Qed.

End Driven.

(** ** The semaphore and the threads *)

Section Gate.
Context `{DownloadThreadStatics, YTChannel, PyBuiltins}.








End Gate.

(** ** Size and place of the window *)

Section Place.
Import Geometry.

Lemma round_two_thirds (h : Z) :
  (2 * h - 1 ≤ 3 * py_round_div (h * 2) 3 ≤ 2 * h + 1)%Z.
Proof.
  unfold py_round_div.
  pose proof (Z.div_mod (h * 2) 3 ltac:(done)) as Hdm.
  pose proof (Z.mod_pos_bound (h * 2) 3 ltac:(done)) as Hb.
  destruct (Z.ltb_spec (2 * ((h * 2) mod 3)) 3); [lia|].
  destruct (Z.ltb_spec 3 (2 * ((h * 2) mod 3))); [lia|].
  lia.
Qed.

(** [autoAdjustWindowSize] either leaves the window as it is or gives it
    a size that fits: no wider than the screen or than the columns
    together, no taller than the rows with the header, and no taller than
    two thirds of the screen (to the nearest pixel).  It leaves the
    window alone only when that is wider than the columns call for and
    already as tall as it would be made. *)
Theorem autoAdjustWindowSize_fits screen_size column_widths row_hint
    header_height rowCount window :
  let size := autoAdjustWindowSize screen_size column_widths row_hint
                header_height rowCount window in
  let total_width :=
    Z.min (fold_left Z.add column_widths 0%Z) (width screen_size) in
  let total_height :=
    Z.min (row_hint * Z.of_nat rowCount + header_height)
          (py_round_div (height screen_size * 2) 3) in
  (size = mkQSize total_width total_height ∨
   (size = window ∧ (total_width < width window)%Z ∧
    height window = total_height)) ∧
  (width size ≤ Z.max (width window) (width screen_size))%Z ∧
  (size ≠ window →
   (width size ≤ width screen_size)%Z ∧
   (width size ≤ fold_left Z.add column_widths 0)%Z ∧
   (height size ≤ row_hint * Z.of_nat rowCount + header_height)%Z ∧
   (3 * height size ≤ 2 * height screen_size + 1)%Z).
Proof.
  intros size total_width total_height.
  pose proof (round_two_thirds (height screen_size)) as Hround.
  unfold size, autoAdjustWindowSize. fold total_width. fold total_height.
  destruct (Z.leb_spec (width window) total_width) as [Hw|Hw]; simpl.
  - split; [by left|]. split; [unfold total_width; lia|].
    intros _. unfold total_width, total_height. lia.
  - destruct (Z.eqb_spec total_height (height window)) as [Hh|Hh]; simpl.
    + split; [by right|]. split; [lia|]. done.
    + split; [by left|]. split; [unfold total_width; lia|].
      intros _. unfold total_width, total_height. lia.
Qed.

(** [center_on_screen] puts the window so that the space left of it and
    the space right of it differ by at most one pixel, the larger one on
    the right, and likewise above and below; also when the window is
    larger than the screen. *)
Theorem center_on_screen_balances screen_geometry window_geometry :
  let '(x, y) := center_on_screen screen_geometry window_geometry in
  let right := (width screen_geometry - width window_geometry - x)%Z in
  let below := (height screen_geometry - height window_geometry - y)%Z in
  (x ≤ right ≤ x + 1)%Z ∧ (y ≤ below ≤ y + 1)%Z.
Proof.
  unfold center_on_screen. simpl.
  pose proof (Z.div_mod (width screen_geometry - width window_geometry) 2
                ltac:(done)).
  pose proof (Z.mod_pos_bound (width screen_geometry - width window_geometry)
                2 ltac:(done)).
  pose proof (Z.div_mod (height screen_geometry - height window_geometry) 2
                ltac:(done)).
  pose proof (Z.mod_pos_bound
                (height screen_geometry - height window_geometry) 2
                ltac:(done)).
  lia.
Qed.

End Place.

(** ** The YouTube login entry *)

Section LoginEntry.
Import Login.

Lemma update_menu_agrees u : menu_agrees (update_youtube_login_menu u).
Proof.
  unfold menu_agrees, update_youtube_login_menu.
  destruct u as [[d|] entry eff]; simpl; [|done].
  destruct (logged_in d) eqn:Hl; simpl; by rewrite Hl.
Qed.

Lemma update_menu_twice u :
  update_youtube_login_menu (update_youtube_login_menu u) =
  update_youtube_login_menu u.
Proof.
  unfold update_youtube_login_menu.
  destruct u as [[d|] entry eff]; simpl; [|done].
  destruct (logged_in d) eqn:Hl; simpl; by rewrite Hl.
Qed.

Lemma update_menu_many n u :
  Nat.iter (S n) update_youtube_login_menu u = update_youtube_login_menu u.
Proof.
  induction n as [|n IH]; [done|].
  change (Nat.iter (S (S n)) update_youtube_login_menu u)
    with (update_youtube_login_menu
            (Nat.iter (S n) update_youtube_login_menu u)).
  rewrite IH. apply update_menu_twice.
Qed.

Lemma handle_youtube_login_spec cookie dont_show accepted u :
  let d := default (new_dialog cookie) (youtube_login_dialog u) in
  let u' := handle_youtube_login cookie dont_show accepted u in
  (logged_in d = true →
   u' = mkLoginUi None "YouTube login" (effects u ++ [Logout])) ∧
  (logged_in d = false →
   youtube_login_dialog u' =
     Some (mkDialog false (S (connections d))
             (shown d || dont_show || accepted)) ∧
   actionYoutube_login u' = actionYoutube_login u ∧
   effects u' = effects u ++ (if dont_show then [] else [PromptShown])).
Proof.
  intros d u'. unfold u', handle_youtube_login. fold d. simpl. split.
  - by intros ->.
  - intros Hl. rewrite Hl. simpl. unfold show_youtube_login_dialog. simpl.
    destruct dont_show, accepted; simpl; rewrite ?Hl; simpl;
      unfold show_dialog, connect_menu; simpl;
      rewrite ?Hl, ?app_nil_r, ?orb_true_r, ?orb_false_r; done.
Qed.

Lemma handle_youtube_login_cases cookie dont_show accepted u :
  let u' := handle_youtube_login cookie dont_show accepted u in
  u' = mkLoginUi None "YouTube login" (effects u ++ [Logout]) ∨
  ∃ d', youtube_login_dialog u' = Some d' ∧ logged_in d' = false ∧
        1 ≤ connections d' ∧
        actionYoutube_login u' = actionYoutube_login u ∧
        match youtube_login_dialog u with
        | Some d => logged_in d = false
        | None => True
        end.
Proof.
  intros u'.
  destruct (handle_youtube_login_spec cookie dont_show accepted u)
    as [Hin Hout]. fold u' in Hin, Hout.
  destruct (logged_in (default (new_dialog cookie) (youtube_login_dialog u)))
    eqn:Hl.
  - left. by apply Hin.
  - right. destruct (Hout eq_refl) as (Hd & Ht & _).
    eexists. split; [exact Hd|]. split; [done|]. split; [simpl; lia|].
    split; [done|]. by destruct (youtube_login_dialog u).
Qed.


(** What a click on the login entry does.  With a dialog that reports a
    login (the one the window holds or, when it holds none, the one made
    on the spot from the cookie jar) it logs out, resets the entry to
    "YouTube login" and drops the dialog, showing nothing.  Otherwise the
    dialog stays, connected once more to the menu slot; it is shown when
    the prompt is switched off or the user accepts it, and the prompt is
    put up exactly when it is not switched off. *)
Theorem handle_youtube_login_outcomes cookie dont_show accepted u :
  let d := default (new_dialog cookie) (youtube_login_dialog u) in
  let u' := handle_youtube_login cookie dont_show accepted u in
  (logged_in d = true →
   u' = mkLoginUi None "YouTube login" (effects u ++ [Logout])) ∧
  (logged_in d = false →
   youtube_login_dialog u' =
     Some (mkDialog false (S (connections d))
             (shown d || dont_show || accepted)) ∧
   actionYoutube_login u' = actionYoutube_login u ∧
   effects u' = effects u ++ (if dont_show then [] else [PromptShown])).
Proof. exact (handle_youtube_login_spec cookie dont_show accepted u). Qed.

(** The login entry starts out in step with the dialog made from the
    cookie jar, and a click on it keeps it in step; whatever dialog the
    click leaves is connected to the menu slot, so when that dialog later
    changes what it reports and emits its signal, the entry says so,
    however many times the slot was connected. *)
Theorem login_menu_agrees cookie dont_show accepted u :
  let u' := handle_youtube_login cookie dont_show accepted u in
  menu_agrees (initialize_youtube_login cookie) ∧
  (menu_agrees u → menu_agrees u') ∧
  (∀ d, youtube_login_dialog u' = Some d → 1 ≤ connections d) ∧
  (∀ b, youtube_login_dialog u' ≠ None →
     emit_logged_in_signal (dialog_reports b u') =
     update_youtube_login_menu (dialog_reports b u') ∧
     menu_agrees (emit_logged_in_signal (dialog_reports b u'))).
Proof.
  intros u'. split; [apply update_menu_agrees|].
  pose proof (handle_youtube_login_cases cookie dont_show accepted u)
    as Hcases. cbv zeta in Hcases. fold u' in Hcases.
  destruct Hcases as [Hout|(d' & Hd' & Hl' & Hc')].
  - split; [|split].
    + intros _. by rewrite Hout.
    + intros d. by rewrite Hout.
    + intros b. by rewrite Hout.
  - destruct Hc' as [Hc' Ht'].
    split; [|split].
    + intros Hag. unfold menu_agrees in *. rewrite Hd', Hl'.
      destruct Ht' as [Hsame Hold]. rewrite Hsame.
      destruct (youtube_login_dialog u) as [d|]; [|done].
      by rewrite Hold in Hag.
    + intros d. rewrite Hd'. intros [= <-]. lia.
    + intros b _. unfold emit_logged_in_signal, dialog_reports.
      rewrite Hd'. simpl.
      destruct (connections d') as [|n] eqn:Hn; [lia|].
      rewrite update_menu_many. split; [done|apply update_menu_agrees].
Qed.

End LoginEntry.

(** ** The further properties at the examples *)

Import MoreExamples.

Lemma replaced_reachable : reachable no_settings replaced.
Proof.
  unfold replaced. apply reachable_step.
  - apply reachable_step; [apply downloading_reachable|reflexivity].
  - eexists. split; reflexivity.
Defined.

Lemma grown_reachable : reachable no_settings grown.
Proof.
  unfold grown. apply reachable_step; [apply replaced_reachable|].
  eexists. split; reflexivity.
Defined.

Lemma update_progress_writes_one_cell_witness :
  report !! "index" = Some (PyStr "1") ∧
  py_int (PyStr "1") populated = (Ok 1%Z, populated) ∧
  report !! "progress" = Some (PyStr "42") ∧
  (0 ≤ 1 < 2 ^ 31)%Z ∧
  ∃ w', update_progress report populated = (Ok tt, w') ∧
    w' = set_downloadSelectedVidsButton_enabled
           (update_download_button_state w').2
           (set_model (model w') populated) ∧
    length (model w') =
      Nat.max (length (model populated)) (S (Z.to_nat 1)) ∧
    model_item (model w') (Z.to_nat 1) PROGRESS =
      Some (new_text_item (py_str (PyStr "42"))) ∧
    (∀ row c, c ≠ PROGRESS →
       model_item (model w') row c = model_item (model populated) row c) ∧
    (∀ row, row ≠ Z.to_nat 1 → row < length (model populated) →
       model w' !! row = model populated !! row) ∧
    (∀ row, length (model populated) ≤ row < Z.to_nat 1 →
       model w' !! row = Some empty_row) ∧
    (Z.to_nat 1 < length (model populated) →
     Forall (λ r, is_Some (c_download r)) (model populated) →
     checked_rows (model w') = checked_rows (model populated) ∧
     update_download_button_state w' =
       (Ok tt, bool_decide (checked_rows (model populated) ≠ []))) ∧
    (length (model populated) ≤ Z.to_nat 1 →
     (update_download_button_state w').1 = Raise AttributeError).
Proof.
  assert (report !! "index" = Some (PyStr "1")) as Hv by (by vm_compute).
  assert (py_int (PyStr "1") populated = (Ok 1%Z, populated)) as Hint
    by reflexivity.
  assert (report !! "progress" = Some (PyStr "42")) as Hp by (by vm_compute).
  assert (0 ≤ 1 < 2 ^ 31)%Z as Hnn by lia.
  split; [exact Hv|]. split; [exact Hint|]. split; [exact Hp|].
  split; [exact Hnn|].
  exact (update_progress_writes_one_cell report (PyStr "1") 1%Z (PyStr "42")
           populated Hv Hint Hp Hnn).
Defined.

Lemma update_progress_rejects_witness :
  let data : gmap string PyVal :=
    {[ "index" := PyInt 2147483648; "progress" := PyStr "42" ]} in
  data !! "index" = Some (PyInt 2147483648) ∧
  py_int (PyInt 2147483648) populated = (Ok 2147483648%Z, populated) ∧
  data !! "progress" = Some (PyStr "42") ∧
  (2147483648 < - 2 ^ 31 ∨ 2 ^ 31 ≤ 2147483648)%Z ∧
  update_progress data populated = (Raise OverflowError, populated).
Proof.
  intros data.
  assert (data !! "index" = Some (PyInt 2147483648)) as Hv
    by (by vm_compute).
  assert (py_int (PyInt 2147483648) populated =
          (Ok 2147483648%Z, populated)) as Hint by reflexivity.
  assert (data !! "progress" = Some (PyStr "42")) as Hp by (by vm_compute).
  assert (2147483648 < - 2 ^ 31 ∨ 2 ^ 31 ≤ 2147483648)%Z as Hout
    by (right; lia).
  split; [exact Hv|]. split; [exact Hint|]. split; [exact Hp|].
  split; [exact Hout|].
  destruct (update_progress_rejects data populated)
    as (_ & _ & _ & Hoverflow & _).
  exact (Hoverflow _ _ _ Hv Hint Hp Hout).
Defined.

Lemma handle_download_error_needs_index_witness :
  let data : gmap string PyVal := {[ "error" := PyStr "Network error" ]} in
  data !! "index" = None ∧
  handle_download_error data populated = (Raise KeyError, populated).
Proof.
  intros data.
  assert (data !! "index" = None) as Hnone by (by vm_compute).
  split; [exact Hnone|].
  destruct (handle_download_error_needs_index data populated)
    as (Hmissing & _).
  exact (Hmissing Hnone).
Defined.

Lemma download_button_enabled_iff_dispatch_witness :
  Forall full_row (model five_checked) ∧
  update_download_button_state five_checked =
    (Ok tt, bool_decide (checked_rows (model five_checked) ≠ [])) ∧
  ∃ w', dl_vids five_checked = (Ok tt, w') ∧
    ((update_download_button_state five_checked).2 = true ↔
     dl_threads w' ≠ dl_threads five_checked).
Proof.
  split; [exact five_checked_full|].
  exact (download_button_enabled_iff_dispatch five_checked five_checked_full).
Defined.

Lemma row_without_check_box_stops_dispatch_witness :
  model grown !! 1 = Some empty_row ∧ c_download empty_row = None ∧
  (update_download_button_state grown).1 = Raise AttributeError ∧
  ∃ idx, dl_vids grown = (Raise AttributeError, set_vid_dl_indexes idx grown).
Proof.
  assert (model grown !! 1 = Some empty_row) as Hrow by reflexivity.
  split; [exact Hrow|]. split; [reflexivity|].
  exact (row_without_check_box_stops_dispatch grown 1 empty_row Hrow eq_refl).
Defined.

Lemma dl_vids_twice_starts_twice_witness :
  Forall full_row (model five_checked) ∧
  ∃ w1 w2, dl_vids five_checked = (Ok tt, w1) ∧ dl_vids w1 = (Ok tt, w2) ∧
    checked_rows (model w1) = checked_rows (model five_checked) ∧
    dl_threads w2 =
      dl_threads five_checked ++
      (thread_of (model five_checked) <$> checked_rows (model five_checked)) ++
      (thread_of (model five_checked) <$> checked_rows (model five_checked)).
Proof.
  split; [exact five_checked_full|].
  exact (dl_vids_twice_starts_twice five_checked five_checked_full).
Defined.

Lemma populate_keeps_old_entries_witness :
  dl_path_correspondences relisted !! "Talk" = Some "./Talk" ∧
  ∃ path',
    dl_path_correspondences (populate_window_list intro_there relisted)
      !! "Talk" = Some path' ∧
    ("Talk" ∉ (yt_chan_vids_titles_links relisted).*1 → path' = "./Talk") ∧
    ("Talk" ∈ (yt_chan_vids_titles_links relisted).*1 →
     path' = destination (user_settings relisted) "Talk").
Proof.
  assert (dl_path_correspondences relisted !! "Talk" = Some "./Talk")
    as Hold by (by vm_compute).
  split; [exact Hold|].
  exact (populate_keeps_old_entries intro_there relisted "Talk" "./Talk" Hold).
Defined.

Lemma select_all_last_wins_witness :
  (∀ r, r ∈ model populated → is_Some (row_path populated r)) ∧
  ∃ w1 w2 w2',
    onSelectAllStateChanged intro_there 2 populated = (Ok tt, w1) ∧
    onSelectAllStateChanged intro_there 0 w1 = (Ok tt, w2) ∧
    onSelectAllStateChanged intro_there 0 populated = (Ok tt, w2') ∧
    model w2 = model w2' ∧
    w2 = set_downloadSelectedVidsButton_enabled
           (downloadSelectedVidsButton_enabled w2) w2' ∧
    (button_in_step populated → w2 = w2').
Proof.
  split; [exact populated_rows_have_paths|].
  exact (select_all_last_wins intro_there 2 0 populated
           populated_rows_have_paths).
Defined.

Lemma disabled_button_has_a_fetch_running_witness :
  reachable no_settings asked ∧ getVidListButton_enabled asked = false ∧
  ∃ t, get_list_thread asked = Some t ∧ gl_running t = true ∧ delivers t ∧
       ∀ fs video_list,
         enabled (EvFetchFinished video_list) asked ∧
         getVidListButton_enabled
           (step fs (EvFetchFinished video_list) asked) = true.
Proof.
  assert (getVidListButton_enabled asked = false) as Hoff by reflexivity.
  split; [exact asked_reachable|]. split; [exact Hoff|].
  exact (disabled_button_has_a_fetch_running no_settings asked
           asked_reachable Hoff).
Defined.

Lemma table_shows_stored_list_witness :
  reachable no_settings grown ∧
  shows_list grown ∧
  length (yt_chan_vids_titles_links grown) ≤ length (model grown).
Proof.
  split; [exact grown_reachable|].
  exact (table_shows_stored_list no_settings grown grown_reachable).
Defined.

Lemma select_all_treats_every_listed_row_witness :
  reachable no_settings grown ∧
  ∃ res w', onSelectAllStateChanged intro_there 2 grown = (res, w') ∧
    (res = Ok tt ↔
     length (model grown) = length (yt_chan_vids_titles_links grown)) ∧
    (res = Ok tt ∨ res = Raise KeyError) ∧
    ∀ i title link,
      yt_chan_vids_titles_links grown !! i = Some (title, link) →
      ∃ r p, model grown !! i = Some r ∧
             dl_path_correspondences grown !! title = Some p ∧
             model w' !! i =
               Some (if skipped intro_there p then r
                     else selected_as (bool_decide (2 = 2)%Z) r).
Proof.
  split; [exact grown_reachable|].
  exact (select_all_treats_every_listed_row no_settings intro_there 2 grown
           grown_reachable).
Defined.

Lemma dl_vids_in_a_driven_window_witness :
  reachable no_settings grown ∧
  length (model grown) ≠ length (yt_chan_vids_titles_links grown) ∧
  ∃ idx, dl_vids grown = (Raise AttributeError, set_vid_dl_indexes idx grown).
Proof.
  assert (length (model grown) ≠ length (yt_chan_vids_titles_links grown))
    as Hne by (by vm_compute).
  split; [exact grown_reachable|]. split; [exact Hne|].
  destruct (dl_vids_in_a_driven_window no_settings grown grown_reachable)
    as [_ Hraise].
  exact (Hraise Hne).
Defined.

Lemma fetch_routing_witness :
  let w := set_chanUrlEdit "https://www.youtube.com/watch?v=abc&list=PL1"
             (MainWindow_init no_settings) in
  is_video_with_playlist_url (chanUrlEdit w) || is_playlist_url (chanUrlEdit w)
    = true ∧
  is_video_url (chanUrlEdit w) = true ∧
  get_list_thread (show_vid_list w) =
    Some (started_fetch (Some "playlist") (Some (chanUrlEdit w))
            slot_handle_video_list).
Proof.
  intros w.
  assert (is_video_with_playlist_url (chanUrlEdit w)
          || is_playlist_url (chanUrlEdit w) = true) as Hp by reflexivity.
  split; [exact Hp|]. split; [reflexivity|].
  destruct (fetch_routing w) as (Hplaylist & _).
  exact (Hplaylist Hp).
Defined.

Lemma handle_youtube_login_outcomes_witness :
  let d := default (Login.new_dialog false)
             (Login.youtube_login_dialog idle_login) in
  Login.logged_in d = false ∧
  Login.youtube_login_dialog
    (Login.handle_youtube_login false false true idle_login) =
    Some (Login.mkDialog false (S (Login.connections d))
            (Login.shown d || false || true)) ∧
  Login.actionYoutube_login
    (Login.handle_youtube_login false false true idle_login) =
    Login.actionYoutube_login idle_login ∧
  Login.effects (Login.handle_youtube_login false false true idle_login) =
    Login.effects idle_login ++ [Login.PromptShown].
Proof.
  intros d.
  assert (Login.logged_in d = false) as Hl by reflexivity.
  split; [exact Hl|].
  destruct (handle_youtube_login_outcomes false false true idle_login)
    as [_ Hout].
  exact (Hout Hl).
Defined.

Lemma login_menu_agrees_witness :
  Login.menu_agrees idle_login ∧
  Login.menu_agrees (Login.handle_youtube_login false false true idle_login).
Proof.
  assert (Login.menu_agrees idle_login) as Hag by reflexivity.
  split; [exact Hag|].
  destruct (login_menu_agrees false false true idle_login) as (_ & Hkeep & _).
  exact (Hkeep Hag).
Defined.






(** The session of the example once more: select-all and download start
    one thread, for the one video whose file is not there. *)
Example select_all_then_download_example :
  (λ t, (dt_index t, dt_title t)) <$>
    dl_threads
      (exec dl_vids
         (exec (onSelectAllStateChanged intro_there 2)
            (handle_video_list intro_there three_videos
               (MainWindow_init no_settings))))
  = [(2, "Talk")].
Proof. by vm_compute. Qed.
